(** * PropertyHub: the search filter, the favourites store and the detail lookup

    A shallow embedding of the logic of the PropertyHub front end
    (src/pages/Index.tsx, src/pages/PropertyDetail.tsx,
    src/components/SearchForm.tsx, src/components/FavoritesPanel.tsx and
    src/types/Property.ts), followed by the statements proved about it.

    React state is modelled by explicit state passing: a handler takes the
    state its closure captured and returns the state after its [set...] calls
    and its [localStorage] writes.  [localStorage] is a finite map from keys
    to strings. *)

From Stdlib Require Import ZArith Ascii String List Bool Lia.
From stdpp Require Import base option list gmap strings pretty.

#[local] Open Scope Z_scope.

(* ===================================================================== *)
(** * The ECMAScript primitives the program calls *)
(* ===================================================================== *)

Module JS.

(** Numbers.  The program only meets integers (catalog fields, results of
    [parseInt]) and NaN ([parseInt] of a text with no leading digits):
    [Int z] is the double whose value is the integer [z].  Comparisons of
    such doubles are those of the integers.  Arithmetic is that of the
    integers as long as its operands and its result are within 2^53 in
    absolute value, where every integer is a double: the statements that
    compute with numbers are about indices of an array, or carry that
    bound. *)
Inductive number := NaN | Int (z : Z).

(** ToBoolean, as applied by [if (v)], [v || w] and [v && w]. *)
Definition truthy_number (n : number) : bool :=
  match n with
  | NaN => false
  | Int z => negb (z =? 0)
  end.

Definition truthy_string (s : string) : bool :=
  match s with
  | EmptyString => false
  | String _ _ => true
  end.

(** [x >= y], [x <= y] and [x === y] on numbers: false as soon as one side
    is NaN. *)
Definition ge (x y : number) : bool :=
  match x, y with
  | Int a, Int b => b <=? a
  | _, _ => false
  end.

Definition le (x y : number) : bool :=
  match x, y with
  | Int a, Int b => a <=? b
  | _, _ => false
  end.

Definition strict_equal (x y : number) : bool :=
  match x, y with
  | Int a, Int b => a =? b
  | _, _ => false
  end.

(** [x + y], [x - y] and [x % y] on numbers.  The remainder has the sign
    of the dividend and is NaN when the divisor is 0; the negative zero is
    not told from zero. *)
Definition add (x y : number) : number :=
  match x, y with
  | Int a, Int b => Int (a + b)
  | _, _ => NaN
  end.

Definition sub (x y : number) : number :=
  match x, y with
  | Int a, Int b => Int (a - b)
  | _, _ => NaN
  end.

Definition rem (x y : number) : number :=
  match x, y with
  | Int a, Int b => if b =? 0 then NaN else Int (Z.rem a b)
  | _, _ => NaN
  end.

(** The text of a number in a template literal: the decimal digits of an
    integer.  This is what the program writes for an integer below 10^21 in
    absolute value (above, it writes an exponent form): a statement about
    the text of a number bounds the number. *)
Definition ToString (n : number) : string :=
  match n with
  | NaN => "NaN"
  | Int z => pretty z
  end.

(** Strings are the byte strings of their UTF-8 encoding.

    [String.prototype.toLowerCase] on a text of ASCII characters: the
    letters A to Z are replaced.  The bytes above 127, which encode the
    other characters, are left alone, while the program also replaces the
    capital letters among those: a statement about letter case is made for
    ASCII texts. *)
Definition lower_ascii (c : ascii) : ascii :=
  let n := nat_of_ascii c in
  if ((65 <=? n) && (n <=? 90))%nat then ascii_of_nat (n + 32) else c.

Fixpoint toLowerCase (s : string) : string :=
  match s with
  | EmptyString => EmptyString
  | String c s' => String (lower_ascii c) (toLowerCase s')
  end.

(** [s.includes(searchString)]: [searchString] occurs in [s] at some
    position. *)
Fixpoint includes (s searchString : string) : bool :=
  String.prefix searchString s
  || match s with
     | EmptyString => false
     | String _ s' => includes s' searchString
     end.

(** [parseInt(string)] with no radix argument (ECMA-262, 19.2.5): leading
    white space is skipped, then an optional sign, then an optional [0x] or
    [0X] that selects radix 16; the value is that of the longest prefix of
    digits of the radix, and NaN when that prefix is empty.  The value is
    the integer the digits write; the program has the double nearest to
    it, which is that integer when it is within 2^53 in absolute value.

    The white space is StrWhiteSpaceChar (WhiteSpace and LineTerminator):
    the characters U+0009 to U+000D and U+0020, of one byte, U+00A0, of two
    bytes, and U+1680, U+2000 to U+200A, U+2028, U+2029, U+202F, U+205F,
    U+3000 and U+FEFF, of three bytes. *)
Definition isStrWhiteSpaceChar (c : ascii) : bool :=
  let n := nat_of_ascii c in
  (((9 <=? n) && (n <=? 13)) || (n =? 32))%nat.

Definition isStrWhiteSpaceChar2 (c1 c2 : ascii) : bool :=
  ((nat_of_ascii c1 =? 194) && (nat_of_ascii c2 =? 160))%nat.

Definition isStrWhiteSpaceChar3 (c1 c2 c3 : ascii) : bool :=
  let n1 := nat_of_ascii c1 in
  let n2 := nat_of_ascii c2 in
  let n3 := nat_of_ascii c3 in
  (if n1 =? 225 then (n2 =? 154) && (n3 =? 128)
   else if n1 =? 226 then
     if n2 =? 128 then
       ((128 <=? n3) && (n3 <=? 138)) || (n3 =? 168) || (n3 =? 169) || (n3 =? 175)
     else (n2 =? 129) && (n3 =? 159)
   else if n1 =? 227 then (n2 =? 128) && (n3 =? 128)
   else if n1 =? 239 then (n2 =? 187) && (n3 =? 191)
   else false)%nat.

Fixpoint trimStart (s : string) : string :=
  match s with
  | String c1 s1 =>
      if isStrWhiteSpaceChar c1 then trimStart s1
      else
        match s1 with
        | String c2 s2 =>
            if isStrWhiteSpaceChar2 c1 c2 then trimStart s2
            else
              match s2 with
              | String c3 s3 =>
                  if isStrWhiteSpaceChar3 c1 c2 c3 then trimStart s3 else s
              | EmptyString => s
              end
        | EmptyString => s
        end
  | EmptyString => s
  end.

Definition digitValue (c : ascii) : option Z :=
  let n := Z.of_nat (nat_of_ascii c) in
  if (48 <=? n) && (n <=? 57) then Some (n - 48)
  else if (97 <=? n) && (n <=? 122) then Some (n - 87)
  else if (65 <=? n) && (n <=? 90) then Some (n - 55)
  else None.

(** The value of the longest prefix of radix-[R] digits of [s], starting
    from the digits already read ([acc], [None] when there are none). *)
Fixpoint digits (R : Z) (s : string) (acc : option Z) : option Z :=
  match s with
  | EmptyString => acc
  | String c s' =>
      match digitValue c with
      | Some d =>
          if d <? R then digits R s' (Some (R * default 0 acc + d)) else acc
      | None => acc
      end
  end.

Definition parseInt (string : string) : number :=
  let inputString := trimStart string in
  let '(sign, unsigned) :=
    match inputString with
    | String "-"%char r => (-1, r)
    | String "+"%char r => (1, r)
    | _ => (1, inputString)
    end in
  let '(R, body) :=
    match unsigned with
    | String "0"%char (String "x"%char r) => (16, r)
    | String "0"%char (String "X"%char r) => (16, r)
    | _ => (10, unsigned)
    end in
  match digits R body None with
  | Some n => Int (sign * n)
  | None => NaN
  end.

(** [new Date(s)] compared with [>=] and [<=]: the operands are converted
    to their time values, NaN for an invalid date.  The model reads the
    date-only form [YYYY-MM-DD] of ECMA-262 21.4.1.32, which is what an
    [<input type="date">] yields and what the catalog stores, as UTC
    midnight of that day when the calendar has it.  Every other text is NaN
    here.  The program reads more than that: the other forms of 21.4.1.32
    (a year alone, a date with a time), the forms an implementation adds,
    and in some implementations a day past the end of its month, up to 31.
    So a statement about dates is made for the texts that name a day of
    the calendar, or for those of the form [YYYY-MM-DD] whose month is not
    one of 01 to 12 or whose day is not one of 01 to 31, with a year from
    1000 on, which are invalid dates for the program too. *)
Definition decimal (c : ascii) : option Z :=
  let n := Z.of_nat (nat_of_ascii c) in
  if (48 <=? n) && (n <=? 57) then Some (n - 48) else None.

Definition isLeapYear (y : Z) : bool :=
  ((y mod 4 =? 0) && negb (y mod 100 =? 0)) || (y mod 400 =? 0).

Definition DaysInMonth (y m : Z) : Z :=
  if m =? 2 then (if isLeapYear y then 29 else 28)
  else if (m =? 4) || (m =? 6) || (m =? 9) || (m =? 11) then 30
  else 31.

Definition DayFromYear (y : Z) : Z :=
  365 * (y - 1970) + (y - 1969) / 4 - (y - 1901) / 100 + (y - 1601) / 400.

(** Days from 1 January of [y] to the first day of month [m]. *)
Fixpoint daysBefore (y : Z) (m : nat) : Z :=
  match m with
  | O => 0
  | S m' => daysBefore y m' + DaysInMonth y (Z.of_nat m)
  end.

Definition msPerDay : Z := 86400000.

Definition MakeDate (y m d : Z) : number :=
  if (1 <=? m) && (m <=? 12) && (1 <=? d) && (d <=? DaysInMonth y m)
  then Int (msPerDay * (DayFromYear y + daysBefore y (Z.to_nat (m - 1)) + (d - 1)))
  else NaN.

(** The year, the month and the day that a text of the form [YYYY-MM-DD]
    writes. *)
Definition dateFields (s : string) : option (Z * Z * Z) :=
  match s with
  | String y1 (String y2 (String y3 (String y4 (String "-"%char
      (String m1 (String m2 (String "-"%char
      (String d1 (String d2 EmptyString))))))))) =>
      match decimal y1, decimal y2, decimal y3, decimal y4,
            decimal m1, decimal m2, decimal d1, decimal d2 with
      | Some a, Some b, Some c, Some d, Some e, Some f, Some g, Some h =>
          Some (1000 * a + 100 * b + 10 * c + d, 10 * e + f, 10 * g + h)
      | _, _, _, _, _, _, _, _ => None
      end
  | _ => None
  end.

Definition Date_valueOf (s : string) : number :=
  match dateFields s with
  | Some (y, m, d) => MakeDate y m d
  | None => NaN
  end.

(** ** JSON

    [JSON.parse] and [JSON.stringify] (ECMA-262 25.5, ECMA-404).  A number
    literal with a fraction or an exponent is kept as its text.  An object
    keeps its members in the order of the text. *)
Module JSON.

#[local] Set Warnings "-register-all".

Inductive value :=
  | Null
  | Bool (b : bool)
  | Integer (z : Z)
  | Decimal (literal : string)
  | Str (s : string)
  | Array (elements : list value)
  | Object (members : list (string * value)).

Definition dquote : ascii := ascii_of_nat 34.

Definition isWhiteSpace (c : ascii) : bool :=
  let n := nat_of_ascii c in
  ((n =? 9) || (n =? 10) || (n =? 13) || (n =? 32))%nat.

Fixpoint skip (s : string) : string :=
  match s with
  | String c s' => if isWhiteSpace c then skip s' else s
  | EmptyString => s
  end.

Fixpoint strip_prefix (p s : string) : option string :=
  match p, s with
  | EmptyString, _ => Some s
  | String a p', String b s' => if Ascii.eqb a b then strip_prefix p' s' else None
  | String _ _, EmptyString => None
  end.

(** *** Reading *)

(** The bytes of the code unit of a [\uXXXX] escape, in UTF-8 (a surrogate
    half is encoded on its own). *)
Definition utf8 (n : Z) : string :=
  let byte (k : Z) := ascii_of_nat (Z.to_nat k) in
  if n <? 128 then String (byte n) EmptyString
  else if n <? 2048 then
    String (byte (192 + n / 64)) (String (byte (128 + n mod 64)) EmptyString)
  else
    String (byte (224 + n / 4096))
      (String (byte (128 + (n / 64) mod 64))
        (String (byte (128 + n mod 64)) EmptyString)).

Definition hex (c : ascii) : option Z :=
  match digitValue c with
  | Some d => if d <? 16 then Some d else None
  | None => None
  end.

Definition prepend (u : string) (x : option (string * string))
  : option (string * string) :=
  match x with
  | Some (t, rest) => Some (u +:+ t, rest)
  | None => None
  end.

Definition byte (n : nat) : string := String (ascii_of_nat n) EmptyString.

(** The characters of a string literal after its opening quote, up to the
    closing quote, and the text after it. *)
Fixpoint chars (s : string) : option (string * string) :=
  match s with
  | EmptyString => None
  | String c r =>
      if Ascii.eqb c dquote then Some (EmptyString, r)
      else if Ascii.eqb c "\"%char then
        match r with
        | String e r' =>
            if Ascii.eqb e dquote then prepend (byte 34) (chars r')
            else if Ascii.eqb e "\"%char then prepend (byte 92) (chars r')
            else if Ascii.eqb e "/"%char then prepend (byte 47) (chars r')
            else if Ascii.eqb e "b"%char then prepend (byte 8) (chars r')
            else if Ascii.eqb e "f"%char then prepend (byte 12) (chars r')
            else if Ascii.eqb e "n"%char then prepend (byte 10) (chars r')
            else if Ascii.eqb e "r"%char then prepend (byte 13) (chars r')
            else if Ascii.eqb e "t"%char then prepend (byte 9) (chars r')
            else if Ascii.eqb e "u"%char then
              match r' with
              | String h1 (String h2 (String h3 (String h4 r''))) =>
                  match hex h1, hex h2, hex h3, hex h4 with
                  | Some a, Some b, Some c, Some d =>
                      prepend (utf8 (4096 * a + 256 * b + 16 * c + d)) (chars r'')
                  | _, _, _, _ => None
                  end
              | _ => None
              end
            else None
        | EmptyString => None
        end
      else if (nat_of_ascii c <? 32)%nat then None
      else prepend (String c EmptyString) (chars r)
  end.

(** The longest prefix of decimal digits, and the text after it. *)
Fixpoint span_digits (s : string) : string * string :=
  match s with
  | String c r =>
      match decimal c with
      | Some _ => let '(ds, rest) := span_digits r in (String c ds, rest)
      | None => (EmptyString, s)
      end
  | EmptyString => (EmptyString, s)
  end.

Definition decimal_value (ds : string) : Z := default 0 (digits 10 ds None).

(** The parts of a number literal: an optional minus sign, then 0 or a
    digit from 1 to 9 followed by digits, then an optional fraction (a
    point and digits) and an optional exponent (e or E, an optional sign,
    digits).  Each part returns its text and the text after it. *)
Definition minus_part (s : string) : string * string :=
  match s with
  | String c r => if Ascii.eqb c "-"%char then ("-", r) else (EmptyString, s)
  | EmptyString => (EmptyString, s)
  end.

Definition digits_part (s : string) : option (string * string) :=
  match span_digits s with
  | (EmptyString, _) => None
  | (ds, rest) => Some (ds, rest)
  end.

Definition integer_part (s : string) : option (string * string) :=
  match digits_part s with
  | Some (String c (String d ds), rest) =>
      if Ascii.eqb c "0"%char then None else Some (String c (String d ds), rest)
  | other => other
  end.

Definition fraction_part (s : string) : option (string * string) :=
  match s with
  | String c r =>
      if Ascii.eqb c "."%char then
        match digits_part r with
        | Some (ds, rest) => Some (String c ds, rest)
        | None => None
        end
      else Some (EmptyString, s)
  | EmptyString => Some (EmptyString, s)
  end.

Definition sign_part (s : string) : string * string :=
  match s with
  | String c r =>
      if Ascii.eqb c "-"%char || Ascii.eqb c "+"%char
      then (String c EmptyString, r)
      else (EmptyString, s)
  | EmptyString => (EmptyString, s)
  end.

Definition exponent_part (s : string) : option (string * string) :=
  match s with
  | String c r =>
      if Ascii.eqb c "e"%char || Ascii.eqb c "E"%char then
        let '(sign, r1) := sign_part r in
        match digits_part r1 with
        | Some (ds, rest) => Some (String c sign +:+ ds, rest)
        | None => None
        end
      else Some (EmptyString, s)
  | EmptyString => Some (EmptyString, s)
  end.

Definition number_literal (s : string) : option (value * string) :=
  let '(minus, s1) := minus_part s in
  match integer_part s1 with
  | Some (int, s2) =>
      match fraction_part s2 with
      | Some (frac, s3) =>
          match exponent_part s3 with
          | Some (exp, s4) =>
              match frac, exp with
              | EmptyString, EmptyString =>
                  let n := decimal_value int in
                  Some (Integer (match minus with EmptyString => n | _ => - n end), s4)
              | _, _ => Some (Decimal (minus +:+ int +:+ frac +:+ exp), s4)
              end
          | None => None
          end
      | None => None
      end
  | None => None
  end.

(** The text after the character [c], white space before it skipped. *)
Definition expect (c : ascii) (s : string) : option string :=
  match skip s with
  | String c' r => if Ascii.eqb c c' then Some r else None
  | EmptyString => None
  end.

(** One level of the grammar, given the readers of the level below.
    [value_step] reads a value; [elements] reads the elements of an array
    after its opening bracket, up to the closing one, and [members] the
    members of an object after its opening brace. *)
Definition value_step
    (elements : string -> option (list value * string))
    (members : string -> option (list (string * value) * string))
    (s : string) : option (value * string) :=
  match skip s with
  | EmptyString => None
  | String c r as t =>
      if Ascii.eqb c dquote then
        match chars r with
        | Some (str, rest) => Some (Str str, rest)
        | None => None
        end
      else if Ascii.eqb c "["%char then
        match expect "]" r with
        | Some rest => Some (Array [], rest)
        | None =>
            match elements r with
            | Some (vs, rest) => Some (Array vs, rest)
            | None => None
            end
        end
      else if Ascii.eqb c "{"%char then
        match expect "}" r with
        | Some rest => Some (Object [], rest)
        | None =>
            match members r with
            | Some (ms, rest) => Some (Object ms, rest)
            | None => None
            end
        end
      else if Ascii.eqb c "n"%char then
        match strip_prefix "null" t with
        | Some rest => Some (Null, rest)
        | None => None
        end
      else if Ascii.eqb c "t"%char then
        match strip_prefix "true" t with
        | Some rest => Some (Bool true, rest)
        | None => None
        end
      else if Ascii.eqb c "f"%char then
        match strip_prefix "false" t with
        | Some rest => Some (Bool false, rest)
        | None => None
        end
      else number_literal t
  end.

Definition elements_step
    (value : string -> option (value * string))
    (elements : string -> option (list JSON.value * string))
    (s : string) : option (list JSON.value * string) :=
  match value s with
  | Some (v, r) =>
      match expect "," r with
      | Some r' =>
          match elements r' with
          | Some (vs, rest) => Some (v :: vs, rest)
          | None => None
          end
      | None =>
          match expect "]" r with
          | Some rest => Some ([v], rest)
          | None => None
          end
      end
  | None => None
  end.

Definition members_step
    (value : string -> option (value * string))
    (members : string -> option (list (string * JSON.value) * string))
    (s : string) : option (list (string * JSON.value) * string) :=
  match expect dquote s with
  | Some r =>
      match chars r with
      | Some (key, r1) =>
          match expect ":" r1 with
          | Some r2 =>
              match value r2 with
              | Some (v, r3) =>
                  match expect "," r3 with
                  | Some r4 =>
                      match members r4 with
                      | Some (ms, rest) => Some ((key, v) :: ms, rest)
                      | None => None
                      end
                  | None =>
                      match expect "}" r3 with
                      | Some rest => Some ([(key, v)], rest)
                      | None => None
                      end
                  end
              | None => None
              end
          | None => None
          end
      | None => None
      end
  | None => None
  end.

(** The readers, with [fuel] levels of nested calls. *)
Fixpoint read_value (fuel : nat) (s : string) : option (value * string) :=
  match fuel with
  | O => None
  | S fuel => value_step (read_elements fuel) (read_members fuel) s
  end
with read_elements (fuel : nat) (s : string) : option (list value * string) :=
  match fuel with
  | O => None
  | S fuel => elements_step (read_value fuel) (read_elements fuel) s
  end
with read_members (fuel : nat) (s : string) : option (list (string * value) * string) :=
  match fuel with
  | O => None
  | S fuel => members_step (read_value fuel) (read_members fuel) s
  end.

(** [JSON.parse(text)]; [None] is the SyntaxError it throws.  A text of
    [n] characters never uses more than [2 * n + 1] levels. *)
Definition parse (text : string) : option value :=
  match read_value (2 * String.length text + 2) text with
  | Some (v, rest) =>
      match skip rest with
      | EmptyString => Some v
      | String _ _ => None
      end
  | None => None
  end.

(** *** The readers and their fuel *)

(** A reader that returns a text shorter than the one it was given. *)
Definition consumes {A} (read : string -> option (A * string)) : Prop :=
  forall s a r, read s = Some (a, r) -> (String.length r < String.length s)%nat.

(** [read'] returns what [read] returns, on the texts shorter than [n]. *)
Definition extends_below {A} (n : nat) (read read' : string -> option A) : Prop :=
  forall t r, (String.length t < n)%nat -> read t = Some r -> read' t = Some r.

(** *** Writing *)

Definition hexDigit (n : Z) : ascii :=
  ascii_of_nat (Z.to_nat (if n <? 10 then 48 + n else 87 + n)).

Fixpoint escape (s : string) : string :=
  match s with
  | EmptyString => EmptyString
  | String c r =>
      let n := Z.of_nat (nat_of_ascii c) in
      (if n =? 34 then String "\"%char (String dquote EmptyString)
       else if n =? 92 then "\\"
       else if n =? 8 then "\b"
       else if n =? 12 then "\f"
       else if n =? 10 then "\n"
       else if n =? 13 then "\r"
       else if n =? 9 then "\t"
       else if n <? 32 then
         "\u00" +:+ String (hexDigit (n / 16)) (String (hexDigit (n mod 16)) EmptyString)
       else String c EmptyString) +:+ escape r
  end.

Definition quote (s : string) : string :=
  String dquote (escape s +:+ String dquote EmptyString).

Definition join (ss : list string) : string := String.concat "," ss.

(** [JSON.stringify(v)], with no indentation. *)
Fixpoint stringify (v : value) : string :=
  match v with
  | Null => "null"
  | Bool true => "true"
  | Bool false => "false"
  | Integer z => pretty z
  | Decimal literal => literal
  | Str s => quote s
  | Array elements => "[" +:+ join (List.map stringify elements) +:+ "]"
  | Object members =>
      "{" +:+ join (List.map (fun m => quote (fst m) +:+ ":" +:+ stringify (snd m)) members)
          +:+ "}"
  end.

(** [o[key]] on a parsed value: the last member of that name, as a later
    member of a JSON text overwrites an earlier one. *)
Fixpoint last_member (key : string) (members : list (string * value)) : option value :=
  match members with
  | [] => None
  | (k, v) :: rest =>
      match last_member key rest with
      | Some w => Some w
      | None => if String.eqb k key then Some v else None
      end
  end.

Definition get (key : string) (v : value) : option value :=
  match v with
  | Object members => last_member key members
  | _ => None
  end.

End JSON.

End JS.

(* ===================================================================== *)
(** * src/types/Property.ts *)
(* ===================================================================== *)

Module Property.

(** [interface Property].  The numeric fields are read from JSON and are
    integers in the catalog. *)
Record t := mk {
  id : Z;
  type : string;
  bedrooms : Z;
  price : Z;
  location : string;
  description : string;
  added : string;
  picture : string;
  images : list string;
  url : string;
  tenure : string;
  postcode : string
}.

(** The object [JSON.stringify] sees for a record: its own properties, in
    the order of the interface. *)
Definition toJSON (p : t) : JS.JSON.value :=
  JS.JSON.Object
    [ ("id", JS.JSON.Integer (id p));
      ("type", JS.JSON.Str (type p));
      ("bedrooms", JS.JSON.Integer (bedrooms p));
      ("price", JS.JSON.Integer (price p));
      ("location", JS.JSON.Str (location p));
      ("description", JS.JSON.Str (description p));
      ("added", JS.JSON.Str (added p));
      ("picture", JS.JSON.Str (picture p));
      ("images", JS.JSON.Array (List.map JS.JSON.Str (images p)));
      ("url", JS.JSON.Str (url p));
      ("tenure", JS.JSON.Str (tenure p));
      ("postcode", JS.JSON.Str (postcode p)) ].

(** Reading a parsed value at the interface: [None] when the value does
    not have the shape of a [Property]. *)
Definition integerField (key : string) (v : JS.JSON.value) : option Z :=
  match JS.JSON.get key v with
  | Some (JS.JSON.Integer z) => Some z
  | _ => None
  end.

Definition stringField (key : string) (v : JS.JSON.value) : option string :=
  match JS.JSON.get key v with
  | Some (JS.JSON.Str s) => Some s
  | _ => None
  end.

Definition asString (v : JS.JSON.value) : option string :=
  match v with
  | JS.JSON.Str s => Some s
  | _ => None
  end.

Definition stringsField (key : string) (v : JS.JSON.value) : option (list string) :=
  match JS.JSON.get key v with
  | Some (JS.JSON.Array elements) => mapM asString elements
  | _ => None
  end.

Definition ofJSON (v : JS.JSON.value) : option t :=
  id ← integerField "id" v;
  type ← stringField "type" v;
  bedrooms ← integerField "bedrooms" v;
  price ← integerField "price" v;
  location ← stringField "location" v;
  description ← stringField "description" v;
  added ← stringField "added" v;
  picture ← stringField "picture" v;
  images ← stringsField "images" v;
  url ← stringField "url" v;
  tenure ← stringField "tenure" v;
  postcode ← stringField "postcode" v;
  Some (mk id type bedrooms price location description added picture images
          url tenure postcode).

(** The shape of a [Property[]]. *)
Definition listOfJSON (v : JS.JSON.value) : option (list t) :=
  match v with
  | JS.JSON.Array elements => mapM ofJSON elements
  | _ => None
  end.

End Property.

Abbreviation Property := Property.t.

Module SearchFilters.

(** [interface SearchFilters]: every field is optional, [None] is
    [undefined]. *)
Record t := mk {
  type : option string;
  minPrice : option JS.number;
  maxPrice : option JS.number;
  minBedrooms : option JS.number;
  maxBedrooms : option JS.number;
  postcodeArea : option string;
  dateFrom : option string;
  dateTo : option string
}.

(** The object literal [{}]. *)
Definition empty : t := mk None None None None None None None None.

(** [keyof SearchFilters], split by the type of the field. *)
Inductive numberKey := K_minPrice | K_maxPrice | K_minBedrooms | K_maxBedrooms.
Inductive stringKey := K_type | K_postcodeArea | K_dateFrom | K_dateTo.

(** [{ ...f, [key]: v }] *)
Definition setNumber (key : numberKey) (v : option JS.number) (f : t) : t :=
  match key with
  | K_minPrice =>
      mk (type f) v (maxPrice f) (minBedrooms f) (maxBedrooms f)
         (postcodeArea f) (dateFrom f) (dateTo f)
  | K_maxPrice =>
      mk (type f) (minPrice f) v (minBedrooms f) (maxBedrooms f)
         (postcodeArea f) (dateFrom f) (dateTo f)
  | K_minBedrooms =>
      mk (type f) (minPrice f) (maxPrice f) v (maxBedrooms f)
         (postcodeArea f) (dateFrom f) (dateTo f)
  | K_maxBedrooms =>
      mk (type f) (minPrice f) (maxPrice f) (minBedrooms f) v
         (postcodeArea f) (dateFrom f) (dateTo f)
  end.

Definition setString (key : stringKey) (v : option string) (f : t) : t :=
  match key with
  | K_type =>
      mk v (minPrice f) (maxPrice f) (minBedrooms f) (maxBedrooms f)
         (postcodeArea f) (dateFrom f) (dateTo f)
  | K_postcodeArea =>
      mk (type f) (minPrice f) (maxPrice f) (minBedrooms f) (maxBedrooms f)
         v (dateFrom f) (dateTo f)
  | K_dateFrom =>
      mk (type f) (minPrice f) (maxPrice f) (minBedrooms f) (maxBedrooms f)
         (postcodeArea f) v (dateTo f)
  | K_dateTo =>
      mk (type f) (minPrice f) (maxPrice f) (minBedrooms f) (maxBedrooms f)
         (postcodeArea f) (dateFrom f) v
  end.

Definition getNumber (key : numberKey) (f : t) : option JS.number :=
  match key with
  | K_minPrice => minPrice f
  | K_maxPrice => maxPrice f
  | K_minBedrooms => minBedrooms f
  | K_maxBedrooms => maxBedrooms f
  end.

Definition getString (key : stringKey) (f : t) : option string :=
  match key with
  | K_type => type f
  | K_postcodeArea => postcodeArea f
  | K_dateFrom => dateFrom f
  | K_dateTo => dateTo f
  end.

End SearchFilters.

Abbreviation SearchFilters := SearchFilters.t.

(** [window.localStorage]: [getItem] is the lookup ([null] is [None]),
    [setItem] the insertion and [removeItem] the deletion. *)
Abbreviation Storage := (gmap string string).

(* ===================================================================== *)
(** * src/components/SearchForm.tsx *)
(* ===================================================================== *)

Module SearchForm.

(** The arguments of a call [handleFilterChange(key, value)]: a key with a
    value of the type of its field. *)
Inductive change :=
  | ChangeNumber (key : SearchFilters.numberKey) (value : JS.number)
  | ChangeString (key : SearchFilters.stringKey) (value : string).

(** [setFilters(prev => ({ ...prev, [key]: value || undefined }))] *)
Definition handleFilterChange (c : change) (prev : SearchFilters) : SearchFilters :=
  match c with
  | ChangeNumber key value =>
      SearchFilters.setNumber key
        (if JS.truthy_number value then Some value else None) prev
  | ChangeString key value =>
      SearchFilters.setString key
        (if JS.truthy_string value then Some value else None) prev
  end.

(** The [onChange] and [onValueChange] handlers of the four numeric
    controls: [handleFilterChange(key, parseInt(value))]. *)
Definition onChangeNumber (key : SearchFilters.numberKey) (value : string)
  : SearchFilters -> SearchFilters :=
  handleFilterChange (ChangeNumber key (JS.parseInt value)).

(** Those of the four text controls: [handleFilterChange(key, value)]. *)
Definition onChangeString (key : SearchFilters.stringKey) (value : string)
  : SearchFilters -> SearchFilters :=
  handleFilterChange (ChangeString key value).

(** [handleSubmit]: [onSearch(filters)]. *)
Definition handleSubmit {A} (onSearch : SearchFilters -> A) (filters : SearchFilters) : A :=
  onSearch filters.

End SearchForm.

(* ===================================================================== *)
(** * src/components/FavoritesPanel.tsx *)
(* ===================================================================== *)

Module FavoritesPanel.

(** The click handlers of the remove buttons the panel renders, one for
    each entry of [favorites]: [onRemoveFavorite(property)]. *)
Definition removeButtons {A} (favorites : list Property)
    (onRemoveFavorite : Property -> A) : list A :=
  List.map (fun property => onRemoveFavorite property) favorites.

(** The click handler of the clear button, rendered only when
    [favorites.length > 0]. *)
Definition clearButton {A} (favorites : list Property) (onClearAll : A) : option A :=
  if (0 <? length favorites)%nat then Some onClearAll else None.

End FavoritesPanel.

(* ===================================================================== *)
(** * src/pages/Index.tsx *)
(* ===================================================================== *)

(** What the effect that loads the favourites does to the [favorites]
    state.  [JSON.parse] returns [any]: the value is stored as it is. *)
Inductive hydration :=
  | Kept                                (* [setFavorites] is not called *)
  | SetFavorites (v : JS.JSON.value)    (* [setFavorites(JSON.parse(...))] *)
  | SyntaxError.                        (* [JSON.parse] threw; nothing catches it *)

Module Index.

(** The state of the page; [showFavorites], which only shows or hides the
    panel, is left out. *)
Record state := mk {
  properties : list Property;
  filteredProperties : list Property;
  favorites : list Property
}.

(** The three [useState] calls. *)
Definition initial (propertiesData : list Property) : state :=
  mk propertiesData propertiesData [].

(** The effect run once after the first render. *)
Definition useEffect (localStorage : Storage) : hydration :=
  let savedFavorites := localStorage !! "propertyFavorites" in
  match savedFavorites with
  | Some saved =>
      if JS.truthy_string saved then
        match JS.JSON.parse saved with
        | Some v => SetFavorites v
        | None => SyntaxError
        end
      else Kept
  | None => Kept
  end.

(** The body of [handleSearch] up to the call of [setFilteredProperties]:
    the value of [filtered] at that point. *)
Definition applyFilters (properties : list Property) (filters : SearchFilters)
  : list Property :=
  let filtered := properties in
  let filtered :=
    match SearchFilters.type filters with
    | Some type =>
        if JS.truthy_string type && negb (String.eqb type "Any")
        then List.filter (fun property => String.eqb (Property.type property) type) filtered
        else filtered
    | None => filtered
    end in
  let filtered :=
    match SearchFilters.minPrice filters with
    | Some minPrice =>
        if JS.truthy_number minPrice
        then List.filter
               (fun property => JS.ge (JS.Int (Property.price property)) minPrice) filtered
        else filtered
    | None => filtered
    end in
  let filtered :=
    match SearchFilters.maxPrice filters with
    | Some maxPrice =>
        if JS.truthy_number maxPrice
        then List.filter
               (fun property => JS.le (JS.Int (Property.price property)) maxPrice) filtered
        else filtered
    | None => filtered
    end in
  let filtered :=
    match SearchFilters.minBedrooms filters with
    | Some minBedrooms =>
        if JS.truthy_number minBedrooms
        then List.filter
               (fun property => JS.ge (JS.Int (Property.bedrooms property)) minBedrooms) filtered
        else filtered
    | None => filtered
    end in
  let filtered :=
    match SearchFilters.maxBedrooms filters with
    | Some maxBedrooms =>
        if JS.truthy_number maxBedrooms
        then List.filter
               (fun property => JS.le (JS.Int (Property.bedrooms property)) maxBedrooms) filtered
        else filtered
    | None => filtered
    end in
  let filtered :=
    match SearchFilters.postcodeArea filters with
    | Some postcodeArea =>
        if JS.truthy_string postcodeArea
        then List.filter
               (fun property =>
                  JS.includes (JS.toLowerCase (Property.postcode property))
                              (JS.toLowerCase postcodeArea)) filtered
        else filtered
    | None => filtered
    end in
  let filtered :=
    match SearchFilters.dateFrom filters with
    | Some dateFrom =>
        if JS.truthy_string dateFrom
        then List.filter
               (fun property =>
                  JS.ge (JS.Date_valueOf (Property.added property))
                        (JS.Date_valueOf dateFrom)) filtered
        else filtered
    | None => filtered
    end in
  let filtered :=
    match SearchFilters.dateTo filters with
    | Some dateTo =>
        if JS.truthy_string dateTo
        then List.filter
               (fun property =>
                  JS.le (JS.Date_valueOf (Property.added property))
                        (JS.Date_valueOf dateTo)) filtered
        else filtered
    | None => filtered
    end in
  filtered.

Definition handleSearch (filters : SearchFilters) (st : state) : state :=
  mk (properties st) (applyFilters (properties st) filters) (favorites st).

(** The value of [newFavorites] in [handleFavorite]. *)
Definition newFavorites (favorites : list Property) (property : Property)
  : list Property :=
  let isAlreadyFavorite :=
    existsb (fun fav => Property.id fav =? Property.id property) favorites in
  if isAlreadyFavorite
  then List.filter (fun fav => negb (Property.id fav =? Property.id property)) favorites
  else favorites ++ [property].

Definition stringifyFavorites (favorites : list Property) : string :=
  JS.JSON.stringify (JS.JSON.Array (List.map Property.toJSON favorites)).

Definition handleFavorite (property : Property) (st : state) (localStorage : Storage)
  : state * Storage :=
  let newFavorites := newFavorites (favorites st) property in
  (mk (properties st) (filteredProperties st) newFavorites,
   <["propertyFavorites" := stringifyFavorites newFavorites]> localStorage).

Definition clearFavorites (st : state) (localStorage : Storage) : state * Storage :=
  (mk (properties st) (filteredProperties st) [],
   delete "propertyFavorites" localStorage).

Definition isFavorite (propertyId : Z) (st : state) : bool :=
  existsb (fun fav => Property.id fav =? propertyId) (favorites st).

(** The props given to [SearchForm] and to [FavoritesPanel]. *)
Definition onSearch : SearchFilters -> state -> state := handleSearch.

Definition onRemoveFavorite : Property -> state -> Storage -> state * Storage :=
  handleFavorite.

Definition onClearAll : state -> Storage -> state * Storage := clearFavorites.

(** The removals the rendered panel offers in state [st]. *)
Definition panelRemovals (st : state) : list (state -> Storage -> state * Storage) :=
  FavoritesPanel.removeButtons (favorites st) onRemoveFavorite.

End Index.

(* ===================================================================== *)
(** * src/pages/PropertyDetail.tsx *)
(* ===================================================================== *)

Module PropertyDetail.

Record state := mk {
  property : option Property;
  favorites : list Property;
  loading : bool
}.

Definition initial : state := mk None [] true.

(** [parseInt(id || '0')], [id] being the route parameter. *)
Definition propertyId (id : option string) : JS.number :=
  JS.parseInt
    match id with
    | Some text => if JS.truthy_string text then text else "0"
    | None => "0"
    end.

(** The effect run after the first render and when [id] changes: the state
    after [setProperty] and [setLoading], and what the rest of the effect
    does to [favorites]. *)
Definition useEffect (propertiesData : list Property) (id : option string)
    (st : state) (localStorage : Storage) : state * hydration :=
  let propertyId := propertyId id in
  let foundProperty :=
    List.find (fun p => JS.strict_equal (JS.Int (Property.id p)) propertyId)
      propertiesData in
  (mk foundProperty (favorites st) false,
   let savedFavorites := localStorage !! "propertyFavorites" in
   match savedFavorites with
   | Some saved =>
       if JS.truthy_string saved then
         match JS.JSON.parse saved with
         | Some v => SetFavorites v
         | None => SyntaxError
         end
       else Kept
   | None => Kept
   end).

Definition handleFavorite (st : state) (localStorage : Storage) : state * Storage :=
  match property st with
  | None => (st, localStorage)
  | Some property =>
      let isAlreadyFavorite :=
        existsb (fun fav => Property.id fav =? Property.id property) (favorites st) in
      let newFavorites :=
        if isAlreadyFavorite
        then List.filter (fun fav => negb (Property.id fav =? Property.id property))
               (favorites st)
        else favorites st ++ [property] in
      (mk (Some property) newFavorites (loading st),
       <["propertyFavorites" := Index.stringifyFavorites newFavorites]> localStorage)
  end.

(** Which of the three returns of the component is taken. *)
Inductive view :=
  | Spinner
  | PropertyNotFound
  | Details (property : Property).

Definition render (st : state) : view :=
  if loading st then Spinner
  else
    match property st with
    | None => PropertyNotFound
    | Some property => Details property
    end.

(** What a visit of the page with the route parameter [id] ends in. *)
Inductive visit :=
  | Shows (v : view)    (* the component returns [v] once the effect has run *)
  | Throws              (* an exception that nothing catches: no view of the
                           component is shown *)
  | Untyped.            (* [favorites] holds an array that is not a
                           [Property[]]: what [favorites.some] does with its
                           elements is outside the model *)

(** The effect calls [setProperty] and [setLoading], then loads the
    favourites, where [JSON.parse] may throw.  The render that follows
    computes [property ? favorites.some(...) : false]: it reads [favorites]
    only when a property was found, and then throws a TypeError when the
    value loaded is not an array, which has no [some]. *)
Definition lookup (propertiesData : list Property) (id : option string)
    (localStorage : Storage) : visit :=
  let '(st, loaded) := useEffect propertiesData id initial localStorage in
  match loaded with
  | SyntaxError => Throws
  | Kept => Shows (render st)
  | SetFavorites v =>
      match property st with
      | None => Shows (render st)
      | Some _ =>
          match v with
          | JS.JSON.Array _ =>
              match Property.listOfJSON v with
              | Some favorites =>
                  Shows (render (mk (property st) favorites (loading st)))
              | None => Untyped
              end
          | _ => Throws
          end
      end
  end.

End PropertyDetail.

(* ===================================================================== *)
(** * src/components/PropertyCard.tsx and the cards of src/pages/Index.tsx *)
(* ===================================================================== *)

Module PropertyCard.

(** The target of the link of the card (and of an entry of the favourites
    panel): the template [`/property/${property.id}`]. *)
Definition to (property : Property) : string :=
  "/property/" +:+ JS.ToString (JS.Int (Property.id property)).

(** [handleFavoriteClick], the two calls on the event apart:
    [onFavorite(property)]. *)
Definition handleFavoriteClick {A} (onFavorite : Property -> A) (property : Property) : A :=
  onFavorite property.

(** The label of the favourite button. *)
Definition ariaLabel (isFavorite : bool) : string :=
  if isFavorite then "Remove from favorites" else "Add to favorites".

End PropertyCard.

Module Cards.

(** What [Index] renders for one entry of [filteredProperties]: the props
    it gives to [PropertyCard] and what the card makes of them. *)
Record card := mk {
  property : Property;
  isFavorite : bool;
  label : string;
  to : string;
  click : Index.state -> Storage -> Index.state * Storage
}.

Definition cards (st : Index.state) : list card :=
  List.map
    (fun property =>
       let isFavorite := Index.isFavorite (Property.id property) st in
       mk property isFavorite (PropertyCard.ariaLabel isFavorite)
          (PropertyCard.to property)
          (PropertyCard.handleFavoriteClick Index.handleFavorite property))
    (Index.filteredProperties st).

End Cards.

(* ===================================================================== *)
(** * The image gallery (src/components/ImageGallery.tsx) *)
(* ===================================================================== *)

Module ImageGallery.

(** [useState(0)]: the state is [selectedImage]. *)
Definition initial : JS.number := JS.Int 0.

(** [images.length] *)
Definition length (images : list string) : JS.number :=
  JS.Int (Z.of_nat (List.length images)).

(** [setSelectedImage((prev) => (prev + 1) % images.length)] *)
Definition nextImage (images : list string) (prev : JS.number) : JS.number :=
  JS.rem (JS.add prev (JS.Int 1)) (length images).

(** [setSelectedImage((prev) => (prev - 1 + images.length) % images.length)] *)
Definition prevImage (images : list string) (prev : JS.number) : JS.number :=
  JS.rem (JS.add (JS.sub prev (JS.Int 1)) (length images)) (length images).

(** [handleKeyDown], [key] being [e.key]; the handler is on the outer
    element, which is rendered whatever the number of images. *)
Definition handleKeyDown (key : string) (images : list string)
    (selectedImage : JS.number) : JS.number :=
  if String.eqb key "ArrowLeft" then prevImage images selectedImage
  else if String.eqb key "ArrowRight" then nextImage images selectedImage
  else selectedImage.

(** [images[selectedImage]]; [None] is [undefined]. *)
Definition shown (images : list string) (selectedImage : JS.number) : option string :=
  match selectedImage with
  | JS.Int z => if 0 <=? z then nth_error images (Z.to_nat z) else None
  | JS.NaN => None
  end.

(** [images.length > 1]: the buttons, the dots and the thumbnails are
    rendered under this test. *)
Definition multiple (images : list string) : bool :=
  1 <? Z.of_nat (List.length images).

(** The dots: one for each image, its click being
    [setSelectedImage(index)]. *)
Definition dots (images : list string) : list JS.number :=
  if multiple images
  then imap (fun index _ => JS.Int (Z.of_nat index)) images
  else [].

(** The thumbnails, made from [images.slice(0, 6)]: the image, the index
    its click selects, and the number of the overlay "+n more", drawn when
    [index === 5 && images.length > 6]. *)
Record thumbnail := mk {
  image : string;
  select : JS.number;
  more : option Z
}.

Definition thumbnails (images : list string) : list thumbnail :=
  if multiple images
  then imap
         (fun index image =>
            mk image (JS.Int (Z.of_nat index))
               (if (Z.of_nat index =? 5) && (6 <? Z.of_nat (List.length images))
                then Some (Z.of_nat (List.length images) - 6)
                else None))
         (firstn 6 images)
  else [].

End ImageGallery.

(* ===================================================================== *)
(** * The catalog of the specification's example scenario *)
(* ===================================================================== *)

Module Fixture.

Definition house : Property :=
  Property.mk 1 "House" 3 500000 "London" "" "2024-01-01" "" [] "" "Freehold" "SW1".

Definition flat : Property :=
  Property.mk 2 "Flat" 1 300000 "London" "" "2024-06-01" "" [] "" "Leasehold" "NW1".

Definition catalog : list Property := [house; flat].

(** A record priced 1, and one whose [id] is 0. *)
Definition shed : Property :=
  Property.mk 3 "House" 0 1 "London" "" "2024-03-01" "" [] "" "Freehold" "BR1".

Definition plot : Property :=
  Property.mk 0 "House" 0 90000 "London" "" "2024-03-01" "" [] "" "Freehold" "BR1".

(** A copy of [house] fetched earlier, with another price. *)
Definition staleHouse : Property :=
  Property.mk 1 "House" 3 450000 "London" "" "2024-01-01" "" [] "" "Freehold" "SW1".

Definition only (key : SearchFilters.numberKey) (v : JS.number) : SearchFilters :=
  SearchFilters.setNumber key (Some v) SearchFilters.empty.

(** The page with [favorites] as its favourites. *)
Definition page (favorites : list Property) : Index.state :=
  Index.mk catalog catalog favorites.

(** A storage whose favourites slot holds [saved]. *)
Definition stored (saved : string) : Storage := {["propertyFavorites" := saved]}.

(** A search by postcode area and by date, and the changes in the form
    that make it. *)
Definition areaAndDate : SearchFilters :=
  SearchFilters.mk None None None None None (Some "nw") (Some "2024-01-02") None.

Definition typing : list SearchForm.change :=
  [ SearchForm.ChangeString SearchFilters.K_postcodeArea "nw";
    SearchForm.ChangeNumber SearchFilters.K_maxPrice (JS.Int 0);
    SearchForm.ChangeString SearchFilters.K_dateFrom "2024-01-02" ].

(** The card of the house on the page where it is a favourite. *)
Definition houseCard : Cards.card :=
  Cards.mk house true "Remove from favorites" (PropertyCard.to house)
    (PropertyCard.handleFavoriteClick Index.handleFavorite house).

End Fixture.

(* ===================================================================== *)
(** * The vocabulary of the statements *)
(* ===================================================================== *)

Module Spec.

(** [x] is within the inclusive lower, respectively upper, bound. *)
Definition atLeast (x : Z) (bound : JS.number) : Prop :=
  exists b, bound = JS.Int b /\ b <= x.

Definition atMost (x : Z) (bound : JS.number) : Prop :=
  exists b, bound = JS.Int b /\ x <= b.

(** [area] occurs in [postcode], letter case apart. *)
Definition containsIgnoringCase (postcode area : string) : Prop :=
  exists before after,
    JS.toLowerCase postcode = before +:+ JS.toLowerCase area +:+ after.

(** Both texts are dates, and [added] is not before, respectively not
    after, the other. *)
Definition onOrAfter (added dateFrom : string) : Prop :=
  exists a f, JS.Date_valueOf added = JS.Int a /\ JS.Date_valueOf dateFrom = JS.Int f /\ f <= a.

Definition onOrBefore (added dateTo : string) : Prop :=
  exists a t, JS.Date_valueOf added = JS.Int a /\ JS.Date_valueOf dateTo = JS.Int t /\ a <= t.

Section Criteria.

(** Which values of a field count as a criterion. *)
Variable numberCounts : JS.number -> Prop.
Variable stringCounts : string -> Prop.

Definition satisfiesWhen (filters : SearchFilters) (r : Property) : Prop :=
  (forall t, SearchFilters.type filters = Some t -> stringCounts t -> t <> "Any" ->
     Property.type r = t)
  /\ (forall v, SearchFilters.minPrice filters = Some v -> numberCounts v ->
        atLeast (Property.price r) v)
  /\ (forall v, SearchFilters.maxPrice filters = Some v -> numberCounts v ->
        atMost (Property.price r) v)
  /\ (forall v, SearchFilters.minBedrooms filters = Some v -> numberCounts v ->
        atLeast (Property.bedrooms r) v)
  /\ (forall v, SearchFilters.maxBedrooms filters = Some v -> numberCounts v ->
        atMost (Property.bedrooms r) v)
  /\ (forall a, SearchFilters.postcodeArea filters = Some a -> stringCounts a ->
        containsIgnoringCase (Property.postcode r) a)
  /\ (forall d, SearchFilters.dateFrom filters = Some d -> stringCounts d ->
        onOrAfter (Property.added r) d)
  /\ (forall d, SearchFilters.dateTo filters = Some d -> stringCounts d ->
        onOrBefore (Property.added r) d).

End Criteria.

(** Every field that is set is a criterion. *)
Definition satisfiesPresent : SearchFilters -> Property -> Prop :=
  satisfiesWhen (fun _ => True) (fun _ => True).

(** A field is a criterion when it is set to a truthy value: a number other
    than 0 and NaN, a text other than the empty one. *)
Definition satisfies : SearchFilters -> Property -> Prop :=
  satisfiesWhen (fun v => JS.truthy_number v = true) (fun s => JS.truthy_string s = true).

(** One guarded filter as a test on a record, and the eight of
    [handleSearch] together. *)
Definition criterion {B} (o : option B) (guard test : B -> bool) : bool :=
  match o with
  | Some v => if guard v then test v else true
  | None => true
  end.

Definition passes (filters : SearchFilters) (property : Property) : bool :=
  criterion (SearchFilters.type filters)
    (fun t => JS.truthy_string t && negb (String.eqb t "Any"))
    (fun t => String.eqb (Property.type property) t)
  && criterion (SearchFilters.minPrice filters) JS.truthy_number
       (fun v => JS.ge (JS.Int (Property.price property)) v)
  && criterion (SearchFilters.maxPrice filters) JS.truthy_number
       (fun v => JS.le (JS.Int (Property.price property)) v)
  && criterion (SearchFilters.minBedrooms filters) JS.truthy_number
       (fun v => JS.ge (JS.Int (Property.bedrooms property)) v)
  && criterion (SearchFilters.maxBedrooms filters) JS.truthy_number
       (fun v => JS.le (JS.Int (Property.bedrooms property)) v)
  && criterion (SearchFilters.postcodeArea filters) JS.truthy_string
       (fun a => JS.includes (JS.toLowerCase (Property.postcode property)) (JS.toLowerCase a))
  && criterion (SearchFilters.dateFrom filters) JS.truthy_string
       (fun d => JS.ge (JS.Date_valueOf (Property.added property)) (JS.Date_valueOf d))
  && criterion (SearchFilters.dateTo filters) JS.truthy_string
       (fun d => JS.le (JS.Date_valueOf (Property.added property)) (JS.Date_valueOf d)).

(** The effect leaves the favourites empty and raises nothing. *)
Definition startsEmpty (h : hydration) : Prop :=
  h = Kept \/ h = SetFavorites (JS.JSON.Array []).

(** The stored text is the serialization of some favourites. *)
Definition wellFormed (saved : string) : Prop :=
  exists favorites, JS.JSON.parse saved ≫= Property.listOfJSON = Some favorites.

End Spec.

(** Further vocabulary. *)
Module Terms.

(** No field of the filter holds a falsy value. *)
Definition normalised (filters : SearchFilters) : Prop :=
  (forall key v, SearchFilters.getNumber key filters = Some v -> JS.truthy_number v = true)
  /\ (forall key s, SearchFilters.getString key filters = Some s -> JS.truthy_string s = true).

(** The filter of the form after the changes [changes], the first one
    made first, starting from [useState({})]. *)
Definition typed (changes : list SearchForm.change) : SearchFilters :=
  fold_left (fun filters c => SearchForm.handleFilterChange c filters) changes
    SearchFilters.empty.

(** The field a change writes. *)
Definition keyOf (c : SearchForm.change)
  : SearchFilters.numberKey + SearchFilters.stringKey :=
  match c with
  | SearchForm.ChangeNumber key _ => inl key
  | SearchForm.ChangeString key _ => inr key
  end.

(** [selectedImage] is an index of [images]. *)
Definition inRange (images : list string) (selectedImage : JS.number) : Prop :=
  exists z, selectedImage = JS.Int z /\ 0 <= z < Z.of_nat (List.length images).

(** The [id]s of a list of records. *)
Definition ids (l : list Property) : list Z := List.map Property.id l.

(** A value made of integers, texts, booleans, null, arrays and objects:
    what [JSON.stringify] writes for data without fractions. *)
Fixpoint plain (v : JS.JSON.value) : Prop :=
  match v with
  | JS.JSON.Decimal _ => False
  | JS.JSON.Array elements => fold_right (fun e P => plain e /\ P) True elements
  | JS.JSON.Object members => fold_right (fun m P => plain (snd m) /\ P) True members
  | _ => True
  end.

(** A text made of decimal digits. *)
Definition decimalDigits (s : string) : Prop :=
  Forall (fun c => is_Some (JS.decimal c)) (list_ascii_of_string s).

(** What follows a value in a JSON text that [JSON.stringify] wrote:
    nothing, a comma, or the end of an array or of an object. *)
Definition delimited (rest : string) : Prop :=
  match rest with
  | EmptyString => True
  | String c _ => c = ","%char \/ c = "]"%char \/ c = "}"%char
  end.

(** [v] is read back from the text written for it, with some fuel, before
    anything that may follow a value; and this text does not start like the
    end of an array. *)
Definition reads_back (v : JS.JSON.value) : Prop :=
  exists fuel, forall rest, delimited rest ->
    JS.JSON.read_value fuel (JS.JSON.stringify v +:+ rest) = Some (v, rest)
    /\ JS.JSON.expect "]" (JS.JSON.stringify v +:+ rest) = None.

(** The text of a member of an object. *)
Definition member_text (m : string * JS.JSON.value) : string :=
  JS.JSON.quote (fst m) +:+ ":" +:+ JS.JSON.stringify (snd m).

(** A text of ASCII characters. *)
Definition asciiText (s : string) : Prop :=
  Forall (fun c => (nat_of_ascii c < 128)%nat) (list_ascii_of_string s).

(** The text has the form YYYY-MM-DD and names a day of the calendar. *)
Definition calendarDay (s : string) : Prop :=
  exists y m d,
    JS.dateFields s = Some (y, m, d) /\ 1 <= m <= 12 /\ 1 <= d <= JS.DaysInMonth y m.

(** The text has the form YYYY-MM-DD with a month that is not one of 01 to
    12 or a day that is not one of 01 to 31, and a year from 1000 on (an
    implementation may read a text such as 0012-13-01 as a month, a day and
    a year). *)
Definition noSuchDay (s : string) : Prop :=
  exists y m d,
    JS.dateFields s = Some (y, m, d)
    /\ 1000 <= y /\ (m < 1 \/ 12 < m \/ d < 1 \/ 31 < d).

(** The texts that a search with [filters] compares are texts the models
    of [toLowerCase] and of [new Date] read as the program does: when a
    postcode area is given, it and the postcodes of the catalog are ASCII
    texts; when a date is given, it and the [added] dates of the catalog
    name days of the calendar. *)
Definition plainSearch (catalog : list Property) (filters : SearchFilters) : Prop :=
  (forall a, SearchFilters.postcodeArea filters = Some a -> a <> EmptyString ->
     asciiText a /\ forall r, In r catalog -> asciiText (Property.postcode r))
  /\ (forall d,
        SearchFilters.dateFrom filters = Some d \/ SearchFilters.dateTo filters = Some d ->
        d <> EmptyString ->
        calendarDay d /\ forall r, In r catalog -> calendarDay (Property.added r)).

(** An integer that is a double, as is every integer between it and 0. *)
Definition withinDouble (z : Z) : Prop := Z.abs z <= 2 ^ 53.

Definition exactNumber (n : JS.number) : Prop :=
  forall z, n = JS.Int z -> withinDouble z.

(** The text after the white space and the sign that [parseInt] skips. *)
Definition unsigned (text : string) : string :=
  match JS.trimStart text with
  | String "-"%char r => r
  | String "+"%char r => r
  | r => r
  end.

Definition noDigitFirst (s : string) : Prop :=
  match s with
  | String c _ => JS.decimal c = None
  | EmptyString => True
  end.

(** No decimal digit follows the white space and the sign. *)
Definition startsWithoutDigit (text : string) : Prop := noDigitFirst (unsigned text).

(** [JSON.parse] reads [text] as the list [favorites]. *)
Definition snapshotOf (text : string) (favorites : list Property) : Prop :=
  JS.JSON.parse text ≫= Property.listOfJSON = Some favorites.

(** The favourites slot holds a text that [JSON.parse] reads as the list
    [favorites]: a serialization of these records, with all their
    fields. *)
Definition persisted (localStorage : Storage) (favorites : list Property) : Prop :=
  exists text,
    localStorage !! "propertyFavorites" = Some text /\ snapshotOf text favorites.

(** The favourites slot is absent, or holds the empty text, or holds a
    text that [JSON.parse] reads as a list of records. *)
Definition loadable (localStorage : Storage) : Prop :=
  match localStorage !! "propertyFavorites" with
  | Some saved => saved = EmptyString \/ exists favorites, snapshotOf saved favorites
  | None => True
  end.

End Terms.

(* ===================================================================== *)
(** * Strings *)
(* ===================================================================== *)

Lemma append_cons (c : ascii) (s r : string) :
  String c s +:+ r = String c (s +:+ r).
Proof. reflexivity. Qed.

Lemma prefix_app (t s : string) :
  String.prefix t s = true <-> exists rest, s = t +:+ rest.
Proof.
  revert s. induction t as [|a t IH]; intros s; simpl.
  - destruct s; split; eauto.
  - destruct s as [|b s]; simpl.
    + split; [discriminate | intros [rest H]; discriminate].
    + destruct (ascii_dec a b) as [->|Hne].
      * rewrite IH. setoid_rewrite append_cons.
        split; intros [rest H]; exists rest; congruence.
      * setoid_rewrite append_cons.
        split; [discriminate | intros [rest H]; congruence].
Qed.

Lemma includes_nil (t : string) :
  JS.includes EmptyString t = String.prefix t EmptyString || false.
Proof. reflexivity. Qed.

Lemma includes_cons (c : ascii) (s t : string) :
  JS.includes (String c s) t = String.prefix t (String c s) || JS.includes s t.
Proof. reflexivity. Qed.

Lemma includes_occurs (s t : string) :
  JS.includes s t = true <-> exists before after, s = before +:+ t +:+ after.
Proof.
  induction s as [|c s IH].
  - rewrite includes_nil, orb_false_r, prefix_app. split.
    + intros [rest H]. exists EmptyString, rest. exact H.
    + intros [[|b before] [after H]]; [eauto | discriminate].
  - rewrite includes_cons, orb_true_iff, prefix_app, IH. split.
    + intros [[rest H] | (before & after & H)].
      * exists EmptyString, rest. exact H.
      * exists (String c before), after. rewrite append_cons. congruence.
    + intros ([|b before] & after & H).
      * left. eauto.
      * right. exists before, after. rewrite append_cons in H. congruence.
Qed.

(* ===================================================================== *)
(** * The fuel of the JSON reader *)
(* ===================================================================== *)

Module JSONFacts.
Import JS.JSON.

Lemma skip_length (s : string) : (String.length (skip s) <= String.length s)%nat.
Proof.
  induction s as [|c s IH]; simpl; [lia|].
  destruct (isWhiteSpace c); simpl; lia.
Qed.

Lemma skip_cons_length (s r : string) (c : ascii) :
  skip s = String c r -> (String.length r < String.length s)%nat.
Proof.
  intros H. pose proof (skip_length s) as Hl. rewrite H in Hl. simpl in Hl. lia.
Qed.

Lemma prepend_length (u : string) (x : option (string * string)) (t r : string) :
  prepend u x = Some (t, r) -> exists t', x = Some (t', r).
Proof. destruct x as [[t' r']|]; simpl; [intros [= _ <-]; eauto | discriminate]. Qed.

Lemma chars_length (s t r : string) :
  chars s = Some (t, r) -> (String.length r < String.length s)%nat.
Proof.
  assert (forall n s, (String.length s < n)%nat -> forall t r,
            chars s = Some (t, r) -> (String.length r < String.length s)%nat) as H.
  { clear. induction n as [|n IH]; intros s Hn t r H; [lia|].
    destruct s as [|c s]; [discriminate|].
    simpl in H, Hn.
    repeat (case_match; simplify_eq); try (simpl; lia);
      apply prepend_length in H; destruct H as [t' H];
      apply IH in H; simpl in *; lia. }
  apply (H (S (String.length s))). lia.
Qed.

Lemma span_digits_length (s ds r : string) :
  span_digits s = (ds, r) ->
  String.length s = (String.length ds + String.length r)%nat.
Proof.
  revert ds r. induction s as [|c s IH]; intros ds r H; simpl in H.
  - injection H as <- <-. reflexivity.
  - destruct (JS.decimal c).
    + destruct (span_digits s) as [ds' r'] eqn:E. injection H as <- <-.
      simpl. rewrite (IH ds' r' eq_refl). reflexivity.
    + injection H as <- <-. reflexivity.
Qed.

Lemma strip_prefix_length (p s r : string) :
  strip_prefix p s = Some r ->
  String.length s = (String.length p + String.length r)%nat.
Proof.
  revert s. induction p as [|a p IH]; intros s H; simpl in H.
  - injection H as <-. reflexivity.
  - destruct s as [|b s]; [discriminate|].
    destruct (Ascii.eqb a b); [|discriminate].
    simpl. now rewrite (IH s H).
Qed.

Lemma digits_part_length (s ds r : string) :
  digits_part s = Some (ds, r) ->
  String.length s = (String.length ds + String.length r)%nat
  /\ (0 < String.length ds)%nat.
Proof.
  unfold digits_part. destruct (span_digits s) as [ds' r'] eqn:E.
  apply span_digits_length in E.
  destruct ds'; [discriminate|]. intros [= <- <-]. simpl in *. lia.
Qed.

Lemma integer_part_length (s ds r : string) :
  integer_part s = Some (ds, r) ->
  String.length s = (String.length ds + String.length r)%nat
  /\ (0 < String.length ds)%nat.
Proof.
  unfold integer_part. intros H. apply digits_part_length.
  repeat case_match; simplify_eq; assumption || reflexivity.
Qed.

Lemma fraction_part_length (s x r : string) :
  fraction_part s = Some (x, r) ->
  String.length s = (String.length x + String.length r)%nat.
Proof.
  unfold fraction_part. intros H.
  repeat case_match; simplify_eq;
    try match goal with E : digits_part _ = _ |- _ => apply digits_part_length in E end;
    simpl in *; lia.
Qed.

Lemma sign_part_length (s x r : string) :
  sign_part s = (x, r) ->
  String.length s = (String.length x + String.length r)%nat.
Proof.
  unfold sign_part. intros H. repeat case_match; simplify_eq; simpl; lia.
Qed.

Lemma exponent_part_length (s x r : string) :
  exponent_part s = Some (x, r) ->
  (String.length r <= String.length s)%nat.
Proof.
  unfold exponent_part. intros H.
  repeat case_match; simplify_eq;
    try match goal with E : digits_part _ = _ |- _ => apply digits_part_length in E end;
    try match goal with E : sign_part _ = _ |- _ => apply sign_part_length in E end;
    simpl in *; lia.
Qed.

Lemma minus_part_length (s x r : string) :
  minus_part s = (x, r) -> (String.length r <= String.length s)%nat.
Proof.
  unfold minus_part. intros H. repeat case_match; simplify_eq; simpl; lia.
Qed.

Lemma number_literal_length (s : string) (v : value) (r : string) :
  number_literal s = Some (v, r) -> (String.length r < String.length s)%nat.
Proof.
  unfold number_literal. intros H.
  destruct (minus_part s) as [minus s1] eqn:E1. apply minus_part_length in E1.
  destruct (integer_part s1) as [[int s2]|] eqn:E2; [|discriminate].
  apply integer_part_length in E2.
  destruct (fraction_part s2) as [[frac s3]|] eqn:E3; [|discriminate].
  apply fraction_part_length in E3.
  destruct (exponent_part s3) as [[exp s4]|] eqn:E4; [|discriminate].
  apply exponent_part_length in E4.
  assert (r = s4) as -> by (repeat case_match; simplify_eq; reflexivity).
  lia.
Qed.

Lemma expect_length (c : ascii) (s r : string) :
  expect c s = Some r -> (String.length r < String.length s)%nat.
Proof.
  unfold expect. intros H.
  destruct (skip s) as [|c' r'] eqn:E; [discriminate|].
  apply skip_cons_length in E. destruct (Ascii.eqb c c'); simplify_eq. exact E.
Qed.

Lemma value_step_consumes elements members :
  consumes elements -> consumes members -> consumes (value_step elements members).
Proof.
  intros He Hm s v r H. unfold value_step in H.
  destruct (skip s) as [|c t] eqn:E; [discriminate|].
  apply skip_cons_length in E.
  repeat case_match; simplify_eq;
    repeat match goal with
           | X : chars _ = Some _ |- _ => apply chars_length in X
           | X : expect _ _ = Some _ |- _ => apply expect_length in X
           | X : elements _ = Some _ |- _ => apply He in X
           | X : members _ = Some _ |- _ => apply Hm in X
           | X : strip_prefix _ _ = Some _ |- _ => apply strip_prefix_length in X
           | X : number_literal _ = Some _ |- _ => apply number_literal_length in X
           end;
    simpl in *; lia.
Qed.

Lemma elements_step_consumes value elements :
  consumes value -> consumes elements -> consumes (elements_step value elements).
Proof.
  intros Hv He s v r H. unfold elements_step in H.
  repeat case_match; simplify_eq;
    repeat match goal with
           | X : expect _ _ = Some _ |- _ => apply expect_length in X
           | X : elements _ = Some _ |- _ => apply He in X
           | X : value _ = Some _ |- _ => apply Hv in X
           end;
    lia.
Qed.

Lemma members_step_consumes value members :
  consumes value -> consumes members -> consumes (members_step value members).
Proof.
  intros Hv Hm s v r H. unfold members_step in H.
  repeat case_match; simplify_eq;
    repeat match goal with
           | X : chars _ = Some _ |- _ => apply chars_length in X
           | X : expect _ _ = Some _ |- _ => apply expect_length in X
           | X : members _ = Some _ |- _ => apply Hm in X
           | X : value _ = Some _ |- _ => apply Hv in X
           end;
    lia.
Qed.

Lemma readers_consume (fuel : nat) :
  consumes (read_value fuel) /\ consumes (read_elements fuel)
  /\ consumes (read_members fuel).
Proof.
  induction fuel as [|fuel (Hv & He & Hm)].
  - repeat split; intros s a r H; discriminate H.
  - split; [|split]; simpl.
    + now apply value_step_consumes.
    + now apply elements_step_consumes.
    + now apply members_step_consumes.
Qed.

Lemma value_step_local elements elements' members members' (s : string) :
  extends_below (String.length s) elements elements' ->
  extends_below (String.length s) members members' ->
  forall r, value_step elements members s = Some r ->
            value_step elements' members' s = Some r.
Proof.
  intros He Hm r H. unfold value_step in *.
  destruct (skip s) as [|c t] eqn:E; [discriminate|].
  apply skip_cons_length in E.
  repeat (case_match; simplify_eq); try reflexivity;
    repeat match goal with
           | X : elements _ = Some _ |- _ => apply He in X; [|lia]
           | X : members _ = Some _ |- _ => apply Hm in X; [|lia]
           end;
    congruence.
Qed.

Lemma elements_step_local value value' elements elements' (s : string) :
  (forall r, value s = Some r -> value' s = Some r) ->
  consumes value ->
  extends_below (String.length s) elements elements' ->
  forall r, elements_step value elements s = Some r ->
            elements_step value' elements' s = Some r.
Proof.
  intros Hv Hc He r H. unfold elements_step in *.
  destruct (value s) as [[v r1]|] eqn:E; [|discriminate].
  rewrite (Hv _ eq_refl). apply Hc in E.
  destruct (expect "," r1) as [r'|] eqn:E1; [|exact H].
  apply expect_length in E1.
  destruct (elements r') as [[vs rest]|] eqn:E2; [|discriminate].
  apply He in E2; [|lia]. now rewrite E2.
Qed.

Lemma members_step_local value value' members members' (s : string) :
  extends_below (String.length s) value value' ->
  consumes value ->
  extends_below (String.length s) members members' ->
  forall r, members_step value members s = Some r ->
            members_step value' members' s = Some r.
Proof.
  intros Hv Hc Hm r H. unfold members_step in *.
  destruct (expect dquote s) as [r0|] eqn:E0; [|discriminate].
  apply expect_length in E0.
  destruct (chars r0) as [[key r1]|] eqn:E1; [|discriminate].
  apply chars_length in E1.
  destruct (expect ":" r1) as [r2|] eqn:E2; [|discriminate].
  apply expect_length in E2.
  destruct (value r2) as [[v r3]|] eqn:E3; [|discriminate].
  assert (String.length r2 < String.length s)%nat as L by lia.
  rewrite (Hv _ _ L E3). apply Hc in E3.
  destruct (expect "," r3) as [r4|] eqn:E4; [|exact H].
  apply expect_length in E4.
  destruct (members r4) as [[ms rest]|] eqn:E5; [|discriminate].
  apply Hm in E5; [|lia]. now rewrite E5.
Qed.

(** More fuel does not change a result. *)
Lemma readers_step (fuel : nat) :
  (forall s r, read_value fuel s = Some r -> read_value (S fuel) s = Some r)
  /\ (forall s r, read_elements fuel s = Some r -> read_elements (S fuel) s = Some r)
  /\ (forall s r, read_members fuel s = Some r -> read_members (S fuel) s = Some r).
Proof.
  induction fuel as [|fuel (Hv & He & Hm)].
  - repeat split; intros s r H; discriminate H.
  - destruct (readers_consume fuel) as (Cv & _ & _).
    split; [|split]; intros s r H.
    + revert H. apply value_step_local; intros t r' _.
      * apply He.
      * apply Hm.
    + revert H. apply elements_step_local.
      * apply Hv.
      * exact Cv.
      * intros t r' _. apply He.
    + revert H. apply members_step_local.
      * intros t r' _. apply Hv.
      * exact Cv.
      * intros t r' _. apply Hm.
Qed.

Lemma readers_mono (fuel fuel' : nat) :
  (fuel <= fuel')%nat ->
  (forall s r, read_value fuel s = Some r -> read_value fuel' s = Some r)
  /\ (forall s r, read_elements fuel s = Some r -> read_elements fuel' s = Some r)
  /\ (forall s r, read_members fuel s = Some r -> read_members fuel' s = Some r).
Proof.
  induction 1 as [|fuel' _ (Hv & He & Hm)]; [auto|].
  destruct (readers_step fuel') as (Sv & Se & Sm).
  repeat split; auto.
Qed.

(** A text of [n] characters is read with [2 * n + 1] levels, and its
    elements or members with [2 * n + 2], if they are read at all. *)
Lemma readers_bound (fuel : nat) :
  (forall s r, read_value fuel s = Some r ->
               read_value (2 * String.length s + 1) s = Some r)
  /\ (forall s r, read_elements fuel s = Some r ->
                  read_elements (2 * String.length s + 2) s = Some r)
  /\ (forall s r, read_members fuel s = Some r ->
                  read_members (2 * String.length s + 2) s = Some r).
Proof.
  induction fuel as [|fuel (Hv & He & Hm)].
  - repeat split; intros s r H; discriminate H.
  - destruct (readers_consume fuel) as (Cv & _ & _).
    split; [|split]; intros s r H.
    + replace (2 * String.length s + 1)%nat with (S (2 * String.length s)) by lia.
      revert H. apply value_step_local; intros t r' Ht H.
      * apply He in H. revert H. apply readers_mono. lia.
      * apply Hm in H. revert H. apply readers_mono. lia.
    + replace (2 * String.length s + 2)%nat with (S (2 * String.length s + 1)) by lia.
      revert H. apply elements_step_local; auto.
      intros t r' Ht H. apply He in H. revert H. apply readers_mono. lia.
    + replace (2 * String.length s + 2)%nat with (S (2 * String.length s + 1)) by lia.
      revert H. apply members_step_local; auto; intros t r' Ht H.
      * apply Hv in H. revert H. apply readers_mono. lia.
      * apply Hm in H. revert H. apply readers_mono. lia.
Qed.

(** [JSON.parse] has all the fuel a text can use: it returns a value as
    soon as some amount of fuel reads one followed by white space only. *)
Theorem parse_fuel_is_enough (text : string) (v : value) :
  parse text = Some v
  <-> exists fuel rest,
        read_value fuel text = Some (v, rest) /\ skip rest = EmptyString.
Proof.
  unfold parse. split.
  - intros H. destruct (read_value _ text) as [[v' rest]|] eqn:E; [|discriminate].
    destruct (skip rest) eqn:Es; [|discriminate]. injection H as <-. eauto.
  - intros (fuel & rest & H & Hs).
    apply (proj1 (readers_bound fuel)) in H.
    assert (2 * String.length text + 1 <= 2 * String.length text + 2)%nat as L by lia.
    apply (proj1 (readers_mono _ _ L)) in H.
    now rewrite H, Hs.
Qed.
End JSONFacts.

(* ===================================================================== *)
(** * The search filter *)
(* ===================================================================== *)

Lemma filter_all {A} (l : list A) : List.filter (fun _ => true) l = l.
Proof. induction l; simpl; congruence. Qed.

Lemma filter_twice {A} (p q : A -> bool) (l : list A) :
  List.filter q (List.filter p l) = List.filter (fun x => p x && q x) l.
Proof.
  induction l as [|x l IH]; simpl; [reflexivity|].
  destruct (p x); simpl; [destruct (q x)|]; congruence.
Qed.

Lemma filter_guarded {A B} (o : option B) (guard : B -> bool)
    (test : B -> A -> bool) (keep : A -> bool) (l : list A) :
  match o with
  | Some v => if guard v then List.filter (test v) (List.filter keep l)
              else List.filter keep l
  | None => List.filter keep l
  end
  = List.filter (fun x => keep x && Spec.criterion o guard (fun v => test v x)) l.
Proof.
  destruct o as [v|]; simpl.
  - destruct (guard v).
    + apply filter_twice.
    + apply filter_ext. intros x. now rewrite andb_true_r.
  - apply filter_ext. intros x. now rewrite andb_true_r.
Qed.

Lemma filter_guarded_first {A B} (o : option B) (guard : B -> bool)
    (test : B -> A -> bool) (l : list A) :
  match o with
  | Some v => if guard v then List.filter (test v) l else l
  | None => l
  end
  = List.filter (fun x => Spec.criterion o guard (fun v => test v x)) l.
Proof.
  destruct o as [v|]; simpl; [destruct (guard v)|];
    reflexivity || (symmetry; apply filter_all).
Qed.

Lemma applyFilters_passes (properties : list Property) (filters : SearchFilters) :
  Index.applyFilters properties filters = List.filter (Spec.passes filters) properties.
Proof.
  cbv beta delta [Index.applyFilters].
  (* one assignment to [filtered] at a time: substitute the value so far,
     then fuse the guarded filter into the test accumulated so far *)
  do 9 (lazymatch goal with
        | |- (let x := ?v in @?body x) = ?rhs => change (body v = rhs); cbv beta
        end;
        try lazymatch goal with
        | |- context [match ?o with
                      | Some v => if @?g v then List.filter (@?t v) (List.filter ?k ?l)
                                  else _
                      | None => _
                      end] =>
            rewrite (filter_guarded o g t k l)
        | |- context [match ?o with
                      | Some v => if @?g v then List.filter (@?t v) ?l else _
                      | None => _
                      end] =>
            rewrite (filter_guarded_first o g t l)
        end).
  apply filter_ext. intros property. reflexivity.
Qed.

(** ** The fused test says what the statements say *)

Lemma ge_atLeast (x : Z) (bound : JS.number) :
  JS.ge (JS.Int x) bound = true <-> Spec.atLeast x bound.
Proof.
  unfold Spec.atLeast. destruct bound as [|b]; simpl.
  - split; [discriminate | intros (b & H & _); discriminate].
  - rewrite Z.leb_le. split.
    + intros H. exists b. auto.
    + intros (b' & H & Hle). congruence.
Qed.

Lemma le_atMost (x : Z) (bound : JS.number) :
  JS.le (JS.Int x) bound = true <-> Spec.atMost x bound.
Proof.
  unfold Spec.atMost. destruct bound as [|b]; simpl.
  - split; [discriminate | intros (b & H & _); discriminate].
  - rewrite Z.leb_le. split.
    + intros H. exists b. auto.
    + intros (b' & H & Hle). congruence.
Qed.

Lemma ge_onOrAfter (added dateFrom : string) :
  JS.ge (JS.Date_valueOf added) (JS.Date_valueOf dateFrom) = true
  <-> Spec.onOrAfter added dateFrom.
Proof.
  unfold Spec.onOrAfter.
  destruct (JS.Date_valueOf added) as [|a], (JS.Date_valueOf dateFrom) as [|f]; simpl;
    try (split; [discriminate | intros (a' & f' & H1 & H2 & _); discriminate]).
  rewrite Z.leb_le. split.
  - intros H. exists a, f. auto.
  - intros (a' & f' & H1 & H2 & Hle). congruence.
Qed.

Lemma le_onOrBefore (added dateTo : string) :
  JS.le (JS.Date_valueOf added) (JS.Date_valueOf dateTo) = true
  <-> Spec.onOrBefore added dateTo.
Proof.
  unfold Spec.onOrBefore.
  destruct (JS.Date_valueOf added) as [|a], (JS.Date_valueOf dateTo) as [|t]; simpl;
    try (split; [discriminate | intros (a' & t' & H1 & H2 & _); discriminate]).
  rewrite Z.leb_le. split.
  - intros H. exists a, t. auto.
  - intros (a' & t' & H1 & H2 & Hle). congruence.
Qed.

Lemma criterion_iff {B} (o : option B) (guard test : B -> bool) (counts P : B -> Prop) :
  (forall v, guard v = true <-> counts v) ->
  (forall v, test v = true <-> P v) ->
  Spec.criterion o guard test = true <-> (forall v, o = Some v -> counts v -> P v).
Proof.
  intros Hguard Htest. destruct o as [v|]; simpl.
  - destruct (guard v) eqn:E.
    + rewrite Htest. split.
      * intros H w [= <-] _. exact H.
      * intros H. apply H; [reflexivity | now apply Hguard].
    + split; [|reflexivity].
      intros _ w [= <-] Hc. apply Hguard in Hc. congruence.
  - split; [intros _ w; discriminate | reflexivity].
Qed.

Lemma passes_satisfies (filters : SearchFilters) (r : Property) :
  Spec.passes filters r = true <-> Spec.satisfies filters r.
Proof.
  unfold Spec.passes, Spec.satisfies, Spec.satisfiesWhen.
  rewrite !andb_true_iff.
  rewrite (criterion_iff (SearchFilters.type filters) _ _
             (fun t => JS.truthy_string t = true /\ t <> "Any")
             (fun t => Property.type r = t)).
  2: { intros t. rewrite andb_true_iff, negb_true_iff.
       pose proof (String.eqb_spec t "Any") as Hs.
       destruct Hs; split; intros [? ?]; split; congruence. }
  2: { intros t. apply String.eqb_eq. }
  rewrite (criterion_iff (SearchFilters.minPrice filters) _ _
             (fun v => JS.truthy_number v = true) (Spec.atLeast (Property.price r)))
    by (reflexivity || apply ge_atLeast).
  rewrite (criterion_iff (SearchFilters.maxPrice filters) _ _
             (fun v => JS.truthy_number v = true) (Spec.atMost (Property.price r)))
    by (reflexivity || apply le_atMost).
  rewrite (criterion_iff (SearchFilters.minBedrooms filters) _ _
             (fun v => JS.truthy_number v = true) (Spec.atLeast (Property.bedrooms r)))
    by (reflexivity || apply ge_atLeast).
  rewrite (criterion_iff (SearchFilters.maxBedrooms filters) _ _
             (fun v => JS.truthy_number v = true) (Spec.atMost (Property.bedrooms r)))
    by (reflexivity || apply le_atMost).
  rewrite (criterion_iff (SearchFilters.postcodeArea filters) _ _
             (fun a => JS.truthy_string a = true)
             (Spec.containsIgnoringCase (Property.postcode r)))
    by (reflexivity || (intros a; apply includes_occurs)).
  rewrite (criterion_iff (SearchFilters.dateFrom filters) _ _
             (fun d => JS.truthy_string d = true) (Spec.onOrAfter (Property.added r)))
    by (reflexivity || (intros d; apply ge_onOrAfter)).
  rewrite (criterion_iff (SearchFilters.dateTo filters) _ _
             (fun d => JS.truthy_string d = true) (Spec.onOrBefore (Property.added r)))
    by (reflexivity || (intros d; apply le_onOrBefore)).
  intuition eauto.
Qed.

Lemma filter_sublist {A} (p : A -> bool) (l : list A) : sublist (List.filter p l) l.
Proof.
  induction l as [|x l IH]; simpl.
  - constructor.
  - destruct (p x); now constructor.
Qed.

(** ** A falsy value in a field is the same as no value *)

Lemma passes_falsy_number (key : SearchFilters.numberKey) (v : JS.number)
    (filters : SearchFilters) (r : Property) :
  JS.truthy_number v = false ->
  Spec.passes (SearchFilters.setNumber key (Some v) filters) r
  = Spec.passes (SearchFilters.setNumber key None filters) r.
Proof.
  intros H. destruct key; unfold Spec.passes; simpl; rewrite H; reflexivity.
Qed.

Lemma passes_falsy_string (key : SearchFilters.stringKey) (s : string)
    (filters : SearchFilters) (r : Property) :
  JS.truthy_string s = false ->
  Spec.passes (SearchFilters.setString key (Some s) filters) r
  = Spec.passes (SearchFilters.setString key None filters) r.
Proof.
  intros H. destruct key; unfold Spec.passes; simpl; rewrite H; reflexivity.
Qed.

Lemma applyFilters_falsy_number (catalog : list Property) (key : SearchFilters.numberKey)
    (v : JS.number) (filters : SearchFilters) :
  JS.truthy_number v = false ->
  Index.applyFilters catalog (SearchFilters.setNumber key (Some v) filters)
  = Index.applyFilters catalog (SearchFilters.setNumber key None filters).
Proof.
  intros H. rewrite !applyFilters_passes.
  apply filter_ext. intros r. now apply passes_falsy_number.
Qed.

Lemma applyFilters_falsy_string (catalog : list Property) (key : SearchFilters.stringKey)
    (s : string) (filters : SearchFilters) :
  JS.truthy_string s = false ->
  Index.applyFilters catalog (SearchFilters.setString key (Some s) filters)
  = Index.applyFilters catalog (SearchFilters.setString key None filters).
Proof.
  intros H. rewrite !applyFilters_passes.
  apply filter_ext. intros r. now apply passes_falsy_string.
Qed.

Lemma applyFilters_empty (catalog : list Property) :
  Index.applyFilters catalog SearchFilters.empty = catalog.
Proof. reflexivity. Qed.

(** ** What [handleSearch] returns *)

(** The texts of the example search are plain. *)
Lemma areaAndDate_plainSearch (filters : SearchFilters) :
  SearchFilters.postcodeArea filters = Some "nw" ->
  SearchFilters.dateFrom filters = Some "2024-01-02" ->
  SearchFilters.dateTo filters = None ->
  Terms.plainSearch Fixture.catalog filters.
Proof.
  intros Harea Hfrom Hto. unfold Terms.plainSearch. rewrite Harea, Hfrom, Hto.
  split.
  - intros a [= <-] _. split.
    + unfold Terms.asciiText. apply (bool_decide_unpack _). vm_compute. exact I.
    + intros r [<- | [<- | []]]; unfold Terms.asciiText;
        apply (bool_decide_unpack _); vm_compute; exact I.
  - intros d [[= <-] | H] _; [|discriminate H]. split.
    + exists 2024, 1, 2. split; [reflexivity | vm_compute; intuition discriminate].
    + intros r [<- | [<- | []]].
      * exists 2024, 1, 1. split; [reflexivity | vm_compute; intuition discriminate].
      * exists 2024, 6, 1. split; [reflexivity | vm_compute; intuition discriminate].
Qed.

(** C1, as amended.  [handleSearch] stores the records of the catalog that
    satisfy every criterion, a criterion being a field set to a truthy
    value (for [type], also other than "Any"): price and bedrooms within
    the inclusive bounds, the postcode containing the area letter case
    apart, the added date within the inclusive range of the parsed dates.
    This is stated for the searches whose texts the models of
    [toLowerCase] and of [new Date] read as the program does: ASCII
    postcodes, and dates that name a day of the calendar in the form
    YYYY-MM-DD.  For every search, the result keeps the order (and the
    repetitions) of the catalog, and the empty filter returns the catalog
    itself. *)
Theorem handleSearch_keeps_the_satisfying_records
    (st : Index.state) (filters : SearchFilters) :
  let catalog := Index.properties st in
  let result := Index.filteredProperties (Index.handleSearch filters st) in
  (Terms.plainSearch catalog filters ->
     (forall r, In r result <-> In r catalog /\ Spec.satisfies filters r)
     /\ (exists keep : Property -> bool,
           (forall r, keep r = true <-> Spec.satisfies filters r)
           /\ result = List.filter keep catalog))
  /\ sublist result catalog
  /\ (filters = SearchFilters.empty -> result = catalog).
Proof.
  cbv zeta. unfold Index.handleSearch. simpl.
  rewrite applyFilters_passes.
  split; [|split].
  - intros _. split.
    + intros r. rewrite filter_In, passes_satisfies. reflexivity.
    + exists (Spec.passes filters). split; [apply passes_satisfies | reflexivity].
  - apply filter_sublist.
  - intros ->. rewrite <- applyFilters_passes. apply applyFilters_empty.
Qed.

(** The flat, in the search of the example catalog by postcode area and by
    date. *)
Lemma handleSearch_keeps_the_satisfying_records_witness :
  In Fixture.flat
    (Index.filteredProperties
       (Index.handleSearch Fixture.areaAndDate (Index.initial Fixture.catalog)))
  <-> In Fixture.flat Fixture.catalog /\ Spec.satisfies Fixture.areaAndDate Fixture.flat.
Proof.
  refine (proj1
    (proj1
       (handleSearch_keeps_the_satisfying_records (Index.initial Fixture.catalog)
          Fixture.areaAndDate) _) Fixture.flat).
  apply areaAndDate_plainSearch; reflexivity.
Defined.

(** C1 as written fails: with [maxPrice] set to 0 the house priced 500000
    is returned, although 500000 is not within the bound 0. *)
Lemma handleSearch_ignores_a_zero_bound :
  In Fixture.house
    (Index.filteredProperties
       (Index.handleSearch (Fixture.only SearchFilters.K_maxPrice (JS.Int 0))
          (Index.initial Fixture.catalog)))
  /\ ~ Spec.satisfiesPresent (Fixture.only SearchFilters.K_maxPrice (JS.Int 0))
         Fixture.house.
Proof.
  split.
  - simpl. auto.
  - intros (_ & _ & Hmax & _).
    destruct (Hmax (JS.Int 0) eq_refl I) as (b & Hb & Hle).
    injection Hb as <-. simpl in Hle. lia.
Qed.

(** C10.  A numeric field set to 0, and [postcodeArea] set to the empty
    text, filter nothing: the result is that of the filter with the field
    unset.  With [maxPrice] 0 alone the whole catalog is returned, records
    of any price included. *)
Theorem falsy_criterion_is_no_constraint
    (catalog : list Property) (filters : SearchFilters) :
  (forall key,
     Index.applyFilters catalog (SearchFilters.setNumber key (Some (JS.Int 0)) filters)
     = Index.applyFilters catalog (SearchFilters.setNumber key None filters))
  /\ Index.applyFilters catalog
       (SearchFilters.setString SearchFilters.K_postcodeArea (Some EmptyString) filters)
     = Index.applyFilters catalog
         (SearchFilters.setString SearchFilters.K_postcodeArea None filters)
  /\ Index.applyFilters catalog
       (SearchFilters.setNumber SearchFilters.K_maxPrice (Some (JS.Int 0))
          SearchFilters.empty)
     = catalog.
Proof.
  split; [|split].
  - intros key. now apply applyFilters_falsy_number.
  - now apply applyFilters_falsy_string.
  - reflexivity.
Qed.

(** ** Texts that [parseInt] does not read *)

Lemma digitValue_decimal (c : ascii) (d : Z) :
  JS.digitValue c = Some d -> d < 10 -> JS.decimal c = Some d.
Proof.
  unfold JS.digitValue, JS.decimal.
  destruct ((48 <=? _) && (_ <=? 57)); [auto|].
  destruct ((97 <=? _) && (_ <=? 122)) eqn:E1.
  - apply andb_true_iff in E1. destruct E1 as [E1 _]. apply Z.leb_le in E1.
    intros [= <-] H. lia.
  - destruct ((65 <=? _) && (_ <=? 90)) eqn:E2; [|discriminate].
    apply andb_true_iff in E2. destruct E2 as [E2 _]. apply Z.leb_le in E2.
    intros [= <-] H. lia.
Qed.

Lemma trimStart_eq (s : string) :
  JS.trimStart s
  = match s with
    | String c1 s1 =>
        if JS.isStrWhiteSpaceChar c1 then JS.trimStart s1
        else
          match s1 with
          | String c2 s2 =>
              if JS.isStrWhiteSpaceChar2 c1 c2 then JS.trimStart s2
              else
                match s2 with
                | String c3 s3 =>
                    if JS.isStrWhiteSpaceChar3 c1 c2 c3 then JS.trimStart s3 else s
                | EmptyString => s
                end
          | EmptyString => s
          end
    | EmptyString => s
    end.
Proof. destruct s; reflexivity. Qed.

(** A visible ASCII character is no white space and starts none. *)
Lemma trimStart_other (c : ascii) (s : string) :
  (32 < nat_of_ascii c < 128)%nat -> JS.trimStart (String c s) = String c s.
Proof.
  intros Hc.
  assert (JS.isStrWhiteSpaceChar c = false) as H1.
  { unfold JS.isStrWhiteSpaceChar. apply orb_false_iff. split.
    - apply andb_false_iff. right. apply Nat.leb_gt. lia.
    - apply Nat.eqb_neq. lia. }
  assert (forall c2, JS.isStrWhiteSpaceChar2 c c2 = false) as H2.
  { intros c2. unfold JS.isStrWhiteSpaceChar2.
    apply andb_false_iff. left. apply Nat.eqb_neq. lia. }
  assert (forall c2 c3, JS.isStrWhiteSpaceChar3 c c2 c3 = false) as H3.
  { intros c2 c3. unfold JS.isStrWhiteSpaceChar3. cbv zeta.
    destruct (Nat.eqb_spec (nat_of_ascii c) 225); [lia|].
    destruct (Nat.eqb_spec (nat_of_ascii c) 226); [lia|].
    destruct (Nat.eqb_spec (nat_of_ascii c) 227); [lia|].
    destruct (Nat.eqb_spec (nat_of_ascii c) 239); [lia|]. reflexivity. }
  rewrite trimStart_eq, H1.
  destruct s as [|c2 [|c3 s3]]; rewrite ?H2, ?H3; reflexivity.
Qed.

Lemma digits_without_digit (body : string) :
  Terms.noDigitFirst body -> JS.digits 10 body None = None.
Proof.
  destruct body as [|c body]; simpl; [reflexivity|]. intros H.
  destruct (JS.digitValue c) as [d|] eqn:E; [|reflexivity].
  destruct (d <? 10) eqn:Hd; [|reflexivity].
  apply Z.ltb_lt in Hd.
  rewrite (digitValue_decimal c d) in H by auto. discriminate.
Qed.

(** A text in which no decimal digit follows the white space and the sign
    is read as NaN. *)
Lemma parseInt_startsWithoutDigit (text : string) :
  Terms.startsWithoutDigit text -> JS.parseInt text = JS.NaN.
Proof.
  unfold Terms.startsWithoutDigit, Terms.unsigned, JS.parseInt.
  assert (forall unsigned sign,
            Terms.noDigitFirst unsigned ->
            (let '(R, body) :=
               match unsigned with
               | String "0"%char (String "x"%char r) => (16, r)
               | String "0"%char (String "X"%char r) => (16, r)
               | _ => (10, unsigned)
               end in
             match JS.digits R body None with
             | Some n => JS.Int (sign * n)
             | None => JS.NaN
             end) = JS.NaN) as Hbody.
  { intros unsigned sign Hu.
    pose proof (digits_without_digit unsigned Hu) as Hd.
    destruct unsigned as [|c r]; [reflexivity|].
    destruct (ascii_dec c "0"%char) as [-> | Hc]; [discriminate Hu|].
    destruct c as [[] [] [] [] [] [] [] []]; try (now rewrite Hd);
      exfalso; now apply Hc. }
  destruct (JS.trimStart text) as [|c r]; [reflexivity|].
  destruct (ascii_dec c "-"%char) as [-> | Hminus]; [apply Hbody|].
  destruct (ascii_dec c "+"%char) as [-> | Hplus]; [apply Hbody|].
  intros H.
  destruct c as [[] [] [] [] [] [] [] []];
    try (apply (Hbody (String _ r) 1 H));
    exfalso; (now apply Hminus) || (now apply Hplus).
Qed.




(** C7, as amended.  A record priced [p], for [p] a non-negative integer
    other than 1 and not above 2^53, so that [p - 1] is computed exactly,
    is not in the result of the search whose only criterion is
    [maxPrice = p - 1]. *)
Theorem maxPrice_below_the_price_excludes
    (catalog : list Property) (R : Property) :
  In R catalog ->
  0 <= Property.price R ->
  Property.price R <> 1 ->
  Property.price R <= 2 ^ 53 ->
  ~ In R (Index.applyFilters catalog
            (SearchFilters.setNumber SearchFilters.K_maxPrice
               (Some (JS.sub (JS.Int (Property.price R)) (JS.Int 1)))
               SearchFilters.empty)).
Proof.
  intros _ _ Hne _. rewrite applyFilters_passes, filter_In.
  intros [_ Hpass]. apply passes_satisfies in Hpass.
  destruct Hpass as (_ & _ & Hmax & _).
  destruct (Hmax (JS.Int (Property.price R - 1)) eq_refl) as (b & Hb & Hle).
  - simpl. apply negb_true_iff, Z.eqb_neq. lia.
  - injection Hb as <-. lia.
Qed.

Lemma maxPrice_below_the_price_excludes_witness :
  ~ In Fixture.house
      (Index.applyFilters Fixture.catalog
         (SearchFilters.setNumber SearchFilters.K_maxPrice
            (Some (JS.sub (JS.Int 500000) (JS.Int 1))) SearchFilters.empty)).
Proof.
  apply (maxPrice_below_the_price_excludes Fixture.catalog Fixture.house).
  - simpl. auto.
  - simpl. lia.
  - simpl. lia.
  - simpl. lia.
Defined.

(** C7 as written fails at the price 1: the criterion is [maxPrice = 0],
    which the guard of [handleSearch] skips, and the record stays. *)
Lemma maxPrice_zero_keeps_the_record_priced_one :
  In Fixture.shed [Fixture.shed]
  /\ 0 <= Property.price Fixture.shed
  /\ In Fixture.shed
       (Index.applyFilters [Fixture.shed]
          (SearchFilters.setNumber SearchFilters.K_maxPrice
             (Some (JS.Int (Property.price Fixture.shed - 1))) SearchFilters.empty)).
Proof.
  split; [|split].
  - simpl. auto.
  - simpl. lia.
  - simpl. auto.
Qed.

(* ===================================================================== *)
(** * The favourites *)
(* ===================================================================== *)

Section Toggle.

Variable favorites : list Property.
Variable property : Property.

Lemma isAlreadyFavorite_iff :
  existsb (fun fav => Property.id fav =? Property.id property) favorites = true
  <-> exists fav, In fav favorites /\ Property.id fav = Property.id property.
Proof.
  rewrite existsb_exists. split; intros (fav & Hin & H); exists fav; split;
    auto; now apply Z.eqb_eq.
Qed.

Lemma newFavorites_present :
  (exists fav, In fav favorites /\ Property.id fav = Property.id property) ->
  Index.newFavorites favorites property
  = List.filter (fun fav => negb (Property.id fav =? Property.id property)) favorites.
Proof.
  intros H. apply isAlreadyFavorite_iff in H.
  unfold Index.newFavorites. now rewrite H.
Qed.

Lemma newFavorites_absent :
  (forall fav, In fav favorites -> Property.id fav <> Property.id property) ->
  Index.newFavorites favorites property = favorites ++ [property].
Proof.
  intros H. unfold Index.newFavorites.
  destruct (existsb _ favorites) eqn:E; [|reflexivity].
  apply isAlreadyFavorite_iff in E. destruct E as (fav & Hin & Heq).
  now apply H in Hin.
Qed.

Lemma present_or_absent :
  (exists fav, In fav favorites /\ Property.id fav = Property.id property)
  \/ (forall fav, In fav favorites -> Property.id fav <> Property.id property).
Proof.
  destruct (existsb (fun fav => Property.id fav =? Property.id property) favorites) eqn:E.
  - left. now apply isAlreadyFavorite_iff.
  - right. intros fav Hin Heq.
    assert (existsb (fun fav => Property.id fav =? Property.id property) favorites = true)
      as E'; [|congruence].
    apply isAlreadyFavorite_iff. eauto.
Qed.

Lemma In_others (fav : Property) :
  In fav (List.filter (fun fav => negb (Property.id fav =? Property.id property)) favorites)
  <-> In fav favorites /\ Property.id fav <> Property.id property.
Proof. now rewrite filter_In, negb_true_iff, Z.eqb_neq. Qed.

Lemma ids_of_others (x : Z) :
  In x (List.map Property.id
          (List.filter (fun fav => negb (Property.id fav =? Property.id property)) favorites))
  <-> In x (List.map Property.id favorites) /\ x <> Property.id property.
Proof.
  rewrite !in_map_iff. split.
  - intros (fav & <- & Hin). apply In_others in Hin. destruct Hin. eauto.
  - intros [(fav & <- & Hin) Hne]. exists fav. split; [reflexivity|].
    now apply In_others.
Qed.

End Toggle.

Lemma detail_handleFavorite (property : Property) (st : PropertyDetail.state)
    (localStorage : Storage) :
  PropertyDetail.property st = Some property ->
  PropertyDetail.handleFavorite st localStorage
  = (PropertyDetail.mk (Some property)
       (Index.newFavorites (PropertyDetail.favorites st) property)
       (PropertyDetail.loading st),
     <["propertyFavorites" :=
         Index.stringifyFavorites
           (Index.newFavorites (PropertyDetail.favorites st) property)]> localStorage).
Proof. intros H. unfold PropertyDetail.handleFavorite. now rewrite H. Qed.

(** C2.  [handleFavorite] removes the entries whose [id] is that of the
    record when there is one, keeping the others in their order, and
    otherwise appends the record.  Only [id] is compared: an entry is
    removed by any record of the same [id], whatever its other fields.
    The handler of the detail page computes the same list. *)
Theorem handleFavorite_toggles_by_id
    (property : Property) (st : Index.state) (localStorage : Storage) :
  let favorites := Index.favorites st in
  let result := Index.favorites (fst (Index.handleFavorite property st localStorage)) in
  ((exists fav, In fav favorites /\ Property.id fav = Property.id property) ->
     result
     = List.filter (fun fav => negb (Property.id fav =? Property.id property)) favorites
     /\ (forall fav, In fav result <->
                     In fav favorites /\ Property.id fav <> Property.id property)
     /\ sublist result favorites)
  /\ ((forall fav, In fav favorites -> Property.id fav <> Property.id property) ->
        result = favorites ++ [property])
  /\ (forall stored, In stored favorites -> Property.id stored = Property.id property ->
        ~ In stored result)
  /\ (forall detail : PropertyDetail.state,
        PropertyDetail.property detail = Some property ->
        PropertyDetail.favorites detail = favorites ->
        PropertyDetail.favorites (fst (PropertyDetail.handleFavorite detail localStorage))
        = result).
Proof.
  cbv zeta. simpl. split; [|split; [|split]].
  - intros H. rewrite (newFavorites_present _ _ H).
    split; [reflexivity | split].
    + intros fav. apply In_others.
    + apply filter_sublist.
  - apply newFavorites_absent.
  - intros stored Hin Heq.
    rewrite newFavorites_present by eauto.
    rewrite In_others. tauto.
  - intros detail Hp Hf. rewrite (detail_handleFavorite property) by exact Hp.
    simpl. now rewrite Hf.
Qed.

(** C9.  Two calls of [handleFavorite] with the same record, the second on
    the state the first produced, leave the set of the [id]s of the
    favourites as it was. *)
Theorem handleFavorite_twice_keeps_the_ids
    (property : Property) (st : Index.state) (localStorage : Storage) :
  let once := Index.handleFavorite property st localStorage in
  let twice := Index.handleFavorite property (fst once) (snd once) in
  list_to_set (List.map Property.id (Index.favorites (fst twice)))
  =@{gset Z} list_to_set (List.map Property.id (Index.favorites st)).
Proof.
  cbv zeta. simpl. apply set_eq. intros x.
  rewrite !elem_of_list_to_set, !list_elem_of_In.
  destruct (present_or_absent (Index.favorites st) property) as [Hin | Hout].
  - rewrite (newFavorites_present _ _ Hin).
    rewrite newFavorites_absent.
    2: { intros fav Hfav. apply In_others in Hfav. tauto. }
    rewrite map_app, in_app_iff, ids_of_others. simpl.
    destruct Hin as (fav & Hfav & Hid).
    destruct (Z.eq_dec x (Property.id property)) as [->|Hne].
    + split; [intros _ | auto]. rewrite <- Hid. now apply in_map.
    + intuition congruence.
  - rewrite (newFavorites_absent _ _ Hout).
    rewrite newFavorites_present.
    2: { exists property. split; [apply in_app_iff; simpl; auto | reflexivity]. }
    rewrite ids_of_others, map_app, in_app_iff. simpl.
    split.
    + intros [[H | [H | []]] Hne]; [exact H | congruence].
    + intros H. split; [auto|].
      intros ->. apply in_map_iff in H. destruct H as (fav & Hid & Hfav).
      now apply Hout in Hfav.
Qed.

(** C4, as amended.  The removal of the panel is [handleFavorite].  Called
    with a record whose [id] is among the favourites it removes the entries
    of that [id] and keeps the others, and every removal the panel offers
    is such a call, for a record the panel displays.  Called with a record
    whose [id] is not among the favourites it appends the record. *)
Theorem panel_removal_is_the_toggle (st : Index.state) (localStorage : Storage) :
  let favorites := Index.favorites st in
  let after property :=
    Index.favorites (fst (Index.onRemoveFavorite property st localStorage)) in
  (forall property,
     (exists fav, In fav favorites /\ Property.id fav = Property.id property) ->
     (forall fav, In fav (after property) <->
                  In fav favorites /\ Property.id fav <> Property.id property)
     /\ sublist (after property) favorites)
  /\ Forall
       (fun removal =>
          exists property,
            In property favorites
            /\ removal = Index.onRemoveFavorite property
            /\ forall fav, In fav (Index.favorites (fst (removal st localStorage))) <->
                           In fav favorites /\ Property.id fav <> Property.id property)
       (Index.panelRemovals st)
  /\ (forall property,
        (forall fav, In fav favorites -> Property.id fav <> Property.id property) ->
        after property = favorites ++ [property]).
Proof.
  cbv zeta. unfold Index.onRemoveFavorite. simpl. split; [|split].
  - intros property H. rewrite (newFavorites_present _ _ H). split.
    + intros fav. apply In_others.
    + apply filter_sublist.
  - unfold Index.panelRemovals, FavoritesPanel.removeButtons.
    apply List.Forall_forall. intros removal Hin.
    apply in_map_iff in Hin. destruct Hin as (property & <- & Hin).
    exists property. split; [exact Hin | split; [reflexivity|]].
    intros fav. simpl. rewrite newFavorites_present by eauto.
    apply In_others.
  - intros property H. now apply newFavorites_absent.
Qed.

(** C4 as written fails: the removal called with the flat, which is not
    among the favourites, does not leave them unchanged. *)
Lemma removal_of_an_absent_record_appends_it :
  (forall fav, In fav (Index.favorites (Fixture.page [Fixture.house])) ->
     Property.id fav <> Property.id Fixture.flat)
  /\ Index.favorites
       (fst (Index.onRemoveFavorite Fixture.flat (Fixture.page [Fixture.house]) ∅))
     = [Fixture.house; Fixture.flat]
  /\ Index.favorites
       (fst (Index.onRemoveFavorite Fixture.flat (Fixture.page [Fixture.house]) ∅))
     <> Index.favorites (Fixture.page [Fixture.house]).
Proof.
  split; [|split].
  - intros fav [<- | []]. simpl. lia.
  - reflexivity.
  - simpl. discriminate.
Qed.

(** ** Loading the favourites *)

Lemma detail_hydration (propertiesData : list Property) (id : option string)
    (st : PropertyDetail.state) (localStorage : Storage) :
  snd (PropertyDetail.useEffect propertiesData id st localStorage)
  = Index.useEffect localStorage.
Proof. reflexivity. Qed.

Lemma truthy_string_iff (s : string) : JS.truthy_string s = true <-> s <> EmptyString.
Proof. destruct s; simpl; split; congruence. Qed.

(** An opening brace alone is no JSON text, whatever the fuel. *)
Lemma open_brace_is_no_value (fuel : nat) : JS.JSON.read_value fuel "{" = None.
Proof. destruct fuel as [|[|fuel]]; reflexivity. Qed.

(** C5, as amended.  With no value in the slot, or the empty text, the
    effect does not touch the favourites, which stay empty.  With a text
    that is not JSON, [JSON.parse] throws a SyntaxError that nothing
    catches.  With any text that is JSON, the parsed value becomes the
    favourites as it is, whatever its shape.  The detail page loads the
    favourites in the same way. *)
Theorem hydration_outcomes (localStorage : Storage) :
  (localStorage !! "propertyFavorites" = None -> Index.useEffect localStorage = Kept)
  /\ (localStorage !! "propertyFavorites" = Some EmptyString ->
        Index.useEffect localStorage = Kept)
  /\ (forall saved,
        localStorage !! "propertyFavorites" = Some saved -> saved <> EmptyString ->
        JS.JSON.parse saved = None ->
        Index.useEffect localStorage = SyntaxError)
  /\ (forall saved v,
        localStorage !! "propertyFavorites" = Some saved -> saved <> EmptyString ->
        JS.JSON.parse saved = Some v ->
        Index.useEffect localStorage = SetFavorites v)
  /\ (forall propertiesData id st,
        snd (PropertyDetail.useEffect propertiesData id st localStorage)
        = Index.useEffect localStorage).
Proof.
  unfold Index.useEffect. repeat split.
  - intros ->. reflexivity.
  - intros ->. reflexivity.
  - intros saved -> Hne ->. apply truthy_string_iff in Hne. now rewrite Hne.
  - intros saved v -> Hne ->. apply truthy_string_iff in Hne. now rewrite Hne.
Qed.

(** C5 as written fails: the slot holding an opening brace, which is not
    the serialization of any favourites, makes the effect throw, on both
    pages; and the slot holding the text 5 makes the number 5 the
    favourites. *)
Lemma hydration_of_a_corrupt_value_throws :
  ~ Spec.wellFormed "{"
  /\ Index.useEffect (Fixture.stored "{") = SyntaxError
  /\ snd (PropertyDetail.useEffect Fixture.catalog (Some "1") PropertyDetail.initial
            (Fixture.stored "{")) = SyntaxError
  /\ ~ Spec.startsEmpty (Index.useEffect (Fixture.stored "{"))
  /\ ~ Spec.wellFormed "5"
  /\ Index.useEffect (Fixture.stored "5") = SetFavorites (JS.JSON.Integer 5)
  /\ ~ Spec.startsEmpty (Index.useEffect (Fixture.stored "5")).
Proof.
  assert (Index.useEffect (Fixture.stored "{") = SyntaxError) as Hbrace
    by reflexivity.
  assert (Index.useEffect (Fixture.stored "5") = SetFavorites (JS.JSON.Integer 5))
    as Hfive by reflexivity.
  split; [|split; [|split; [|split; [|split; [|split]]]]].
  - intros [favorites H]. discriminate H.
  - exact Hbrace.
  - reflexivity.
  - rewrite Hbrace. intros [H | H]; discriminate H.
  - intros [favorites H]. discriminate H.
  - exact Hfive.
  - rewrite Hfive. intros [H | H]; discriminate H.
Qed.

(* ===================================================================== *)
(** * The detail lookup *)
(* ===================================================================== *)

Lemma strict_equal_iff (a : Z) (n : JS.number) :
  JS.strict_equal (JS.Int a) n = true <-> n = JS.Int a.
Proof.
  destruct n as [|b]; simpl.
  - split; discriminate.
  - rewrite Z.eqb_eq. split; congruence.
Qed.

Lemma unique_by_id (catalog : list Property) (p q : Property) :
  NoDup (List.map Property.id catalog) ->
  In p catalog -> In q catalog -> Property.id p = Property.id q -> p = q.
Proof.
  induction catalog as [|r catalog IH]; simpl; [tauto|].
  intros Hnd Hp Hq Heq. apply NoDup_cons in Hnd. destruct Hnd as [Hr Hnd].
  rewrite list_elem_of_In in Hr.
  destruct Hp as [<- | Hp], Hq as [<- | Hq]; auto.
  - exfalso. apply Hr. rewrite Heq. now apply in_map.
  - exfalso. apply Hr. rewrite <- Heq. now apply in_map.
Qed.

Lemma find_first {A} (f : A -> bool) (l : list A) (x : A) :
  List.find f l = Some x ->
  exists before after, l = before ++ x :: after /\ forall y, In y before -> f y = false.
Proof.
  induction l as [|a l IH]; simpl; [discriminate|].
  destruct (f a) eqn:E.
  - intros [= <-]. exists [], l. split; [reflexivity | intros y []].
  - intros H. destruct (IH H) as (before & after & -> & Hb).
    exists (a :: before), after. split; [reflexivity|].
    intros y [<- | Hy]; auto.
Qed.

(** With favourites that load, the page shows the first record that has
    the parsed [id], or the not-found view. *)
Lemma lookup_find (catalog : list Property) (id : option string)
    (localStorage : Storage) :
  Terms.loadable localStorage ->
  PropertyDetail.lookup catalog id localStorage
  = PropertyDetail.Shows
      match List.find
              (fun p => JS.strict_equal (JS.Int (Property.id p)) (PropertyDetail.propertyId id))
              catalog with
      | Some p => PropertyDetail.Details p
      | None => PropertyDetail.PropertyNotFound
      end.
Proof.
  unfold Terms.loadable, Terms.snapshotOf, PropertyDetail.lookup, PropertyDetail.useEffect.
  cbv zeta.
  destruct (localStorage !! "propertyFavorites") as [saved|]; [|intros _; reflexivity].
  destruct saved as [|c saved]; [intros _; reflexivity|].
  intros [H | [favorites H]]; [discriminate H|].
  simpl JS.truthy_string. cbv iota.
  destruct (JS.JSON.parse (String c saved)) as [v|]; [|discriminate H].
  simpl in H. cbn [PropertyDetail.property].
  destruct v; try discriminate H. rewrite H.
  destruct (List.find _ catalog); reflexivity.
Qed.

(* ===================================================================== *)
(** * The examples of the specification, run on the model *)
(* ===================================================================== *)

Example search_by_type :
  Index.applyFilters Fixture.catalog
    (SearchFilters.setString SearchFilters.K_type (Some "Flat") SearchFilters.empty)
  = [Fixture.flat].
Proof. reflexivity. Qed.

Example search_by_type_any :
  Index.applyFilters Fixture.catalog
    (SearchFilters.setString SearchFilters.K_type (Some "Any") SearchFilters.empty)
  = Fixture.catalog.
Proof. reflexivity. Qed.

Example search_by_minBedrooms :
  Index.applyFilters Fixture.catalog (Fixture.only SearchFilters.K_minBedrooms (JS.Int 2))
  = [Fixture.house].
Proof. reflexivity. Qed.

Example search_by_postcodeArea :
  Index.applyFilters Fixture.catalog
    (SearchFilters.setString SearchFilters.K_postcodeArea (Some "sw") SearchFilters.empty)
  = [Fixture.house].
Proof. reflexivity. Qed.

Example search_by_minPrice_includes_the_bound :
  Index.applyFilters Fixture.catalog (Fixture.only SearchFilters.K_minPrice (JS.Int 500000))
  = [Fixture.house].
Proof. reflexivity. Qed.

Example search_by_dates :
  Index.applyFilters Fixture.catalog
    (SearchFilters.setString SearchFilters.K_dateFrom (Some "2024-01-02")
       (SearchFilters.setString SearchFilters.K_dateTo (Some "2024-06-01")
          SearchFilters.empty))
  = [Fixture.flat].
Proof. vm_compute. reflexivity. Qed.

Example typed_filters :
  SearchForm.onChangeNumber SearchFilters.K_minPrice "abc"
    (SearchForm.onChangeNumber SearchFilters.K_maxPrice "0"
       (SearchForm.onChangeString SearchFilters.K_postcodeArea "NW"
          (SearchForm.onChangeNumber SearchFilters.K_minBedrooms "1" SearchFilters.empty)))
  = SearchFilters.mk None None None (Some (JS.Int 1)) None (Some "NW") None None.
Proof. reflexivity. Qed.

Example parseInt_skips_white_space :
  JS.parseInt (String (ascii_of_nat 194) (String (ascii_of_nat 160) "12")) = JS.Int 12
  /\ JS.parseInt
       (String (ascii_of_nat 239) (String (ascii_of_nat 187) (String (ascii_of_nat 191) " 7")))
     = JS.Int 7
  /\ JS.parseInt
       (String (ascii_of_nat 226) (String (ascii_of_nat 128) (String (ascii_of_nat 139) "7")))
     = JS.NaN
  /\ JS.parseInt "12abc" = JS.Int 12
  /\ JS.parseInt " -0x1f" = JS.Int (-31).
Proof. repeat split. Qed.

Example toggle_on_then_off :
  Index.newFavorites [] Fixture.house = [Fixture.house]
  /\ Index.newFavorites [Fixture.house] Fixture.house = [].
Proof. split; reflexivity. Qed.

Example toggle_with_a_stale_copy :
  Fixture.staleHouse <> Fixture.house
  /\ Index.newFavorites [Fixture.house; Fixture.flat] Fixture.staleHouse = [Fixture.flat].
Proof. split; [discriminate | reflexivity]. Qed.

Example toggle_twice_moves_the_entry :
  Index.newFavorites
    (Index.newFavorites [Fixture.house; Fixture.flat] Fixture.house) Fixture.house
  = [Fixture.flat; Fixture.house].
Proof. reflexivity. Qed.

Example panel_offers_one_removal_per_favourite :
  List.map (fun removal => Index.favorites (fst (removal (Fixture.page Fixture.catalog) ∅)))
    (Index.panelRemovals (Fixture.page Fixture.catalog))
  = [[Fixture.flat]; [Fixture.house]].
Proof. reflexivity. Qed.

Example persisted_then_loaded :
  exists v,
    Index.useEffect (snd (Index.handleFavorite Fixture.flat (Fixture.page [Fixture.house]) ∅))
    = SetFavorites v
    /\ Property.listOfJSON v = Some [Fixture.house; Fixture.flat].
Proof. eexists. split; vm_compute; reflexivity. Qed.

Example cleared_then_loaded :
  Index.useEffect
    (snd (Index.clearFavorites (Fixture.page Fixture.catalog)
            (snd (Index.handleFavorite Fixture.flat (Fixture.page [Fixture.house]) ∅))))
  = Kept.
Proof. vm_compute. reflexivity. Qed.

Example find_by_id :
  PropertyDetail.lookup Fixture.catalog (Some "99") ∅
  = PropertyDetail.Shows PropertyDetail.PropertyNotFound
  /\ PropertyDetail.lookup Fixture.catalog (Some "1") ∅
     = PropertyDetail.Shows (PropertyDetail.Details Fixture.house)
  /\ PropertyDetail.lookup Fixture.catalog (Some "abc") ∅
     = PropertyDetail.Shows PropertyDetail.PropertyNotFound
  /\ PropertyDetail.lookup Fixture.catalog None ∅
     = PropertyDetail.Shows PropertyDetail.PropertyNotFound
  /\ PropertyDetail.lookup Fixture.catalog (Some "2nd") ∅
     = PropertyDetail.Shows (PropertyDetail.Details Fixture.flat).
Proof. repeat split. Qed.

Example find_by_id_with_stored_favourites :
  PropertyDetail.lookup Fixture.catalog (Some "1") (Fixture.stored "[]")
  = PropertyDetail.Shows (PropertyDetail.Details Fixture.house)
  /\ PropertyDetail.lookup Fixture.catalog (Some "1") (Fixture.stored "{")
     = PropertyDetail.Throws
  /\ PropertyDetail.lookup Fixture.catalog (Some "99") (Fixture.stored "5")
     = PropertyDetail.Shows PropertyDetail.PropertyNotFound
  /\ PropertyDetail.lookup Fixture.catalog (Some "1") (Fixture.stored "5")
     = PropertyDetail.Throws
  /\ PropertyDetail.lookup Fixture.catalog (Some "1") (Fixture.stored "[5]")
     = PropertyDetail.Untyped.
Proof. repeat split. Qed.

(* ===================================================================== *)
(** * Further properties: the form and the search *)
(* ===================================================================== *)

Lemma handleFilterChange_normalised (c : SearchForm.change) (filters : SearchFilters) :
  Terms.normalised filters ->
  Terms.normalised (SearchForm.handleFilterChange c filters).
Proof.
  intros [Hn Hs].
  pose proof (Hn SearchFilters.K_minPrice) as H1.
  pose proof (Hn SearchFilters.K_maxPrice) as H2.
  pose proof (Hn SearchFilters.K_minBedrooms) as H3.
  pose proof (Hn SearchFilters.K_maxBedrooms) as H4.
  pose proof (Hs SearchFilters.K_type) as H5.
  pose proof (Hs SearchFilters.K_postcodeArea) as H6.
  pose proof (Hs SearchFilters.K_dateFrom) as H7.
  pose proof (Hs SearchFilters.K_dateTo) as H8.
  simpl in *. clear Hn Hs.
  destruct c as [key value | key value]; simpl.
  - destruct (JS.truthy_number value) eqn:E; split; intros key' v H;
      destruct key, key'; simpl in H; eauto; congruence.
  - destruct (JS.truthy_string value) eqn:E; split; intros key' v H;
      destruct key, key'; simpl in H; eauto; congruence.
Qed.

Lemma typed_normalised (changes : list SearchForm.change) :
  Terms.normalised (Terms.typed changes).
Proof.
  unfold Terms.typed.
  assert (Terms.normalised SearchFilters.empty) as H0.
  { split; intros key v; destruct key; discriminate. }
  revert H0. generalize SearchFilters.empty.
  induction changes as [|c changes IH]; intros filters H; simpl; [exact H|].
  apply IH. now apply handleFilterChange_normalised.
Qed.

Lemma normalised_satisfies (filters : SearchFilters) (r : Property) :
  Terms.normalised filters ->
  Spec.satisfiesPresent filters r <-> Spec.satisfies filters r.
Proof.
  intros [Hn Hs]. unfold Spec.satisfiesPresent, Spec.satisfies, Spec.satisfiesWhen.
  pose proof (Hn SearchFilters.K_minPrice) as H1.
  pose proof (Hn SearchFilters.K_maxPrice) as H2.
  pose proof (Hn SearchFilters.K_minBedrooms) as H3.
  pose proof (Hn SearchFilters.K_maxBedrooms) as H4.
  pose proof (Hs SearchFilters.K_type) as H5.
  pose proof (Hs SearchFilters.K_postcodeArea) as H6.
  pose proof (Hs SearchFilters.K_dateFrom) as H7.
  pose proof (Hs SearchFilters.K_dateTo) as H8.
  simpl in *. clear Hn Hs.
  split; intros (A1 & A2 & A3 & A4 & A5 & A6 & A7 & A8);
    repeat split; intros; eauto.
Qed.

(** X1.  Whatever is typed into the form, the filter it holds has no falsy
    field, and the search submitted with it returns exactly the records of
    the catalog that satisfy every field that is set.  The second part is
    stated for ASCII postcodes and for dates that name a day of the
    calendar, as the date controls of the form yield. *)
Theorem form_search_applies_every_field
    (changes : list SearchForm.change) (st : Index.state) :
  let filters := Terms.typed changes in
  let result :=
    Index.filteredProperties (SearchForm.handleSubmit Index.onSearch filters st) in
  Terms.normalised filters
  /\ (Terms.plainSearch (Index.properties st) filters ->
      forall r, In r result <->
                In r (Index.properties st) /\ Spec.satisfiesPresent filters r).
Proof.
  cbv zeta. split; [apply typed_normalised|].
  intros _ r. unfold SearchForm.handleSubmit, Index.onSearch, Index.handleSearch. simpl.
  rewrite applyFilters_passes, filter_In, passes_satisfies.
  now rewrite (normalised_satisfies _ _ (typed_normalised changes)).
Qed.

(** A postcode area, a maximum price of 0 and a date typed into the form,
    and the flat in the search submitted. *)
Lemma form_search_applies_every_field_witness :
  In Fixture.flat
    (Index.filteredProperties
       (SearchForm.handleSubmit Index.onSearch (Terms.typed Fixture.typing)
          (Index.initial Fixture.catalog)))
  <-> In Fixture.flat Fixture.catalog
      /\ Spec.satisfiesPresent (Terms.typed Fixture.typing) Fixture.flat.
Proof.
  refine (proj2
    (form_search_applies_every_field Fixture.typing (Index.initial Fixture.catalog))
    _ Fixture.flat).
  apply areaAndDate_plainSearch; reflexivity.
Defined.

Lemma handleFilterChange_same_key (c1 c2 : SearchForm.change) (prev : SearchFilters) :
  Terms.keyOf c1 = Terms.keyOf c2 ->
  SearchForm.handleFilterChange c2 (SearchForm.handleFilterChange c1 prev)
  = SearchForm.handleFilterChange c2 prev.
Proof.
  destruct c1 as [k1 v1 | k1 v1], c2 as [k2 v2 | k2 v2]; simpl; intros [= <-];
    destruct k1; reflexivity.
Qed.

Lemma handleFilterChange_other_key (c1 c2 : SearchForm.change) (prev : SearchFilters) :
  Terms.keyOf c1 <> Terms.keyOf c2 ->
  SearchForm.handleFilterChange c2 (SearchForm.handleFilterChange c1 prev)
  = SearchForm.handleFilterChange c1 (SearchForm.handleFilterChange c2 prev).
Proof.
  destruct c1 as [k1 v1 | k1 v1], c2 as [k2 v2 | k2 v2]; simpl; intros H;
    destruct k1, k2; try reflexivity; now contradict H.
Qed.

(** X2.  In the form a later change of a field replaces the earlier one,
    changes of different fields can be made in either order, and a change
    leaves every other field as it was. *)
Theorem handleFilterChange_writes_one_field
    (c1 c2 : SearchForm.change) (prev : SearchFilters) :
  (Terms.keyOf c1 = Terms.keyOf c2 ->
     SearchForm.handleFilterChange c2 (SearchForm.handleFilterChange c1 prev)
     = SearchForm.handleFilterChange c2 prev)
  /\ (Terms.keyOf c1 <> Terms.keyOf c2 ->
        SearchForm.handleFilterChange c2 (SearchForm.handleFilterChange c1 prev)
        = SearchForm.handleFilterChange c1 (SearchForm.handleFilterChange c2 prev))
  /\ (forall key, Terms.keyOf c1 <> inl key ->
        SearchFilters.getNumber key (SearchForm.handleFilterChange c1 prev)
        = SearchFilters.getNumber key prev)
  /\ (forall key, Terms.keyOf c1 <> inr key ->
        SearchFilters.getString key (SearchForm.handleFilterChange c1 prev)
        = SearchFilters.getString key prev).
Proof.
  split; [apply handleFilterChange_same_key|].
  split; [apply handleFilterChange_other_key|].
  split; intros key H; destruct c1 as [k v | k v]; simpl in *;
    destruct k, key; try reflexivity; now contradict H.
Qed.

Lemma applyFilters_twice (catalog : list Property) (f g : SearchFilters) :
  Index.applyFilters (Index.applyFilters catalog f) g
  = List.filter (fun r => Spec.passes f r && Spec.passes g r) catalog.
Proof. rewrite !applyFilters_passes. apply filter_twice. Qed.

Lemma criterion_None {B} (guard test : B -> bool) :
  Spec.criterion None guard test = true.
Proof. reflexivity. Qed.

Lemma passes_add_number (key : SearchFilters.numberKey) (v : JS.number)
    (filters : SearchFilters) (r : Property) :
  Spec.passes (SearchFilters.setNumber key (Some v) filters) r
  = Spec.passes (SearchFilters.setNumber key None filters) r
    && Spec.passes (SearchFilters.setNumber key (Some v) SearchFilters.empty) r.
Proof.
  destruct key; unfold Spec.passes;
    cbn [SearchFilters.setNumber SearchFilters.setString SearchFilters.empty
         SearchFilters.type SearchFilters.minPrice SearchFilters.maxPrice
         SearchFilters.minBedrooms SearchFilters.maxBedrooms
         SearchFilters.postcodeArea SearchFilters.dateFrom SearchFilters.dateTo];
    rewrite !criterion_None;
    repeat match goal with
           | |- context [Spec.criterion ?o ?g ?t] =>
               generalize (Spec.criterion o g t); intro
           end;
    repeat match goal with b : bool |- _ => destruct b end; reflexivity.
Qed.

Lemma passes_add_string (key : SearchFilters.stringKey) (s : string)
    (filters : SearchFilters) (r : Property) :
  Spec.passes (SearchFilters.setString key (Some s) filters) r
  = Spec.passes (SearchFilters.setString key None filters) r
    && Spec.passes (SearchFilters.setString key (Some s) SearchFilters.empty) r.
Proof.
  destruct key; unfold Spec.passes;
    cbn [SearchFilters.setNumber SearchFilters.setString SearchFilters.empty
         SearchFilters.type SearchFilters.minPrice SearchFilters.maxPrice
         SearchFilters.minBedrooms SearchFilters.maxBedrooms
         SearchFilters.postcodeArea SearchFilters.dateFrom SearchFilters.dateTo];
    rewrite !criterion_None;
    repeat match goal with
           | |- context [Spec.criterion ?o ?g ?t] =>
               generalize (Spec.criterion o g t); intro
           end;
    repeat match goal with b : bool |- _ => destruct b end; reflexivity.
Qed.

(** X3.  The criteria are independent conjuncts: the search with a field
    set returns what the search with that field alone returns on the result
    of the search with that field unset. *)
Theorem criteria_are_independent (catalog : list Property) (filters : SearchFilters) :
  (forall key v,
     Index.applyFilters catalog (SearchFilters.setNumber key (Some v) filters)
     = Index.applyFilters
         (Index.applyFilters catalog (SearchFilters.setNumber key None filters))
         (SearchFilters.setNumber key (Some v) SearchFilters.empty))
  /\ (forall key s,
        Index.applyFilters catalog (SearchFilters.setString key (Some s) filters)
        = Index.applyFilters
            (Index.applyFilters catalog (SearchFilters.setString key None filters))
            (SearchFilters.setString key (Some s) SearchFilters.empty)).
Proof.
  split; intros key v; rewrite applyFilters_twice, applyFilters_passes;
    apply filter_ext; intros r.
  - apply passes_add_number.
  - apply passes_add_string.
Qed.

Lemma applyFilters_none_passes (catalog : list Property) (filters : SearchFilters) :
  (forall r, In r catalog -> Spec.passes filters r = false) ->
  Index.applyFilters catalog filters = [].
Proof.
  intros H. rewrite applyFilters_passes.
  induction catalog as [|r catalog IH]; simpl; [reflexivity|].
  rewrite (H r) by (simpl; auto). apply IH. intros r' Hr'. apply H. simpl. auto.
Qed.

(** X4.  A minimum above the maximum, both other than 0, empties the
    result, for the price and for the bedrooms. *)
Theorem inverted_range_finds_nothing
    (catalog : list Property) (filters : SearchFilters) (lo hi : Z) :
  hi < lo -> lo <> 0 -> hi <> 0 ->
  Index.applyFilters catalog
    (SearchFilters.setNumber SearchFilters.K_minPrice (Some (JS.Int lo))
       (SearchFilters.setNumber SearchFilters.K_maxPrice (Some (JS.Int hi)) filters))
  = []
  /\ Index.applyFilters catalog
       (SearchFilters.setNumber SearchFilters.K_minBedrooms (Some (JS.Int lo))
          (SearchFilters.setNumber SearchFilters.K_maxBedrooms (Some (JS.Int hi)) filters))
     = [].
Proof.
  intros Hlt Hlo Hhi.
  assert ((lo =? 0) = false) as E1 by now apply Z.eqb_neq.
  assert ((hi =? 0) = false) as E2 by now apply Z.eqb_neq.
  split; apply applyFilters_none_passes; intros r _; unfold Spec.passes; simpl;
    rewrite E1, E2; simpl.
  - destruct (lo <=? Property.price r) eqn:A, (Property.price r <=? hi) eqn:B;
      rewrite ?andb_false_r, ?andb_false_l; try reflexivity.
    apply Z.leb_le in A, B. lia.
  - destruct (lo <=? Property.bedrooms r) eqn:A, (Property.bedrooms r <=? hi) eqn:B;
      rewrite ?andb_false_r, ?andb_false_l; try reflexivity.
    apply Z.leb_le in A, B. lia.
Qed.

Lemma inverted_range_finds_nothing_witness :
  Index.applyFilters Fixture.catalog
    (SearchFilters.setNumber SearchFilters.K_minPrice (Some (JS.Int 400000))
       (SearchFilters.setNumber SearchFilters.K_maxPrice (Some (JS.Int 350000))
          SearchFilters.empty))
  = [].
Proof.
  apply (inverted_range_finds_nothing Fixture.catalog SearchFilters.empty 400000 350000);
    lia.
Defined.

Lemma DaysInMonth_le_31 (y m : Z) : JS.DaysInMonth y m <= 31.
Proof. unfold JS.DaysInMonth. repeat case_match; lia. Qed.

(** A month that is none, or a day that no month has, makes an invalid
    date. *)
Lemma noSuchDay_NaN (s : string) : Terms.noSuchDay s -> JS.Date_valueOf s = JS.NaN.
Proof.
  intros (y & m & d & E & _ & H). unfold JS.Date_valueOf, JS.MakeDate. rewrite E.
  pose proof (DaysInMonth_le_31 y m) as Hle.
  destruct (Z.leb_spec 1 m), (Z.leb_spec m 12), (Z.leb_spec 1 d),
    (Z.leb_spec d (JS.DaysInMonth y m)); simpl; try reflexivity; lia.
Qed.

(** X5.  A date field of the form YYYY-MM-DD whose month is not one of 01
    to 12, or whose day is not one of 01 to 31, the year being 1000 or
    later, is an invalid date: it empties the result.  And a record whose
    [added] is such a text is in no result of a search with a date field,
    whatever its text. *)
Theorem invalid_date_finds_nothing
    (catalog : list Property) (filters : SearchFilters) (d : string) :
  d <> EmptyString ->
  (Terms.noSuchDay d ->
     Index.applyFilters catalog
       (SearchFilters.setString SearchFilters.K_dateFrom (Some d) filters) = []
     /\ Index.applyFilters catalog
          (SearchFilters.setString SearchFilters.K_dateTo (Some d) filters) = [])
  /\ (forall r, Terms.noSuchDay (Property.added r) ->
        ~ In r (Index.applyFilters catalog
                  (SearchFilters.setString SearchFilters.K_dateFrom (Some d) filters))
        /\ ~ In r (Index.applyFilters catalog
                     (SearchFilters.setString SearchFilters.K_dateTo (Some d) filters))).
Proof.
  intros Hd. apply truthy_string_iff in Hd. split.
  - intros Hnan. apply noSuchDay_NaN in Hnan.
    split; apply applyFilters_none_passes; intros r _; unfold Spec.passes; simpl;
      rewrite Hd, Hnan; destruct (JS.Date_valueOf (Property.added r)); simpl;
      rewrite ?andb_false_r; reflexivity.
  - intros r Hnan. apply noSuchDay_NaN in Hnan.
    split; rewrite applyFilters_passes, filter_In; intros [_ H];
      unfold Spec.passes in H; simpl in H; rewrite Hd, Hnan in H; simpl in H;
      rewrite ?andb_false_r in H; discriminate.
Qed.

(** The thirteenth month. *)
Lemma invalid_date_finds_nothing_witness :
  Index.applyFilters Fixture.catalog
    (SearchFilters.setString SearchFilters.K_dateFrom (Some "2024-13-01")
       SearchFilters.empty)
  = [].
Proof.
  refine (proj1 (proj1
    (invalid_date_finds_nothing Fixture.catalog SearchFilters.empty "2024-13-01" _)
    _)).
  - discriminate.
  - exists 2024, 13, 1. split; [reflexivity | lia].
Defined.

Lemma NoDup_ids_sublist (l k : list Property) :
  sublist l k -> NoDup (Terms.ids k) -> NoDup (Terms.ids l).
Proof.
  intros H Hnd.
  assert (sublist (Terms.ids l) (Terms.ids k)) as Hs
    by (apply (fmap_sublist Property.id); exact H).
  exact (sublist_NoDup _ _ Hnd Hs).
Qed.

(** X6.  The result of a search has the records of the catalog at most
    once each: it is not longer than the catalog, and its [id]s, the keys
    of the cards, are distinct when those of the catalog are. *)
Theorem search_result_keys (filters : SearchFilters) (st : Index.state) :
  NoDup (Terms.ids (Index.properties st)) ->
  NoDup (Terms.ids (Index.filteredProperties (Index.handleSearch filters st)))
  /\ (List.length (Index.filteredProperties (Index.handleSearch filters st))
      <= List.length (Index.properties st))%nat
  /\ List.map Cards.property (Cards.cards (Index.handleSearch filters st))
     = Index.applyFilters (Index.properties st) filters.
Proof.
  intros Hnd. simpl.
  assert (sublist (Index.applyFilters (Index.properties st) filters) (Index.properties st))
    as Hsub by (rewrite applyFilters_passes; apply filter_sublist).
  split; [now apply (NoDup_ids_sublist _ _ Hsub)|].
  split; [now apply sublist_length|].
  unfold Cards.cards. simpl. rewrite map_map. simpl. apply map_id.
Qed.

(** The search for flats on the page that lists the house, the flat and
    the shed: two records are filtered out. *)
Lemma search_result_keys_witness :
  NoDup (Terms.ids
           (Index.filteredProperties
              (Index.handleSearch
                 (SearchFilters.setString SearchFilters.K_type (Some "Flat")
                    SearchFilters.empty)
                 (Index.initial [Fixture.house; Fixture.flat; Fixture.shed]))))
  /\ (List.length
        (Index.filteredProperties
           (Index.handleSearch
              (SearchFilters.setString SearchFilters.K_type (Some "Flat")
                 SearchFilters.empty)
              (Index.initial [Fixture.house; Fixture.flat; Fixture.shed])))
      <= 3)%nat
  /\ List.map Cards.property
       (Cards.cards
          (Index.handleSearch
             (SearchFilters.setString SearchFilters.K_type (Some "Flat")
                SearchFilters.empty)
             (Index.initial [Fixture.house; Fixture.flat; Fixture.shed])))
     = Index.applyFilters [Fixture.house; Fixture.flat; Fixture.shed]
         (SearchFilters.setString SearchFilters.K_type (Some "Flat") SearchFilters.empty).
Proof.
  apply (search_result_keys
           (SearchFilters.setString SearchFilters.K_type (Some "Flat") SearchFilters.empty)
           (Index.initial [Fixture.house; Fixture.flat; Fixture.shed])).
  apply (bool_decide_unpack _). vm_compute. exact I.
Defined.

(** X7.  Choosing "Any" as the type, in the form or in the filter itself,
    is the same as having no type: the other criteria apply alone. *)
Theorem type_any_is_no_criterion (catalog : list Property) (prev : SearchFilters) :
  Index.applyFilters catalog (SearchFilters.setString SearchFilters.K_type (Some "Any") prev)
  = Index.applyFilters catalog (SearchFilters.setString SearchFilters.K_type None prev)
  /\ Index.applyFilters catalog
       (SearchForm.onChangeString SearchFilters.K_type "Any" prev)
     = Index.applyFilters catalog (SearchFilters.setString SearchFilters.K_type None prev).
Proof.
  split; rewrite !applyFilters_passes; apply filter_ext; intros r; reflexivity.
Qed.

(* ===================================================================== *)
(** * Further properties: the favourites *)
(* ===================================================================== *)

Lemma ids_not_in (favorites : list Property) (property : Property) :
  (forall fav, In fav favorites -> Property.id fav <> Property.id property)
  <-> Property.id property ∉ Terms.ids favorites.
Proof.
  unfold Terms.ids. rewrite list_elem_of_In, in_map_iff. split.
  - intros H (fav & Heq & Hin). now apply (H fav).
  - intros H fav Hin Heq. apply H. eauto.
Qed.

Lemma newFavorites_NoDup (favorites : list Property) (property : Property) :
  NoDup (Terms.ids favorites) ->
  NoDup (Terms.ids (Index.newFavorites favorites property)).
Proof.
  intros Hnd.
  destruct (present_or_absent favorites property) as [Hin | Hout].
  - rewrite (newFavorites_present _ _ Hin).
    apply (NoDup_ids_sublist _ favorites); [apply filter_sublist | exact Hnd].
  - rewrite (newFavorites_absent _ _ Hout).
    unfold Terms.ids. rewrite map_app. simpl.
    apply NoDup_app. split; [exact Hnd | split; [|apply NoDup_singleton]].
    intros x Hx Hx'. apply list_elem_of_singleton in Hx'. subst x.
    now apply ids_not_in in Hout.
Qed.

(** X8.  Favourites with distinct [id]s keep distinct [id]s through
    [handleFavorite], on the search page and on the detail page. *)
Theorem handleFavorite_keeps_ids_distinct
    (property : Property) (st : Index.state) (detail : PropertyDetail.state)
    (localStorage : Storage) :
  NoDup (Terms.ids (Index.favorites st)) ->
  NoDup (Terms.ids (PropertyDetail.favorites detail)) ->
  NoDup (Terms.ids (Index.favorites (fst (Index.handleFavorite property st localStorage))))
  /\ NoDup (Terms.ids (PropertyDetail.favorites
                         (fst (PropertyDetail.handleFavorite detail localStorage)))).
Proof.
  intros H1 H2. split.
  - simpl. now apply newFavorites_NoDup.
  - destruct (PropertyDetail.property detail) as [p|] eqn:E.
    + rewrite (detail_handleFavorite p) by exact E. simpl. now apply newFavorites_NoDup.
    + unfold PropertyDetail.handleFavorite. rewrite E. exact H2.
Qed.

Lemma handleFavorite_keeps_ids_distinct_witness :
  NoDup (Terms.ids (Index.favorites
                      (fst (Index.handleFavorite Fixture.flat
                              (Fixture.page [Fixture.house]) ∅)))).
Proof.
  apply (handleFavorite_keeps_ids_distinct Fixture.flat (Fixture.page [Fixture.house])
           PropertyDetail.initial ∅).
  - apply (bool_decide_unpack _). vm_compute. exact I.
  - apply (bool_decide_unpack _). vm_compute. exact I.
Defined.

Lemma isFavorite_iff (propertyId : Z) (st : Index.state) :
  Index.isFavorite propertyId st = true <-> propertyId ∈ Terms.ids (Index.favorites st).
Proof.
  unfold Index.isFavorite, Terms.ids.
  rewrite existsb_exists, list_elem_of_In, in_map_iff.
  split; intros (fav & H1 & H2); exists fav.
  - split; [now apply Z.eqb_eq | exact H1].
  - split; [exact H2 | now apply Z.eqb_eq].
Qed.

Lemma ids_newFavorites (favorites : list Property) (property : Property) (x : Z) :
  x ∈ Terms.ids (Index.newFavorites favorites property)
  <-> (x <> Property.id property /\ x ∈ Terms.ids favorites)
      \/ (x = Property.id property /\ x ∉ Terms.ids favorites).
Proof.
  destruct (present_or_absent favorites property) as [Hin | Hout].
  - rewrite (newFavorites_present _ _ Hin).
    unfold Terms.ids. rewrite !list_elem_of_In, ids_of_others.
    assert (In (Property.id property) (List.map Property.id favorites)) as Hp.
    { destruct Hin as (fav & H1 & <-). now apply in_map. }
    split; [tauto|]. intros [[? ?] | [-> H]]; [tauto|]. now contradict H.
  - rewrite (newFavorites_absent _ _ Hout).
    apply ids_not_in in Hout.
    unfold Terms.ids in *. rewrite map_app, elem_of_app. simpl.
    rewrite list_elem_of_singleton.
    split.
    + intros [H | ->]; [left | right; auto].
      split; [|exact H]. intros ->. contradiction.
    + intros [[_ H] | [-> _]]; auto.
Qed.

Lemma handleFavorite_isFavorite_self
    (property : Property) (st : Index.state) (localStorage : Storage) :
  Index.isFavorite (Property.id property)
    (fst (Index.handleFavorite property st localStorage))
  = negb (Index.isFavorite (Property.id property) st).
Proof.
  apply eq_true_iff_eq.
  rewrite isFavorite_iff. simpl. rewrite ids_newFavorites.
  rewrite negb_true_iff, <- not_true_iff_false, isFavorite_iff. tauto.
Qed.

(** X9.  [handleFavorite] turns the heart of the record it is called
    with, and of no other: [isFavorite] is negated for the [id] of the
    record and unchanged for every other [id]. *)
Theorem handleFavorite_flips_isFavorite
    (property : Property) (st : Index.state) (localStorage : Storage) (propertyId : Z) :
  Index.isFavorite propertyId (fst (Index.handleFavorite property st localStorage))
  = if propertyId =? Property.id property
    then negb (Index.isFavorite propertyId st)
    else Index.isFavorite propertyId st.
Proof.
  apply eq_true_iff_eq.
  rewrite isFavorite_iff. simpl. rewrite ids_newFavorites.
  destruct (Z.eqb_spec propertyId (Property.id property)) as [-> | Hne].
  - rewrite negb_true_iff, <- not_true_iff_false, isFavorite_iff. tauto.
  - rewrite isFavorite_iff. tauto.
Qed.

Lemma filter_others_delete (favorites : list Property) (i : nat) (property : Property) :
  NoDup (Terms.ids favorites) ->
  favorites !! i = Some property ->
  List.filter (fun fav => negb (Property.id fav =? Property.id property)) favorites
  = delete i favorites.
Proof.
  revert i. induction favorites as [|fav favorites IH]; intros i Hnd Hi; [discriminate|].
  unfold Terms.ids in Hnd. simpl in Hnd. apply NoDup_cons in Hnd. destruct Hnd as [Hfav Hnd].
  destruct i as [|i]; simpl in Hi.
  - injection Hi as ->. simpl. rewrite Z.eqb_refl. simpl.
    clear IH. induction favorites as [|g favorites IH]; simpl; [reflexivity|].
    simpl in Hfav, Hnd. apply not_elem_of_cons in Hfav. destruct Hfav as [Hg Hfav].
    apply NoDup_cons in Hnd. destruct Hnd as [_ Hnd].
    destruct (Z.eqb_spec (Property.id g) (Property.id property)) as [E | E];
      [congruence|]. simpl. f_equal. now apply IH.
  - simpl.
    destruct (Z.eqb_spec (Property.id fav) (Property.id property)) as [E | E].
    + exfalso. apply Hfav. rewrite E.
      apply list_elem_of_In, in_map. apply list_elem_of_In.
      now apply list_elem_of_lookup_2 with i.
    + simpl. f_equal. now apply IH.
Qed.

(** X10.  When the favourites have distinct [id]s, the remove button of
    the entry at position [i] of the panel deletes that entry and nothing
    else. *)
Theorem panel_button_deletes_its_entry
    (st : Index.state) (localStorage : Storage) (i : nat)
    (removal : Index.state -> Storage -> Index.state * Storage) :
  NoDup (Terms.ids (Index.favorites st)) ->
  Index.panelRemovals st !! i = Some removal ->
  Index.favorites (fst (removal st localStorage)) = delete i (Index.favorites st).
Proof.
  intros Hnd Hi.
  unfold Index.panelRemovals, FavoritesPanel.removeButtons in Hi.
  change (List.map ?f ?l) with (f <$> l) in Hi.
  rewrite list_lookup_fmap in Hi.
  destruct (Index.favorites st !! i) as [property|] eqn:E; [|discriminate].
  injection Hi as <-. unfold Index.onRemoveFavorite. simpl.
  rewrite newFavorites_present.
  - now apply filter_others_delete.
  - exists property. split; [|reflexivity].
    apply list_elem_of_In. now apply list_elem_of_lookup_2 with i.
Qed.

Lemma panel_button_deletes_its_entry_witness :
  exists removal,
    Index.panelRemovals (Fixture.page Fixture.catalog) !! 1%nat = Some removal
    /\ Index.favorites (fst (removal (Fixture.page Fixture.catalog) ∅)) = [Fixture.house].
Proof.
  eexists. split; [reflexivity|].
  apply (panel_button_deletes_its_entry (Fixture.page Fixture.catalog) ∅ 1).
  - apply (bool_decide_unpack _). vm_compute. exact I.
  - reflexivity.
Defined.

(** X11.  The label of the favourite button of a card says what its click
    does: under "Remove from favorites" the click leaves no favourite with
    the [id] of the card, under "Add to favorites" it appends the record of
    the card to the favourites; there is no third label, and after the
    click the card of that record gets the other label. *)
Theorem card_label_tells_the_click
    (st : Index.state) (localStorage : Storage) (card : Cards.card) :
  In card (Cards.cards st) ->
  let after := fst (Cards.click card st localStorage) in
  (Cards.label card = "Remove from favorites" \/ Cards.label card = "Add to favorites")
  /\ (Cards.label card = "Remove from favorites" ->
        Property.id (Cards.property card) ∉ Terms.ids (Index.favorites after))
  /\ (Cards.label card = "Add to favorites" ->
        Index.favorites after = Index.favorites st ++ [Cards.property card])
  /\ (forall card', In card' (Cards.cards after) ->
        Property.id (Cards.property card') = Property.id (Cards.property card) ->
        Cards.label card' <> Cards.label card).
Proof.
  intros Hin. cbv zeta. unfold Cards.cards in Hin. apply in_map_iff in Hin.
  destruct Hin as (property & <- & Hin). simpl.
  unfold PropertyCard.handleFavoriteClick, PropertyCard.ariaLabel. simpl.
  destruct (Index.isFavorite (Property.id property) st) eqn:E.
  - split; [auto|]. split; [|split; [discriminate|]].
    + intros _. rewrite ids_newFavorites.
      apply isFavorite_iff in E. tauto.
    + intros card' Hc' Hid. unfold Cards.cards in Hc'. apply in_map_iff in Hc'.
      destruct Hc' as (p' & <- & _). simpl in *.
      fold (Index.handleFavorite property st localStorage).
      rewrite Hid.
      change (Index.mk _ _ _) with (fst (Index.handleFavorite property st localStorage)).
      rewrite handleFavorite_isFavorite_self, E. discriminate.
  - split; [auto|]. split; [discriminate|split].
    + intros _. apply newFavorites_absent. apply ids_not_in.
      intros H. apply isFavorite_iff in H. congruence.
    + intros card' Hc' Hid. unfold Cards.cards in Hc'. apply in_map_iff in Hc'.
      destruct Hc' as (p' & <- & _). simpl in *.
      rewrite Hid.
      change (Index.mk _ _ _) with (fst (Index.handleFavorite property st localStorage)).
      rewrite handleFavorite_isFavorite_self, E. discriminate.
Qed.

Lemma card_label_tells_the_click_witness :
  In Fixture.houseCard (Cards.cards (Fixture.page [Fixture.house]))
  /\ Property.id Fixture.house
     ∉ Terms.ids (Index.favorites
                    (fst (Cards.click Fixture.houseCard (Fixture.page [Fixture.house]) ∅))).
Proof.
  assert (In Fixture.houseCard (Cards.cards (Fixture.page [Fixture.house]))) as Hin
    by (left; reflexivity).
  split; [exact Hin|].
  exact (proj1 (proj2
    (card_label_tells_the_click (Fixture.page [Fixture.house]) ∅ Fixture.houseCard Hin))
    eq_refl).
Defined.

(* ===================================================================== *)
(** * Further properties: the image gallery *)
(* ===================================================================== *)

Lemma nth_error_lookup {A} (l : list A) (i : nat) : nth_error l i = l !! i.
Proof. revert i. induction l as [|x l IH]; intros [|i]; simpl; auto. Qed.

Lemma nextImage_inRange (images : list string) (z : Z) :
  0 <= z < Z.of_nat (List.length images) ->
  ImageGallery.nextImage images (JS.Int z)
  = JS.Int ((z + 1) mod Z.of_nat (List.length images)).
Proof.
  intros H. unfold ImageGallery.nextImage, ImageGallery.length. simpl.
  destruct (Z.eqb_spec (Z.of_nat (List.length images)) 0) as [E | _]; [lia|].
  now rewrite Z.rem_mod_nonneg by lia.
Qed.

Lemma prevImage_inRange (images : list string) (z : Z) :
  0 <= z < Z.of_nat (List.length images) ->
  ImageGallery.prevImage images (JS.Int z)
  = JS.Int ((z - 1) mod Z.of_nat (List.length images)).
Proof.
  intros H. unfold ImageGallery.prevImage, ImageGallery.length. simpl.
  destruct (Z.eqb_spec (Z.of_nat (List.length images)) 0) as [E | _]; [lia|].
  rewrite Z.rem_mod_nonneg by lia. f_equal.
  rewrite <- (Z.mod_add (z - 1) 1 (Z.of_nat (List.length images))) by lia.
  f_equal. lia.
Qed.

Lemma shown_inRange (images : list string) (z : Z) :
  0 <= z < Z.of_nat (List.length images) ->
  ImageGallery.shown images (JS.Int z) = images !! Z.to_nat z
  /\ is_Some (images !! Z.to_nat z).
Proof.
  intros H. unfold ImageGallery.shown.
  destruct (Z.leb_spec 0 z) as [_ | ?]; [|lia].
  split; [apply nth_error_lookup|]. apply lookup_lt_is_Some. lia.
Qed.

(** X12.  In a gallery whose selected index is an index of [images], the
    index stays one under the two buttons, under every key, under every dot
    and under every thumbnail, and the main image is defined. *)
Theorem gallery_index_stays_in_range
    (images : list string) (selectedImage : JS.number) (key : string) :
  Terms.inRange images selectedImage ->
  Terms.inRange images ImageGallery.initial
  /\ Terms.inRange images (ImageGallery.nextImage images selectedImage)
  /\ Terms.inRange images (ImageGallery.prevImage images selectedImage)
  /\ Terms.inRange images (ImageGallery.handleKeyDown key images selectedImage)
  /\ (forall index, In index (ImageGallery.dots images) -> Terms.inRange images index)
  /\ (forall t, In t (ImageGallery.thumbnails images) ->
        Terms.inRange images (ImageGallery.select t))
  /\ is_Some (ImageGallery.shown images selectedImage).
Proof.
  intros (z & -> & Hz).
  assert (Terms.inRange images (ImageGallery.nextImage images (JS.Int z))) as Hn.
  { rewrite nextImage_inRange by exact Hz. eexists. split; [reflexivity|].
    apply Z.mod_pos_bound. lia. }
  assert (Terms.inRange images (ImageGallery.prevImage images (JS.Int z))) as Hp.
  { rewrite prevImage_inRange by exact Hz. eexists. split; [reflexivity|].
    apply Z.mod_pos_bound. lia. }
  split; [exists 0; split; [reflexivity | lia]|].
  split; [exact Hn|]. split; [exact Hp|].
  split.
  { unfold ImageGallery.handleKeyDown.
    destruct (String.eqb key "ArrowLeft"); [exact Hp|].
    destruct (String.eqb key "ArrowRight"); [exact Hn|].
    exists z. auto. }
  split.
  { intros index Hin. unfold ImageGallery.dots in Hin.
    destruct (ImageGallery.multiple images); [|destruct Hin].
    apply list_elem_of_In, list_elem_of_lookup in Hin. destruct Hin as [i Hi].
    rewrite list_lookup_imap in Hi.
    destruct (images !! i) as [x|] eqn:E; [|discriminate]. injection Hi as <-.
    apply lookup_lt_Some in E. eexists. split; [reflexivity | lia]. }
  split.
  { intros t Hin. unfold ImageGallery.thumbnails in Hin.
    destruct (ImageGallery.multiple images); [|destruct Hin].
    apply list_elem_of_In, list_elem_of_lookup in Hin. destruct Hin as [i Hi].
    rewrite list_lookup_imap in Hi.
    destruct (firstn 6 images !! i) as [x|] eqn:E; [|discriminate]. injection Hi as <-.
    apply lookup_lt_Some in E. rewrite length_take in E.
    simpl. eexists. split; [reflexivity | lia]. }
  destruct (shown_inRange images z Hz) as [-> H]. exact H.
Qed.

Lemma gallery_index_stays_in_range_witness :
  Terms.inRange ["a.jpg"; "b.jpg"; "c.jpg"]
    (ImageGallery.handleKeyDown "ArrowLeft" ["a.jpg"; "b.jpg"; "c.jpg"] (JS.Int 0)).
Proof.
  refine (proj1 (proj2 (proj2 (proj2
    (gallery_index_stays_in_range ["a.jpg"; "b.jpg"; "c.jpg"] (JS.Int 0) "ArrowLeft" _))))).
  exists 0. split; [reflexivity | simpl; lia].
Defined.

(** X13.  In range, the two buttons undo each other. *)
Theorem gallery_buttons_are_inverse (images : list string) (selectedImage : JS.number) :
  Terms.inRange images selectedImage ->
  ImageGallery.prevImage images (ImageGallery.nextImage images selectedImage) = selectedImage
  /\ ImageGallery.nextImage images (ImageGallery.prevImage images selectedImage)
     = selectedImage.
Proof.
  intros (z & -> & Hz).
  set (n := Z.of_nat (List.length images)) in *.
  assert (0 <= (z + 1) mod n < n) as H1 by (apply Z.mod_pos_bound; lia).
  assert (0 <= (z - 1) mod n < n) as H2 by (apply Z.mod_pos_bound; lia).
  split.
  - rewrite nextImage_inRange by exact Hz. fold n.
    rewrite prevImage_inRange by exact H1. fold n. f_equal.
    rewrite Zminus_mod_idemp_l. replace (z + 1 - 1) with z by lia.
    apply Z.mod_small. exact Hz.
  - rewrite prevImage_inRange by exact Hz. fold n.
    rewrite nextImage_inRange by exact H2. fold n. f_equal.
    rewrite Zplus_mod_idemp_l. replace (z - 1 + 1) with z by lia.
    apply Z.mod_small. exact Hz.
Qed.

Lemma gallery_buttons_are_inverse_witness :
  ImageGallery.prevImage ["a.jpg"; "b.jpg"; "c.jpg"]
    (ImageGallery.nextImage ["a.jpg"; "b.jpg"; "c.jpg"] (JS.Int 2))
  = JS.Int 2.
Proof.
  refine (proj1 (gallery_buttons_are_inverse ["a.jpg"; "b.jpg"; "c.jpg"] (JS.Int 2) _)).
  exists 2. split; [reflexivity | simpl; lia].
Defined.

Lemma nextImage_iter (images : list string) (z : Z) (k : nat) :
  0 <= z < Z.of_nat (List.length images) ->
  Nat.iter k (ImageGallery.nextImage images) (JS.Int z)
  = JS.Int ((z + Z.of_nat k) mod Z.of_nat (List.length images)).
Proof.
  intros Hz. induction k as [|k IH].
  - simpl. f_equal. rewrite Z.add_0_r. symmetry. now apply Z.mod_small.
  - simpl. rewrite IH.
    rewrite nextImage_inRange by (apply Z.mod_pos_bound; lia). f_equal.
    rewrite Zplus_mod_idemp_l. f_equal. lia.
Qed.

(** X14.  The next button steps through the images in order and wraps
    around: from the index [z], [k] clicks lead to [(z + k) mod n], [n]
    being the number of images, so that [n] clicks lead back to [z] and
    the button on the last image leads to the first. *)
Theorem gallery_next_cycles (images : list string) (z : Z) (k : nat) :
  0 <= z < Z.of_nat (List.length images) ->
  Nat.iter k (ImageGallery.nextImage images) (JS.Int z)
  = JS.Int ((z + Z.of_nat k) mod Z.of_nat (List.length images))
  /\ Nat.iter (List.length images) (ImageGallery.nextImage images) (JS.Int z) = JS.Int z
  /\ ImageGallery.nextImage images (JS.Int (Z.of_nat (List.length images) - 1)) = JS.Int 0
  /\ ImageGallery.prevImage images (JS.Int 0)
     = JS.Int (Z.of_nat (List.length images) - 1).
Proof.
  intros Hz. set (n := Z.of_nat (List.length images)) in *.
  split; [now apply nextImage_iter|].
  split.
  { rewrite nextImage_iter by exact Hz. fold n. f_equal.
    rewrite <- (Z.mul_1_l n) at 1. rewrite Z.mod_add by lia. now apply Z.mod_small. }
  split.
  - rewrite nextImage_inRange by (fold n; lia). fold n. f_equal.
    replace (n - 1 + 1) with n by lia. apply Z.mod_same. lia.
  - rewrite prevImage_inRange by (fold n; lia). fold n. f_equal.
    replace (0 - 1) with (n - 1 + (-1) * n) by lia.
    rewrite Z.mod_add by lia. apply Z.mod_small. lia.
Qed.

Lemma gallery_next_cycles_witness :
  Nat.iter 3 (ImageGallery.nextImage ["a.jpg"; "b.jpg"; "c.jpg"]) (JS.Int 1) = JS.Int 1.
Proof.
  refine (proj1 (proj2 (gallery_next_cycles ["a.jpg"; "b.jpg"; "c.jpg"] 1 0 _))).
  simpl. lia.
Defined.

(** X15.  With no image, either arrow key makes the selected index NaN,
    whatever it was, and no image is shown; and once the index is NaN no
    key and no button changes it, whatever the images. *)
Theorem gallery_without_images (selectedImage : JS.number) (images : list string)
    (key : string) :
  ImageGallery.handleKeyDown "ArrowRight" [] selectedImage = JS.NaN
  /\ ImageGallery.handleKeyDown "ArrowLeft" [] selectedImage = JS.NaN
  /\ ImageGallery.shown [] selectedImage = None
  /\ ImageGallery.handleKeyDown key images JS.NaN = JS.NaN
  /\ ImageGallery.nextImage images JS.NaN = JS.NaN
  /\ ImageGallery.prevImage images JS.NaN = JS.NaN
  /\ ImageGallery.shown images JS.NaN = None.
Proof.
  split; [destruct selectedImage; reflexivity|].
  split; [destruct selectedImage; reflexivity|].
  split.
  { destruct selectedImage as [|z]; [reflexivity|]. simpl.
    destruct (0 <=? z); [|reflexivity]. now destruct (Z.to_nat z). }
  split.
  { unfold ImageGallery.handleKeyDown.
    destruct (String.eqb key "ArrowLeft"); [reflexivity|].
    destruct (String.eqb key "ArrowRight"); reflexivity. }
  repeat split.
Qed.

(** X16.  The thumbnails are those of the first six images, and only when
    there are at least two: the thumbnail at position [i] shows the image
    [i] and selects the index [i], and the overlay is drawn on the sixth
    thumbnail alone, when there are more than six images, with the number
    of images beyond the sixth.  There is one dot for each image. *)
Theorem gallery_thumbnails (images : list string) :
  let n := List.length images in
  List.length (ImageGallery.thumbnails images)
  = (if ImageGallery.multiple images then Nat.min 6 n else 0)%nat
  /\ List.length (ImageGallery.dots images)
     = (if ImageGallery.multiple images then n else 0)%nat
  /\ (forall i t, ImageGallery.thumbnails images !! i = Some t ->
        images !! i = Some (ImageGallery.image t)
        /\ ImageGallery.select t = JS.Int (Z.of_nat i)
        /\ ImageGallery.shown images (ImageGallery.select t) = Some (ImageGallery.image t)
        /\ (forall more, ImageGallery.more t = Some more <->
                         i = 5%nat /\ (6 < n)%nat /\ more = Z.of_nat n - 6))
  /\ (forall i index, ImageGallery.dots images !! i = Some index ->
        index = JS.Int (Z.of_nat i) /\ (i < n)%nat).
Proof.
  cbv zeta. unfold ImageGallery.thumbnails, ImageGallery.dots.
  destruct (ImageGallery.multiple images).
  - split; [now rewrite length_imap, length_take|].
    split; [now rewrite length_imap|].
    split.
    + intros i t Hi. rewrite list_lookup_imap in Hi.
      destruct (firstn 6 images !! i) as [x|] eqn:E; [|discriminate].
      injection Hi as <-. simpl.
      pose proof (lookup_lt_Some _ _ _ E) as Hlt. rewrite length_take in Hlt.
      change (firstn 6 images) with (take 6 images) in E.
      rewrite lookup_take_lt in E by lia.
      split; [exact E|]. split; [reflexivity|].
      split.
      { destruct (Z.leb_spec 0 (Z.of_nat i)); [|lia].
        rewrite nth_error_lookup, Nat2Z.id. exact E. }
      intros more.
      destruct (Z.eqb_spec (Z.of_nat i) 5) as [E5 | E5];
        destruct (Z.ltb_spec 6 (Z.of_nat (List.length images))) as [E6 | E6]; simpl;
        split; try discriminate; try (intros (? & ? & ?); lia).
      * intros [= <-]. repeat split; lia.
      * intros (_ & _ & ->). reflexivity.
    + intros i index Hi. rewrite list_lookup_imap in Hi.
      destruct (images !! i) as [x|] eqn:E; [|discriminate]. injection Hi as <-.
      split; [reflexivity|]. now apply lookup_lt_Some in E.
  - repeat split; try reflexivity; discriminate.
Qed.

(* ===================================================================== *)
(** * Numbers as text *)
(* ===================================================================== *)

Lemma append_assoc (a b c : string) : (a +:+ b) +:+ c = a +:+ (b +:+ c).
Proof. induction a as [|x a IH]; [reflexivity|]. rewrite !append_cons. now rewrite IH. Qed.

Lemma append_empty (a : string) : a +:+ EmptyString = a.
Proof. induction a as [|x a IH]; [reflexivity|]. rewrite append_cons. now rewrite IH. Qed.

Lemma pretty_N_go_app (x : N) (s : string) :
  pretty_N_go x s = pretty_N_go x EmptyString +:+ s.
Proof.
  revert s. induction (N.lt_wf_0 x) as [x _ IH]; intros s.
  destruct (N.eq_dec x 0%N) as [-> | Hx]; [reflexivity|].
  assert (x `div` 10 < x)%N as Hlt by (apply N.div_lt; lia).
  rewrite !(pretty_N_go_step x) by lia.
  rewrite (IH _ Hlt (String (pretty_N_char (x `mod` 10)) s)).
  rewrite (IH _ Hlt (String (pretty_N_char (x `mod` 10)) EmptyString)).
  now rewrite append_assoc.
Qed.

Lemma pretty_N_go_snoc (x : N) :
  (0 < x)%N ->
  pretty_N_go x EmptyString
  = pretty_N_go (x `div` 10) EmptyString
    +:+ String (pretty_N_char (x `mod` 10)) EmptyString.
Proof. intros H. rewrite pretty_N_go_step by exact H. apply pretty_N_go_app. Qed.

Lemma decimal_pretty_N_char (d : N) :
  (d < 10)%N -> JS.decimal (pretty_N_char d) = Some (Z.of_N d).
Proof.
  intros H.
  assert (d = 0 \/ d = 1 \/ d = 2 \/ d = 3 \/ d = 4 \/ d = 5 \/ d = 6 \/ d = 7
          \/ d = 8 \/ d = 9)%N as Hd by lia.
  repeat (destruct Hd as [-> | Hd]; [reflexivity|]). now subst.
Qed.

Lemma decimalDigits_app (a b : string) :
  Terms.decimalDigits a -> Terms.decimalDigits b -> Terms.decimalDigits (a +:+ b).
Proof.
  unfold Terms.decimalDigits. intros Ha Hb.
  induction a as [|c a IH]; [exact Hb|].
  rewrite append_cons. simpl in *. apply Forall_cons in Ha. destruct Ha as [Hc Ha].
  apply Forall_cons. auto.
Qed.

Lemma pretty_N_go_digits (x : N) : Terms.decimalDigits (pretty_N_go x EmptyString).
Proof.
  induction (N.lt_wf_0 x) as [x _ IH].
  destruct (N.eq_dec x 0%N) as [-> | Hx]; [constructor|].
  rewrite pretty_N_go_snoc by lia. apply decimalDigits_app.
  - apply IH. apply N.div_lt; lia.
  - repeat constructor. rewrite decimal_pretty_N_char; [eauto|].
    apply N.mod_lt. lia.
Qed.

Lemma decimal_digitValue (c : ascii) (d : Z) :
  JS.decimal c = Some d -> JS.digitValue c = Some d /\ 0 <= d < 10.
Proof.
  unfold JS.decimal, JS.digitValue.
  destruct ((48 <=? _) && (_ <=? 57)) eqn:E; [|discriminate].
  intros [= <-]. split; [reflexivity|].
  apply andb_true_iff in E. destruct E as [E1 E2]. apply Z.leb_le in E1, E2. lia.
Qed.

(** Reading one more digit at the end of digits. *)
Lemma digits_snoc (ds : string) (c : ascii) (d : Z) (acc : option Z) :
  Terms.decimalDigits ds -> JS.decimal c = Some d ->
  JS.digits 10 (ds +:+ String c EmptyString) acc
  = Some (10 * default 0 (JS.digits 10 ds acc) + d).
Proof.
  intros Hds Hc. revert acc.
  induction ds as [|a ds IH]; intros acc.
  - simpl. destruct (decimal_digitValue _ _ Hc) as [-> Hd].
    destruct (Z.ltb_spec d 10); [reflexivity | lia].
  - unfold Terms.decimalDigits in Hds. simpl in Hds.
    apply Forall_cons in Hds. destruct Hds as [[a' Ha] Hds].
    rewrite append_cons. simpl.
    destruct (decimal_digitValue _ _ Ha) as [-> Ha'].
    destruct (Z.ltb_spec a' 10); [|lia]. now apply IH.
Qed.

Lemma digits_pretty_N_go (x : N) :
  JS.digits 10 (pretty_N_go x EmptyString) None
  = if decide (x = 0%N) then None else Some (Z.of_N x).
Proof.
  induction (N.lt_wf_0 x) as [x _ IH].
  destruct (decide (x = 0%N)) as [-> | Hx]; [reflexivity|].
  rewrite pretty_N_go_snoc by lia.
  rewrite (digits_snoc _ _ (Z.of_N (x `mod` 10)%N)).
  - rewrite IH by (apply N.div_lt; lia). f_equal.
    assert (x = 10 * (x `div` 10) + x `mod` 10)%N as Hdm by (apply N.div_mod; lia).
    destruct (decide (x `div` 10 = 0)%N) as [E | E]; simpl; lia.
  - apply pretty_N_go_digits.
  - apply decimal_pretty_N_char. apply N.mod_lt. lia.
Qed.

(** The first digit of a positive number is not 0. *)
Lemma pretty_N_go_first (x : N) :
  (0 < x)%N ->
  exists c d rest,
    pretty_N_go x EmptyString = String c rest /\ JS.decimal c = Some d /\ 0 < d.
Proof.
  induction (N.lt_wf_0 x) as [x _ IH]. intros Hx.
  rewrite pretty_N_go_snoc by exact Hx.
  destruct (N.eq_dec (x `div` 10)%N 0%N) as [E | E].
  - rewrite E. simpl. eexists _, _, _. split; [reflexivity|].
    rewrite decimal_pretty_N_char by (apply N.mod_lt; lia).
    split; [reflexivity|].
    assert (x = 10 * (x `div` 10) + x `mod` 10)%N as Hdm by (apply N.div_mod; lia).
    lia.
  - destruct (IH (x `div` 10)%N) as (c & d & rest & -> & Hc & Hd);
      [apply N.div_lt; lia | now apply N.neq_0_lt_0 |].
    rewrite append_cons. eauto 6.
Qed.

Lemma pretty_positive_unfold (p : positive) :
  pretty (Z.pos p) = pretty_N_go (N.pos p) EmptyString
  /\ pretty (Z.neg p) = String "-" (pretty_N_go (N.pos p) EmptyString).
Proof. split; reflexivity. Qed.

Lemma parseInt_digits (c : ascii) (rest : string) (d : Z) :
  JS.decimal c = Some d -> 0 < d ->
  JS.parseInt (String c rest)
  = match JS.digits 10 (String c rest) None with
    | Some n => JS.Int n
    | None => JS.NaN
    end
  /\ JS.parseInt (String "-" (String c rest))
     = match JS.digits 10 (String c rest) None with
       | Some n => JS.Int (- n)
       | None => JS.NaN
       end.
Proof.
  intros Hc Hd.
  destruct c as [[] [] [] [] [] [] [] []]; vm_compute in Hc; try discriminate Hc;
    injection Hc as <-; try lia;
    (split; unfold JS.parseInt; rewrite trimStart_other by (vm_compute; lia);
     simpl; destruct (JS.digits 10 rest _) as [n|]; try reflexivity; f_equal; lia).
Qed.

(** The text of an integer is read back by [parseInt]. *)
Lemma parseInt_ToString (z : Z) : JS.parseInt (JS.ToString (JS.Int z)) = JS.Int z.
Proof.
  unfold JS.ToString. destruct z as [|p|p]; [reflexivity| |].
  - rewrite (proj1 (pretty_positive_unfold p)).
    destruct (pretty_N_go_first (N.pos p)) as (c & d & rest & E & Hc & Hd); [lia|].
    pose proof (digits_pretty_N_go (N.pos p)) as Hv. rewrite E in *.
    rewrite (proj1 (parseInt_digits c rest d Hc Hd)), Hv. reflexivity.
  - rewrite (proj2 (pretty_positive_unfold p)).
    destruct (pretty_N_go_first (N.pos p)) as (c & d & rest & E & Hc & Hd); [lia|].
    pose proof (digits_pretty_N_go (N.pos p)) as Hv. rewrite E in *.
    rewrite (proj2 (parseInt_digits c rest d Hc Hd)), Hv. reflexivity.
Qed.

Lemma ToString_not_empty (z : Z) : JS.truthy_string (JS.ToString (JS.Int z)) = true.
Proof.
  unfold JS.ToString. destruct z as [|p|p]; [reflexivity| |reflexivity].
  rewrite (proj1 (pretty_positive_unfold p)).
  destruct (pretty_N_go_first (N.pos p)) as (c & d & rest & -> & _); [lia|]. reflexivity.
Qed.

(* ===================================================================== *)
(** * The detail lookup, from the text of the route parameter *)
(* ===================================================================== *)

(** C8, as amended.  The lookup parses the route parameter with
    [parseInt]: an absent or empty parameter is read as "0", a text with no
    digit after its white space and sign as NaN, and the decimal text of an
    integer as that integer.  The statement is made for a parsed number
    that the program has exactly.  When the favourites that the same
    effect loads are absent, empty or well formed, the page shows either
    the details of a record or the not-found view.  The record shown is the
    first of the catalog that has the parsed [id]; it is the record of that
    [id] when the [id]s of the catalog are distinct.  The not-found view is
    shown exactly when no record has the parsed [id]: always for a text
    that does not parse, and for a text that parses to 0 exactly when no
    record has the [id] 0.  When the stored favourites are not JSON, the
    effect throws and no view is shown. *)
Theorem detail_lookup_by_parsed_id
    (catalog : list Property) (id : option string) (localStorage : Storage) :
  Terms.exactNumber (PropertyDetail.propertyId id) ->
  let n := PropertyDetail.propertyId id in
  let visit := PropertyDetail.lookup catalog id localStorage in
  let notFound := PropertyDetail.Shows PropertyDetail.PropertyNotFound in
  let details p := PropertyDetail.Shows (PropertyDetail.Details p) in
  (Terms.loadable localStorage ->
     (visit = notFound \/ exists p, visit = details p)
     /\ (forall p, visit = details p ->
           In p catalog /\ n = JS.Int (Property.id p)
           /\ exists before after,
                catalog = before ++ p :: after
                /\ forall q, In q before -> n <> JS.Int (Property.id q))
     /\ (forall p, NoDup (List.map Property.id catalog) -> In p catalog ->
           n = JS.Int (Property.id p) -> visit = details p)
     /\ (visit = notFound <-> forall p, In p catalog -> n <> JS.Int (Property.id p))
     /\ (n = JS.NaN -> visit = notFound)
     /\ (n = JS.Int 0 ->
         (visit = notFound <-> forall p, In p catalog -> Property.id p <> 0)))
  /\ (Index.useEffect localStorage = SyntaxError -> visit = PropertyDetail.Throws)
  /\ (id = None \/ id = Some EmptyString -> n = JS.Int 0)
  /\ (forall text, id = Some text -> text <> EmptyString ->
        Terms.startsWithoutDigit text -> n = JS.NaN)
  /\ (forall z, id = Some (JS.ToString (JS.Int z)) -> n = JS.Int z).
Proof.
  intros _. cbv zeta. split.
  { intros Hload. rewrite (lookup_find _ _ _ Hload).
    set (n := PropertyDetail.propertyId id).
    set (test := fun p => JS.strict_equal (JS.Int (Property.id p)) n).
    assert (forall p, test p = true <-> n = JS.Int (Property.id p)) as Htest
      by (intros p; apply strict_equal_iff).
    destruct (List.find test catalog) as [q|] eqn:E.
    - pose proof (find_first _ _ _ E) as (before & after & Hsplit & Hbefore).
      apply find_some in E. destruct E as [Hq Hn]. apply Htest in Hn.
      split; [right; eauto|].
      split.
      { intros p [= <-]. split; [exact Hq | split; [exact Hn|]].
        exists before, after. split; [exact Hsplit|].
        intros r Hr Hid. apply Htest in Hid. rewrite (Hbefore r Hr) in Hid.
        discriminate. }
      split.
      { intros p Hnd Hp Hid. do 2 f_equal.
        apply (unique_by_id catalog); auto. congruence. }
      split.
      { split; [discriminate|]. intros H. now apply H in Hq. }
      split; [congruence|].
      intros H0. split; [discriminate|].
      intros H. apply H in Hq. congruence.
    - pose proof (find_none _ _ E) as Hnone.
      assert (forall p, In p catalog -> n <> JS.Int (Property.id p)) as Hno.
      { intros p Hp Hid. apply Htest in Hid. rewrite (Hnone p Hp) in Hid.
        discriminate. }
      split; [left; reflexivity|].
      split; [discriminate|].
      split; [intros p _ Hp Hid; now apply Hno in Hp|].
      split; [tauto|].
      split; [reflexivity|].
      intros H0. split; [|reflexivity].
      intros _ p Hp Hid. apply (Hno p Hp). congruence. }
  split.
  { intros Hthrow. unfold PropertyDetail.lookup.
    pose proof (detail_hydration catalog id PropertyDetail.initial localStorage) as Hsnd.
    destruct (PropertyDetail.useEffect catalog id PropertyDetail.initial localStorage)
      as [st loaded].
    simpl in Hsnd. rewrite Hsnd, Hthrow. reflexivity. }
  unfold PropertyDetail.propertyId. split; [|split].
  - intros [-> | ->]; reflexivity.
  - intros text -> Hne Hs. apply truthy_string_iff in Hne. rewrite Hne.
    now apply parseInt_startsWithoutDigit.
  - intros z ->. rewrite ToString_not_empty. apply parseInt_ToString.
Qed.

(** The flat, looked up by the text of its [id] on a page whose stored
    favourites are the empty list. *)
Lemma detail_lookup_by_parsed_id_witness :
  PropertyDetail.lookup Fixture.catalog (Some "2") (Fixture.stored "[]")
  = PropertyDetail.Shows (PropertyDetail.Details Fixture.flat).
Proof.
  refine (proj1 (proj2 (proj2
    (proj1
       (detail_lookup_by_parsed_id Fixture.catalog (Some "2") (Fixture.stored "[]") _)
       _)))
    Fixture.flat _ _ eq_refl).
  - intros z H. vm_compute in H. injection H as <-. unfold Terms.withinDouble. lia.
  - right. exists []. reflexivity.
  - apply (bool_decide_unpack _). vm_compute. exact I.
  - simpl. auto.
Defined.

(** C8 as written fails.  The text "0" parses to 0, and a catalog with a
    record whose [id] is 0 shows that record, not the not-found view.  And
    with stored favourites that are not JSON the effect that looks the
    record up throws: neither the record nor the not-found view is
    shown. *)
Lemma lookup_of_zero_finds_the_record_numbered_zero :
  PropertyDetail.propertyId (Some "0") = JS.Int 0
  /\ PropertyDetail.lookup [Fixture.plot] (Some "0") ∅
     = PropertyDetail.Shows (PropertyDetail.Details Fixture.plot)
  /\ PropertyDetail.lookup [Fixture.plot] (Some "0") ∅
     <> PropertyDetail.Shows PropertyDetail.PropertyNotFound
  /\ PropertyDetail.lookup Fixture.catalog (Some "1") (Fixture.stored "{")
     = PropertyDetail.Throws.
Proof.
  split; [reflexivity | split; [reflexivity | split; [discriminate | reflexivity]]].
Qed.

(** X17.  The link of a card, and of an entry of the favourites panel,
    is "/property/" followed by a text that the detail page reads back as
    the [id] of the record, for an [id] within 2^53 in absolute value:
    opened with that text as its route parameter, the page shows the
    record, when the record is in the catalog, the [id]s of the catalog are
    distinct and the stored favourites load. *)
Theorem card_link_opens_its_property
    (catalog : list Property) (property : Property) (localStorage : Storage) :
  NoDup (Terms.ids catalog) ->
  In property catalog ->
  Terms.withinDouble (Property.id property) ->
  Terms.loadable localStorage ->
  exists id,
    PropertyCard.to property = "/property/" +:+ id
    /\ PropertyDetail.propertyId (Some id) = JS.Int (Property.id property)
    /\ PropertyDetail.lookup catalog (Some id) localStorage
       = PropertyDetail.Shows (PropertyDetail.Details property).
Proof.
  intros Hnd Hin _ Hload. exists (JS.ToString (JS.Int (Property.id property))).
  assert (PropertyDetail.propertyId (Some (JS.ToString (JS.Int (Property.id property))))
          = JS.Int (Property.id property)) as Hid.
  { unfold PropertyDetail.propertyId. rewrite ToString_not_empty. apply parseInt_ToString. }
  split; [reflexivity | split; [exact Hid|]].
  rewrite (lookup_find _ _ _ Hload), Hid.
  destruct (List.find _ catalog) as [q|] eqn:E.
  - apply find_some in E. destruct E as [Hq Heq]. apply strict_equal_iff in Heq.
    do 2 f_equal. apply (unique_by_id catalog); auto. congruence.
  - pose proof (find_none _ _ E property Hin) as H. simpl in H.
    rewrite Z.eqb_refl in H. discriminate.
Qed.

Lemma card_link_opens_its_property_witness :
  exists id,
    PropertyCard.to Fixture.flat = "/property/" +:+ id
    /\ PropertyDetail.propertyId (Some id) = JS.Int 2
    /\ PropertyDetail.lookup Fixture.catalog (Some id) (Fixture.stored "[]")
       = PropertyDetail.Shows (PropertyDetail.Details Fixture.flat).
Proof.
  apply (card_link_opens_its_property Fixture.catalog Fixture.flat (Fixture.stored "[]")).
  - apply (bool_decide_unpack _). vm_compute. exact I.
  - simpl. auto.
  - unfold Terms.withinDouble. simpl. lia.
  - right. exists []. reflexivity.
Defined.

(* ===================================================================== *)
(** * What [JSON.stringify] writes, [JSON.parse] reads *)
(* ===================================================================== *)

Module RoundTrip.
Import JS.JSON.

Lemma value_induction (P : value -> Prop) :
  P Null -> (forall b, P (Bool b)) -> (forall z, P (Integer z)) ->
  (forall literal, P (Decimal literal)) -> (forall s, P (Str s)) ->
  (forall elements, Forall P elements -> P (Array elements)) ->
  (forall members, Forall (fun m => P (snd m)) members -> P (Object members)) ->
  forall v, P v.
Proof.
  intros HN HB HI HD HS HA HO. fix IH 1.
  intros [ | b | z | literal | s | elements | members];
    [exact HN | apply HB | apply HI | apply HD | apply HS | | ].
  - apply HA. induction elements as [|e elements IHe]; constructor.
    + apply IH.
    + exact IHe.
  - apply HO. induction members as [|m members IHm]; constructor.
    + apply IH.
    + exact IHm.
Qed.

(** *** Texts *)

Lemma chars_escape_cons (c : ascii) (s rest : string) :
  chars (escape (String c s) +:+ rest)
  = prepend (String c EmptyString) (chars (escape s +:+ rest)).
Proof. destruct c as [[] [] [] [] [] [] [] []]; reflexivity. Qed.

Lemma chars_escape (s rest : string) :
  chars (escape s +:+ String dquote rest) = Some (s, rest).
Proof.
  induction s as [|c s IH]; [reflexivity|].
  rewrite chars_escape_cons, IH. reflexivity.
Qed.

Lemma quote_app (s rest : string) :
  quote s +:+ rest = String dquote (escape s +:+ String dquote rest).
Proof.
  unfold quote. rewrite append_cons, append_assoc. reflexivity.
Qed.

Lemma read_quote elements members (s rest : string) :
  value_step elements members (quote s +:+ rest) = Some (Str s, rest).
Proof.
  rewrite quote_app.
  change (match chars (escape s +:+ String dquote rest) with
          | Some (str, rest') => Some (Str str, rest')
          | None => None
          end = Some (Str s, rest)).
  now rewrite chars_escape.
Qed.

(** *** Integers *)

Lemma delimited_not_number (rest : string) :
  Terms.delimited rest ->
  span_digits rest = (EmptyString, rest)
  /\ fraction_part rest = Some (EmptyString, rest)
  /\ exponent_part rest = Some (EmptyString, rest)
  /\ skip rest = rest.
Proof.
  destruct rest as [|c rest]; [repeat split|].
  intros [-> | [-> | ->]]; repeat split.
Qed.

Lemma span_digits_app (ds rest : string) :
  Terms.decimalDigits ds -> Terms.delimited rest ->
  span_digits (ds +:+ rest) = (ds, rest).
Proof.
  intros Hds Hrest. induction ds as [|c ds IH].
  - apply (delimited_not_number rest Hrest).
  - unfold Terms.decimalDigits in Hds. simpl in Hds.
    apply Forall_cons in Hds. destruct Hds as [[d Hc] Hds].
    rewrite append_cons. simpl. rewrite Hc, (IH Hds). reflexivity.
Qed.

Lemma minus_part_digit (c : ascii) (d : Z) (r : string) :
  JS.decimal c = Some d -> minus_part (String c r) = (EmptyString, String c r).
Proof.
  intros Hc. unfold minus_part.
  destruct (Ascii.eqb_spec c "-"%char) as [-> | _]; [discriminate Hc | reflexivity].
Qed.

Lemma integer_part_app (c : ascii) (d : Z) (ds rest : string) :
  JS.decimal c = Some d -> (ds = EmptyString \/ 0 < d) ->
  Terms.decimalDigits (String c ds) -> Terms.delimited rest ->
  integer_part (String c ds +:+ rest) = Some (String c ds, rest).
Proof.
  intros Hc Hd Hds Hrest. unfold integer_part, digits_part.
  rewrite (span_digits_app _ _ Hds Hrest).
  destruct ds as [|a ds]; [reflexivity|].
  destruct (Ascii.eqb_spec c "0"%char) as [-> | _]; [|reflexivity].
  destruct Hd as [Hd | Hd]; [discriminate|]. vm_compute in Hc. injection Hc as <-. lia.
Qed.

Lemma number_literal_digits (c : ascii) (d : Z) (ds rest : string) :
  JS.decimal c = Some d -> (ds = EmptyString \/ 0 < d) ->
  Terms.decimalDigits (String c ds) -> Terms.delimited rest ->
  number_literal (String c ds +:+ rest)
  = Some (Integer (decimal_value (String c ds)), rest)
  /\ number_literal (String "-" (String c ds +:+ rest))
     = Some (Integer (- decimal_value (String c ds)), rest).
Proof.
  intros Hc Hd Hds Hrest.
  destruct (delimited_not_number rest Hrest) as (_ & Hf & He & _).
  split; unfold number_literal.
  - rewrite append_cons, (minus_part_digit c d) by exact Hc.
    rewrite <- append_cons, (integer_part_app c d) by assumption.
    rewrite Hf, He. reflexivity.
  - change (minus_part (String "-" ?r)) with ((String "-" EmptyString), r).
    cbv iota beta.
    rewrite (integer_part_app c d) by assumption.
    rewrite Hf, He. reflexivity.
Qed.

Lemma number_start (c : ascii) (d : Z) elements members (r : string) :
  JS.decimal c = Some d ->
  value_step elements members (String c r) = number_literal (String c r)
  /\ expect "]" (String c r) = None
  /\ expect "}" (String c r) = None.
Proof.
  destruct c as [[] [] [] [] [] [] [] []]; try discriminate; intros _; repeat split.
Qed.

Lemma read_integer elements members (z : Z) (rest : string) :
  Terms.delimited rest ->
  value_step elements members (pretty z +:+ rest) = Some (Integer z, rest)
  /\ expect "]" (pretty z +:+ rest) = None
  /\ expect "}" (pretty z +:+ rest) = None.
Proof.
  intros Hrest. destruct z as [|p|p].
  - change (pretty 0 +:+ rest) with (String "0"%char rest).
    destruct (number_start "0" 0 elements members rest eq_refl) as (-> & E1 & E2).
    split; [|split; assumption].
    refine (proj1 (number_literal_digits "0" 0 EmptyString rest eq_refl (or_introl eq_refl)
                     _ Hrest)).
    repeat constructor. eauto.
  - rewrite (proj1 (pretty_positive_unfold p)).
    pose proof (pretty_N_go_digits (N.pos p)) as Hds.
    pose proof (digits_pretty_N_go (N.pos p)) as Hv.
    destruct (pretty_N_go_first (N.pos p)) as (c & d & ds & E & Hc & Hd); [lia|].
    rewrite E in *. rewrite append_cons.
    destruct (number_start c d elements members (ds +:+ rest) Hc) as (-> & E1 & E2).
    split; [|split; assumption].
    rewrite <- append_cons.
    rewrite (proj1 (number_literal_digits c d ds rest Hc (or_intror Hd) Hds Hrest)).
    unfold decimal_value. rewrite Hv. reflexivity.
  - rewrite (proj2 (pretty_positive_unfold p)).
    pose proof (pretty_N_go_digits (N.pos p)) as Hds.
    pose proof (digits_pretty_N_go (N.pos p)) as Hv.
    destruct (pretty_N_go_first (N.pos p)) as (c & d & ds & E & Hc & Hd); [lia|].
    rewrite E in *. rewrite append_cons.
    split; [|split; reflexivity].
    change (value_step elements members (String "-" ?r))
      with (number_literal (String "-" r)).
    rewrite (proj2 (number_literal_digits c d ds rest Hc (or_intror Hd) Hds Hrest)).
    unfold decimal_value. rewrite Hv. reflexivity.
Qed.

(** *** Arrays and objects *)

Lemma join_one (x : string) : join [x] = x.
Proof. reflexivity. Qed.

Lemma join_more (x : string) (l : list string) :
  l <> [] -> join (x :: l) = x +:+ "," +:+ join l.
Proof. destruct l; [congruence | reflexivity]. Qed.

Lemma read_value_more (fuel fuel' : nat) (s : string) r :
  (fuel <= fuel')%nat -> read_value fuel s = Some r -> read_value fuel' s = Some r.
Proof. intros H. apply (JSONFacts.readers_mono _ _ H). Qed.

Lemma read_elements_more (fuel fuel' : nat) (s : string) r :
  (fuel <= fuel')%nat -> read_elements fuel s = Some r -> read_elements fuel' s = Some r.
Proof. intros H. apply (JSONFacts.readers_mono _ _ H). Qed.

Lemma read_members_more (fuel fuel' : nat) (s : string) r :
  (fuel <= fuel')%nat -> read_members fuel s = Some r -> read_members fuel' s = Some r.
Proof. intros H. apply (JSONFacts.readers_mono _ _ H). Qed.

Lemma read_elements_join (e : value) (es : list value) :
  Forall Terms.reads_back (e :: es) ->
  exists fuel, forall rest,
    read_elements fuel (join (List.map stringify (e :: es)) +:+ String "]" rest)
    = Some (e :: es, rest).
Proof.
  revert e. induction es as [|e' es IH]; intros e H;
    apply Forall_cons in H; destruct H as [[f1 He] Hes].
  - exists (S f1). intros rest. simpl List.map. rewrite join_one.
    change (read_elements (S f1) ?s)
      with (elements_step (read_value f1) (read_elements f1) s).
    unfold elements_step.
    destruct (He (String "]" rest) (or_intror (or_introl eq_refl))) as [Hread _].
    rewrite Hread. reflexivity.
  - destruct (IH e' Hes) as [f2 Hrest].
    exists (S (Nat.max f1 f2)). intros rest.
    change (List.map stringify (e :: e' :: es))
      with (stringify e :: List.map stringify (e' :: es)).
    rewrite join_more by discriminate. rewrite !append_assoc.
    change ("," +:+ ?x) with (String ","%char x).
    set (tail := join (List.map stringify (e' :: es)) +:+ String "]" rest) in *.
    destruct (He (String "," tail) (or_introl eq_refl)) as [Hread _].
    change (read_elements (S ?f) ?s)
      with (elements_step (read_value f) (read_elements f) s).
    unfold elements_step.
    rewrite (read_value_more f1 _ _ _ (Nat.le_max_l f1 f2) Hread).
    change (expect "," (String "," tail)) with (Some tail).
    cbv iota beta. subst tail.
    rewrite (read_elements_more f2 _ _ _ (Nat.le_max_r f1 f2) (Hrest rest)).
    reflexivity.
Qed.

Lemma read_members_join (m : string * value) (ms : list (string * value)) :
  Forall (fun m => Terms.reads_back (snd m)) (m :: ms) ->
  exists fuel, forall rest,
    read_members fuel (join (List.map Terms.member_text (m :: ms)) +:+ String "}" rest)
    = Some (m :: ms, rest).
Proof.
  revert m. induction ms as [|m' ms IH]; intros [k v] H;
    apply Forall_cons in H; destruct H as [[f1 Hv] Hms]; simpl in Hv.
  - exists (S f1). intros rest. simpl List.map. rewrite join_one.
    unfold Terms.member_text. simpl fst. simpl snd.
    rewrite !append_assoc, quote_app.
    change (":" +:+ ?x) with (String ":"%char x).
    change (read_members (S f1) ?s)
      with (members_step (read_value f1) (read_members f1) s).
    unfold members_step.
    change (expect dquote (String dquote ?x)) with (Some x). cbv iota beta.
    rewrite chars_escape.
    change (expect ":" (String ":" ?x)) with (Some x). cbv iota beta.
    destruct (Hv (String "}" rest) (or_intror (or_intror eq_refl))) as [Hread _].
    rewrite Hread. reflexivity.
  - destruct (IH m' Hms) as [f2 Hrest].
    exists (S (Nat.max f1 f2)). intros rest.
    change (List.map Terms.member_text ((k, v) :: m' :: ms))
      with (Terms.member_text (k, v) :: List.map Terms.member_text (m' :: ms)).
    rewrite join_more by discriminate. unfold Terms.member_text at 1. simpl fst. simpl snd.
    rewrite !append_assoc, quote_app.
    change (":" +:+ ?x) with (String ":"%char x).
    change ("," +:+ ?x) with (String ","%char x).
    set (tail := join (List.map Terms.member_text (m' :: ms)) +:+ String "}" rest) in *.
    destruct (Hv (String "," tail) (or_introl eq_refl)) as [Hread _].
    change (read_members (S ?f) ?s)
      with (members_step (read_value f) (read_members f) s).
    unfold members_step.
    change (expect dquote (String dquote ?x)) with (Some x). cbv iota beta.
    rewrite chars_escape.
    change (expect ":" (String ":" ?x)) with (Some x). cbv iota beta.
    rewrite (read_value_more f1 _ _ _ (Nat.le_max_l f1 f2) Hread).
    change (expect "," (String "," tail)) with (Some tail). cbv iota beta. subst tail.
    rewrite (read_members_more f2 _ _ _ (Nat.le_max_r f1 f2) (Hrest rest)).
    reflexivity.
Qed.

Lemma plain_array (elements : list value) :
  Terms.plain (Array elements) <-> Forall Terms.plain elements.
Proof.
  simpl. induction elements as [|e elements IH]; simpl.
  - split; constructor.
  - rewrite Forall_cons, IH. reflexivity.
Qed.

Lemma plain_object (members : list (string * value)) :
  Terms.plain (Object members) <-> Forall (fun m => Terms.plain (snd m)) members.
Proof.
  simpl. induction members as [|m members IH]; simpl.
  - split; constructor.
  - rewrite Forall_cons, IH. reflexivity.
Qed.

Lemma stringify_array (elements : list value) (rest : string) :
  stringify (Array elements) +:+ rest
  = String "[" (join (List.map stringify elements) +:+ String "]" rest).
Proof.
  change (stringify (Array elements))
    with ("[" +:+ join (List.map stringify elements) +:+ "]").
  now rewrite !append_assoc.
Qed.

Lemma stringify_object (members : list (string * value)) (rest : string) :
  stringify (Object members) +:+ rest
  = String "{" (join (List.map Terms.member_text members) +:+ String "}" rest).
Proof.
  change (stringify (Object members))
    with ("{" +:+ join (List.map Terms.member_text members) +:+ "}").
  now rewrite !append_assoc.
Qed.

(** Every plain value is read back from its text. *)
Lemma plain_reads_back (v : value) : Terms.plain v -> Terms.reads_back v.
Proof.
  induction v as [ | b | z | literal | s | elements IH | members IH]
    using value_induction; intros Hp.
  - exists 1%nat. intros rest _. split; reflexivity.
  - exists 1%nat. intros rest _. destruct b; split; reflexivity.
  - exists 1%nat. intros rest Hrest.
    destruct (read_integer (read_elements 0) (read_members 0) z rest Hrest) as (H & E & _).
    split; assumption.
  - destruct Hp.
  - exists 1%nat. intros rest _. split.
    + apply read_quote.
    + change (stringify (Str s)) with (quote s). rewrite quote_app. reflexivity.
  - apply plain_array in Hp.
    assert (Forall Terms.reads_back elements) as Hall.
    { clear -IH Hp. induction elements as [|e es IHes]; constructor;
        apply Forall_cons in IH, Hp; destruct IH, Hp; auto. }
    destruct elements as [|e es].
    + exists 1%nat. intros rest _. split; reflexivity.
    + destruct (read_elements_join e es Hall) as [f Hf].
      apply Forall_cons in Hall. destruct Hall as [[fe He] _].
      exists (S f). intros rest _. rewrite stringify_array. split; [|reflexivity].
      change (read_value (S f) ?s)
        with (value_step (read_elements f) (read_members f) s).
      change (value_step ?e ?m (String "[" ?r))
        with (match expect "]" r with
              | Some rest' => Some (Array [], rest')
              | None => match e r with
                        | Some (vs, rest') => Some (Array vs, rest')
                        | None => None
                        end
              end).
      rewrite Hf.
      assert (expect "]" (join (List.map stringify (e :: es)) +:+ String "]" rest) = None)
        as ->; [|reflexivity].
      destruct es as [|e' es].
      * simpl List.map. rewrite join_one.
        apply (He (String "]" rest)). right. left. reflexivity.
      * change (List.map stringify (e :: e' :: es))
          with (stringify e :: List.map stringify (e' :: es)).
        rewrite join_more by discriminate. rewrite !append_assoc.
        change ("," +:+ ?x) with (String ","%char x).
        apply (He (String "," _)). left. reflexivity.
  - apply plain_object in Hp.
    assert (Forall (fun m => Terms.reads_back (snd m)) members) as Hall.
    { clear -IH Hp. induction members as [|m ms IHms]; constructor;
        apply Forall_cons in IH, Hp; destruct IH, Hp; auto. }
    destruct members as [|m ms].
    + exists 1%nat. intros rest _. split; reflexivity.
    + destruct (read_members_join m ms Hall) as [f Hf].
      exists (S f). intros rest _. rewrite stringify_object. split; [|reflexivity].
      change (read_value (S f) ?s)
        with (value_step (read_elements f) (read_members f) s).
      change (value_step ?e ?mm (String "{" ?r))
        with (match expect "}" r with
              | Some rest' => Some (Object [], rest')
              | None => match mm r with
                        | Some (vs, rest') => Some (Object vs, rest')
                        | None => None
                        end
              end).
      rewrite Hf.
      assert (expect "}" (join (List.map Terms.member_text (m :: ms)) +:+ String "}" rest) = None)
        as ->; [|reflexivity].
      destruct m as [k v]. destruct ms as [|m' ms].
      * simpl List.map. rewrite join_one. unfold Terms.member_text. simpl fst.
        rewrite !append_assoc, quote_app. reflexivity.
      * change (List.map Terms.member_text ((k, v) :: m' :: ms))
          with (Terms.member_text (k, v) :: List.map Terms.member_text (m' :: ms)).
        rewrite join_more by discriminate. unfold Terms.member_text at 1. simpl fst.
        rewrite !append_assoc, quote_app. reflexivity.
Qed.

(** [JSON.parse(JSON.stringify(v))] is [v], for every plain [v]. *)
Lemma parse_stringify (v : value) : Terms.plain v -> parse (stringify v) = Some v.
Proof.
  intros Hp. destruct (plain_reads_back v Hp) as [fuel H].
  apply JSONFacts.parse_fuel_is_enough. exists fuel, EmptyString.
  split; [|reflexivity].
  rewrite <- (append_empty (stringify v)). apply (H EmptyString). exact I.
Qed.
End RoundTrip.

(* ===================================================================== *)
(** * The favourites in the storage and across a reload *)
(* ===================================================================== *)

Lemma plain_toJSON (p : Property) : Terms.plain (Property.toJSON p).
Proof.
  simpl. repeat split.
  induction (Property.images p) as [|image images IH]; simpl; auto.
Qed.

Lemma mapM_asString (images : list string) :
  mapM Property.asString (List.map JS.JSON.Str images) = Some images.
Proof.
  induction images as [|image images IH]; [reflexivity|].
  simpl. rewrite IH. reflexivity.
Qed.

Lemma ofJSON_toJSON (p : Property) : Property.ofJSON (Property.toJSON p) = Some p.
Proof.
  destruct p. unfold Property.ofJSON, Property.toJSON, Property.stringsField.
  simpl. rewrite mapM_asString. reflexivity.
Qed.

Lemma listOfJSON_toJSON (favorites : list Property) :
  Property.listOfJSON (JS.JSON.Array (List.map Property.toJSON favorites))
  = Some favorites.
Proof.
  unfold Property.listOfJSON.
  induction favorites as [|p favorites IH]; [reflexivity|].
  simpl List.map. simpl mapM. rewrite ofJSON_toJSON. simpl.
  rewrite IH. reflexivity.
Qed.

Lemma parse_stringifyFavorites (favorites : list Property) :
  JS.JSON.parse (Index.stringifyFavorites favorites)
  = Some (JS.JSON.Array (List.map Property.toJSON favorites))
  /\ JS.truthy_string (Index.stringifyFavorites favorites) = true.
Proof.
  unfold Index.stringifyFavorites. split.
  - apply RoundTrip.parse_stringify. apply RoundTrip.plain_array.
    induction favorites as [|p favorites IH]; constructor; [apply plain_toJSON | exact IH].
  - reflexivity.
Qed.

Lemma useEffect_after_setItem (favorites : list Property) (localStorage : Storage) :
  Index.useEffect (<["propertyFavorites" := Index.stringifyFavorites favorites]> localStorage)
  = SetFavorites (JS.JSON.Array (List.map Property.toJSON favorites)).
Proof.
  unfold Index.useEffect. rewrite lookup_insert_eq.
  destruct (parse_stringifyFavorites favorites) as [-> ->]. reflexivity.
Qed.

Lemma persisted_after_setItem (favorites : list Property) (localStorage : Storage) :
  Terms.persisted
    (<["propertyFavorites" := Index.stringifyFavorites favorites]> localStorage) favorites.
Proof.
  exists (Index.stringifyFavorites favorites).
  split; [apply lookup_insert_eq|].
  unfold Terms.snapshotOf.
  rewrite (proj1 (parse_stringifyFavorites favorites)). apply listOfJSON_toJSON.
Qed.

(** C3.  [handleFavorite], which is also the removal of the panel, leaves
    in the slot "propertyFavorites" a serialization of the favourites it
    has just set, on the search page and on the detail page: a text from
    which [JSON.parse] reads these records back, all of them, with all
    their fields and in their order.  [clearFavorites] leaves the
    favourites empty and the slot absent, which is not the slot holding a
    serialization of the empty list.  No other slot changes. *)
Theorem mutations_are_persisted
    (property : Property) (st : Index.state) (localStorage : Storage) :
  let toggled := Index.handleFavorite property st localStorage in
  let removed := Index.onRemoveFavorite property st localStorage in
  let cleared := Index.onClearAll st localStorage in
  Terms.persisted (snd toggled) (Index.favorites (fst toggled))
  /\ Terms.persisted (snd removed) (Index.favorites (fst removed))
  /\ (forall detail : PropertyDetail.state,
        PropertyDetail.property detail = Some property ->
        let toggled' := PropertyDetail.handleFavorite detail localStorage in
        Terms.persisted (snd toggled') (PropertyDetail.favorites (fst toggled')))
  /\ Index.favorites (fst cleared) = []
  /\ snd cleared !! "propertyFavorites" = None
  /\ ~ Terms.persisted (snd cleared) []
  /\ (forall key : string, key <> "propertyFavorites" ->
        snd toggled !! key = localStorage !! key
        /\ snd cleared !! key = localStorage !! key).
Proof.
  cbv zeta. unfold Index.onRemoveFavorite, Index.onClearAll. simpl.
  split; [apply persisted_after_setItem|].
  split; [apply persisted_after_setItem|].
  split.
  { intros detail Hp. rewrite (detail_handleFavorite property) by exact Hp.
    simpl. apply persisted_after_setItem. }
  split; [reflexivity|].
  split; [apply lookup_delete_eq|].
  split.
  { intros (text & H & _). rewrite lookup_delete_eq in H. discriminate H. }
  intros key Hkey. split.
  - now apply lookup_insert_ne.
  - now apply lookup_delete_ne.
Qed.

(** X18.  The favourites that [handleFavorite] has just stored are the
    favourites that the loading effect of either page sets at the next
    visit: the stored text is read without error, and the value read is the
    list of the records, field by field, in the same order.  This holds for
    the handler of the search page and for that of the detail page. *)
Theorem stored_favourites_are_loaded_back
    (property : Property) (st : Index.state) (detail : PropertyDetail.state)
    (localStorage : Storage) :
  (exists v,
     Index.useEffect (snd (Index.handleFavorite property st localStorage)) = SetFavorites v
     /\ (forall propertiesData id st',
           snd (PropertyDetail.useEffect propertiesData id st'
                  (snd (Index.handleFavorite property st localStorage)))
           = SetFavorites v)
     /\ Property.listOfJSON v
        = Some (Index.favorites (fst (Index.handleFavorite property st localStorage))))
  /\ (PropertyDetail.property detail = Some property ->
      exists v,
        Index.useEffect (snd (PropertyDetail.handleFavorite detail localStorage))
        = SetFavorites v
        /\ Property.listOfJSON v
           = Some (PropertyDetail.favorites
                     (fst (PropertyDetail.handleFavorite detail localStorage)))).
Proof.
  split.
  - eexists. split; [apply useEffect_after_setItem|].
    split; [intros; rewrite detail_hydration; apply useEffect_after_setItem|].
    apply listOfJSON_toJSON.
  - intros Hp. rewrite (detail_handleFavorite property) by exact Hp.
    eexists. split; [apply useEffect_after_setItem | apply listOfJSON_toJSON].
Qed.

(** X19.  After [clearFavorites] the loading effect of either page finds
    no stored favourites and sets nothing: the next visit starts with no
    favourite, whatever was stored before. *)
Theorem cleared_favourites_stay_cleared
    (st : Index.state) (localStorage : Storage) :
  Index.useEffect (snd (Index.clearFavorites st localStorage)) = Kept
  /\ (forall propertiesData id st',
        snd (PropertyDetail.useEffect propertiesData id st'
               (snd (Index.clearFavorites st localStorage))) = Kept)
  /\ (forall propertyId,
        Index.isFavorite propertyId (fst (Index.clearFavorites st localStorage)) = false)
  /\ FavoritesPanel.clearButton
       (Index.favorites (fst (Index.clearFavorites st localStorage)))
       (Index.onClearAll) = None.
Proof.
  assert (Index.useEffect (snd (Index.clearFavorites st localStorage)) = Kept) as H.
  { unfold Index.useEffect, Index.clearFavorites. simpl. now rewrite lookup_delete_eq. }
  split; [exact H|]. split; [intros; rewrite detail_hydration; exact H|].
  split; reflexivity.
Qed.
